(** * Session, request client and route guards of the DiabetesDiet front-end

    A shallow embedding of
    - [frontend/src/stores/authStore.js]  (the persistent session store),
    - [api/client.js]                     (the axios instance with its two interceptors),
    - [api/auth.js]                       (the auth API adapter),
    - [frontend/src/App.jsx]              (the four route guards),
    - [frontend/src/pages/Register.jsx]   (the registration submit handler).

    JavaScript values are a small inductive type, [localStorage] is a finite
    map from strings to strings, and effectful code runs in a state, exception
    and trace monad whose trace records the order of the observable effects. *)

From Stdlib Require Import ZArith Ascii String List Lia.
From stdpp Require Import gmap strings pretty.
Import ListNotations.

#[local] Set Warnings "-register-all".

(** ** JavaScript values *)

(** Numbers are restricted to the integers (ids, HTTP statuses, lengths),
    meant below 10^21 in magnitude, where JavaScript prints them in plain
    decimal; the floating-point part of JavaScript numbers is not modelled.
    A string is held as the bytes of its UTF-8 encoding. *)
Inductive value : Type :=
| VUndefined
| VNull
| VBool (b : bool)
| VNum (n : Z)
| VStr (s : string)
| VArr (items : list value)
| VObj (fields : list (string * value)).

(** ToBoolean, as used by [x ? a : b], [!x] and [x || y]. *)
Definition truthy (v : value) : bool :=
  match v with
  | VUndefined | VNull => false
  | VBool b => b
  | VNum n => negb (n =? 0)%Z
  | VStr EmptyString => false
  | VStr (String _ _) => true
  | VArr _ | VObj _ => true
  end.

(** [a || b] *)
Definition js_or (a b : value) : value := if truthy a then a else b.

(** ToString, as used by template literals, [localStorage.setItem] and
    [URLSearchParams.append]. *)
Fixpoint to_string (v : value) : string :=
  match v with
  | VUndefined => "undefined"
  | VNull => "null"
  | VBool true => "true"
  | VBool false => "false"
  | VNum n => pretty n
  | VStr s => s
  | VArr items =>
      (fix join (l : list value) : string :=
         match l with
         | [] => ""
         | x :: rest =>
             let sx := match x with
                       | VUndefined | VNull => ""
                       | _ => to_string x
                       end in
             match rest with
             | [] => sx
             | _ :: _ => sx +:+ "," +:+ join rest
             end
         end) items
  | VObj _ => "[object Object]"
  end.

(** [x === "s"] for a string literal on the right. *)
Definition strict_eq_str (v : value) (s : string) : bool :=
  match v with
  | VStr s' => String.eqb s' s
  | _ => false
  end.

(** Own-property lookup in an object literal. *)
Fixpoint assoc (k : string) (fields : list (string * value)) : value :=
  match fields with
  | [] => VUndefined
  | (k', v) :: rest => if String.eqb k k' then v else assoc k rest
  end.

Definition is_nullish (v : value) : bool :=
  match v with
  | VUndefined | VNull => true
  | _ => false
  end.

(** The UTF-16 code units that the code point starting at a byte takes:
    one when it is encoded in one, two or three bytes, two (a surrogate
    pair) when it is encoded in four; a continuation byte starts nothing. *)
Definition utf16_units (c : ascii) : nat :=
  let n := nat_of_ascii c in
  if n <? 128 then 1
  else if n <? 192 then 0
  else if n <? 240 then 1
  else 2.

(** [s.length]: JavaScript counts UTF-16 code units. *)
Fixpoint utf16_length (s : string) : nat :=
  match s with
  | EmptyString => 0
  | String c rest => utf16_units c + utf16_length rest
  end.

(** [v.k] for a [v] that is neither [null] nor [undefined]. *)
Definition prop (v : value) (k : string) : value :=
  match v with
  | VObj fields => assoc k fields
  | VStr s => if String.eqb k "length" then VNum (Z.of_nat (utf16_length s)) else VUndefined
  | VArr items => if String.eqb k "length" then VNum (Z.of_nat (List.length items)) else VUndefined
  | _ => VUndefined
  end.

(** [v?.k] *)
Definition opt_member (v : value) (k : string) : value :=
  if is_nullish v then VUndefined else prop v k.

(** ** HTTP requests, responses and errors *)

Inductive http_method : Type := GET | POST | PUT | DELETE.

(** The [data] argument of an axios call: nothing, a [URLSearchParams]
    (an ordered list of name/value pairs, sent form-encoded) or a plain
    object (sent as JSON). *)
Inductive body : Type :=
| NoBody
| FormBody (pairs : list (string * string))
| JsonBody (v : value).

Record request : Type := mkRequest {
  method : http_method;
  baseURL : string;
  url : string;
  headers : gmap string string;
  data : body;
  params : value;
  responseType : value;
  timeout : Z
}.

Record response : Type := mkResponse {
  status : Z;
  resp_data : value
}.

(** An axios error: [err.response] is absent for network failures and
    timeouts. *)
Record axios_error : Type := mkAxiosError {
  err_response : option response
}.

Inductive exn : Type :=
| SyntaxError
| TypeError
| AxiosError (e : axios_error).

Inductive outcome (A : Type) : Type :=
| Ok (a : A)
| Throw (e : exn).
Arguments Ok {A} a.
Arguments Throw {A} e.

(** ** The browser state and the effect monad *)

(** The zustand store state of [useAuthStore]. *)
Record Session : Type := mkSession {
  token : value;
  user : value
}.

Record World : Type := mkWorld {
  localStorage : gmap string string;
  store : Session
}.

Inductive event : Type :=
| EvSetItem (k v : string)
| EvRemoveItem (k : string)
| EvStoreSet (s : Session)
| EvLocation (href : string)
| EvHttp (r : request)
| EvNavigate (path : string)
| EvToastError (msg : value)
| EvToastSuccess (msg : string)
| EvSetLoading (b : bool)
| EvPreventDefault.

Definition M (A : Type) : Type := World -> outcome A * World * list event.

Definition ret {A : Type} (a : A) : M A := fun w => (Ok a, w, []).

Definition throw {A : Type} (e : exn) : M A := fun w => (Throw e, w, []).

Definition bind {A B : Type} (m : M A) (f : A -> M B) : M B := fun w =>
  match m w with
  | (Ok a, w1, t1) =>
      match f a w1 with
      | (r, w2, t2) => (r, w2, t1 ++ t2)
      end
  | (Throw e, w1, t1) => (Throw e, w1, t1)
  end.

(** [try { body } catch (err) { handler err }] *)
Definition try_catch {A : Type} (body : M A) (handler : exn -> M A) : M A := fun w =>
  match body w with
  | (Ok a, w1, t1) => (Ok a, w1, t1)
  | (Throw e, w1, t1) =>
      match handler e w1 with
      | (r, w2, t2) => (r, w2, t1 ++ t2)
      end
  end.

(** [try { body } finally { fin }] *)
Definition finally {A : Type} (body : M A) (fin : M unit) : M A := fun w =>
  match body w with
  | (r, w1, t1) =>
      match fin w1 with
      | (Ok _, w2, t2) => (r, w2, t1 ++ t2)
      | (Throw e, w2, t2) => (Throw e, w2, t1 ++ t2)
      end
  end.

Declare Scope js_scope.
Delimit Scope js_scope with js.
Notation "x <- m ;; k" := (bind m (fun x => k))
  (at level 100, m at next level, right associativity) : js_scope.
Notation "m ;;; k" := (bind m (fun _ => k))
  (at level 100, right associativity) : js_scope.
Open Scope js_scope.

Definition emit (e : event) : M unit := fun w => (Ok tt, w, [e]).

Definition dd_token : string := "dd_token".
Definition dd_user : string := "dd_user".

(** What [localStorage.getItem(k)] returns in world [w]: the stored string,
    or [null]. *)
Definition entry (k : string) (w : World) : value :=
  match localStorage w !! k with
  | Some s => VStr s
  | None => VNull
  end.

Definition getItem (k : string) : M value := fun w => (Ok (entry k w), w, []).

(** [localStorage.setItem(k, v)]: the value is converted with ToString. *)
Definition setItem (k : string) (v : value) : M unit := fun w =>
  (Ok tt,
   mkWorld (<[k := to_string v]> (localStorage w)) (store w),
   [EvSetItem k (to_string v)]).

(** [localStorage.removeItem(k)] *)
Definition removeItem (k : string) : M unit := fun w =>
  (Ok tt, mkWorld (delete k (localStorage w)) (store w), [EvRemoveItem k]).

(** zustand's [set(partial)]: merges a partial state into the store. *)
Definition set_store (f : Session -> Session) : M unit := fun w =>
  (Ok tt, mkWorld (localStorage w) (f (store w)), [EvStoreSet (f (store w))]).

Definition result_of {A : Type} (r : outcome A * World * list event) : outcome A := r.1.1.
Definition world_of {A : Type} (r : outcome A * World * list event) : World := r.1.2.
Definition trace_of {A : Type} (r : outcome A * World * list event) : list event := r.2.

(** ** Route guards ([App.jsx]) *)

(** What a guard component returns: its children, or a
    [<Navigate to=... replace />] element. *)
Inductive element : Type :=
| Children
| Navigate (to : string) (replace : bool).

Definition RequireAuth (s : Session) : element :=
  if truthy (token s) then Children else Navigate "/login" true.

Definition RequireInvestigator (s : Session) : element :=
  if negb (truthy (token s)) then Navigate "/login" true
  else if negb (strict_eq_str (opt_member (user s) "role") "investigator")
       then Navigate "/dashboard" true
       else Children.

Definition RequirePatient (s : Session) : element :=
  if negb (truthy (token s)) then Navigate "/login" true
  else if strict_eq_str (opt_member (user s) "role") "investigator"
       then Navigate "/investigator" true
       else Children.

Definition PublicOnly (s : Session) : element :=
  if negb (truthy (token s)) then Children
  else Navigate (if strict_eq_str (opt_member (user s) "role") "investigator"
                 then "/investigator" else "/dashboard") true.

(** *** The guard table of the specification *)

Inductive guard : Type := GRequireAuth | GRequirePatient | GRequireInvestigator | GPublicOnly.

Definition run_guard (g : guard) : Session -> element :=
  match g with
  | GRequireAuth => RequireAuth
  | GRequirePatient => RequirePatient
  | GRequireInvestigator => RequireInvestigator
  | GPublicOnly => PublicOnly
  end.

(** The observable inputs of the table: no token, or a token together with
    the role ([RoleOther]: role absent or neither of the two known roles). *)
Inductive role_class : Type := RolePatient | RoleInvestigator | RoleOther.
Inductive auth_state : Type := NoToken | HasToken (r : role_class).

Definition hasToken (s : Session) : bool := truthy (token s).
Definition role_of (s : Session) : value := opt_member (user s) "role".

Definition classify (has_token : bool) (role : value) : auth_state :=
  if has_token then
    HasToken (if strict_eq_str role "investigator" then RoleInvestigator
              else if strict_eq_str role "patient" then RolePatient
              else RoleOther)
  else NoToken.

Definition login_route : string := "/login".
Definition patient_home : string := "/dashboard".
Definition investigator_home : string := "/investigator".

Definition render : element := Children.
Definition redirect (to : string) : element := Navigate to true.

(** The 4x3 table of the specification, row by row; the last column is the
    rule that an unknown or missing role is treated as patient. *)
Definition guard_table (g : guard) (a : auth_state) : element :=
  match g, a with
  | GRequireAuth, NoToken => redirect login_route
  | GRequireAuth, HasToken RolePatient => render
  | GRequireAuth, HasToken RoleInvestigator => render
  | GRequireAuth, HasToken RoleOther => render
  | GRequirePatient, NoToken => redirect login_route
  | GRequirePatient, HasToken RolePatient => render
  | GRequirePatient, HasToken RoleInvestigator => redirect investigator_home
  | GRequirePatient, HasToken RoleOther => render
  | GRequireInvestigator, NoToken => redirect login_route
  | GRequireInvestigator, HasToken RolePatient => redirect patient_home
  | GRequireInvestigator, HasToken RoleInvestigator => render
  | GRequireInvestigator, HasToken RoleOther => redirect patient_home
  | GPublicOnly, NoToken => render
  | GPublicOnly, HasToken RolePatient => redirect patient_home
  | GPublicOnly, HasToken RoleInvestigator => redirect investigator_home
  | GPublicOnly, HasToken RoleOther => redirect patient_home
  end.

(** ** A reference JSON codec

    [JSON.parse] and [JSON.stringify] are browser built-ins.  The store is
    verified against any pair of functions with their interface (see
    [Section Platform]); the codec below follows ECMA-404 on the modelled
    values and instantiates that interface in the closed examples.  Number
    literals with a fraction or an exponent have no counterpart in [value]
    and are rejected by it. *)
Module JSON.

Definition code (c : ascii) : N := N_of_ascii c.
Definition chr (n : N) : ascii := ascii_of_N n.
Definition str1 (n : N) : string := String (chr n) EmptyString.

Definition hex_digit (n : N) : ascii :=
  if (n <? 10)%N then chr (48 + n) else chr (87 + n).

(** Characters that [JSON.stringify] escapes inside a string literal. *)
Definition escape_char (c : ascii) : string :=
  let n := code c in
  if (n =? 34)%N then str1 92 +:+ str1 34
  else if (n =? 92)%N then str1 92 +:+ str1 92
  else if (n =? 8)%N then str1 92 +:+ "b"
  else if (n =? 9)%N then str1 92 +:+ "t"
  else if (n =? 10)%N then str1 92 +:+ "n"
  else if (n =? 12)%N then str1 92 +:+ "f"
  else if (n =? 13)%N then str1 92 +:+ "r"
  else if (n <? 32)%N then
    str1 92 +:+ "u00" +:+ String (hex_digit (n / 16)) (String (hex_digit (n mod 16)) EmptyString)
  else String c EmptyString.

Fixpoint escape (s : string) : string :=
  match s with
  | EmptyString => EmptyString
  | String c rest => escape_char c +:+ escape rest
  end.

Definition quote (s : string) : string := str1 34 +:+ escape s +:+ str1 34.

Fixpoint join_commas (l : list string) : string :=
  match l with
  | [] => ""
  | [x] => x
  | x :: rest => x +:+ "," +:+ join_commas rest
  end.

(** [JSON.stringify(v)]; [None] stands for the result [undefined]. *)
Fixpoint stringify (v : value) : option string :=
  match v with
  | VUndefined => None
  | VNull => Some "null"
  | VBool true => Some "true"
  | VBool false => Some "false"
  | VNum n => Some (pretty n)
  | VStr s => Some (quote s)
  | VArr items =>
      Some ("[" +:+
            join_commas
              ((fix elems (l : list value) : list string :=
                  match l with
                  | [] => []
                  | x :: rest =>
                      match stringify x with
                      | Some sx => sx :: elems rest
                      | None => "null" :: elems rest
                      end
                  end) items)
            +:+ "]")
  | VObj fields =>
      Some ("{" +:+
            join_commas
              ((fix members (l : list (string * value)) : list string :=
                  match l with
                  | [] => []
                  | (k, x) :: rest =>
                      match stringify x with
                      | Some sx => (quote k +:+ ":" +:+ sx) :: members rest
                      | None => members rest
                      end
                  end) fields)
            +:+ "}")
  end.

Definition is_ws (c : ascii) : bool :=
  let n := code c in
  (n =? 32)%N || (n =? 9)%N || (n =? 10)%N || (n =? 13)%N.

Fixpoint skip_ws (s : string) : string :=
  match s with
  | String c rest => if is_ws c then skip_ws rest else s
  | EmptyString => s
  end.

Definition hex_value (c : ascii) : option N :=
  let n := code c in
  if (48 <=? n)%N && (n <=? 57)%N then Some (n - 48)%N
  else if (97 <=? n)%N && (n <=? 102)%N then Some (n - 87)%N
  else if (65 <=? n)%N && (n <=? 70)%N then Some (n - 55)%N
  else None.

(** UTF-8 encoding of a code point of the basic multilingual plane. *)
Definition utf8 (n : N) : string :=
  if (n <? 128)%N then str1 n
  else if (n <? 2048)%N then str1 (192 + n / 64) +:+ str1 (128 + n mod 64)
  else str1 (224 + n / 4096) +:+ str1 (128 + (n / 64) mod 64) +:+ str1 (128 + n mod 64).

(** The characters after an opening quote, up to the closing quote. *)
Fixpoint parse_string_body (s : string) : option (string * string) :=
  match s with
  | EmptyString => None
  | String c rest =>
      let n := code c in
      if (n =? 34)%N then Some (EmptyString, rest)
      else if (n =? 92)%N then
        match rest with
        | EmptyString => None
        | String e rest' =>
            let m := code e in
            if (m =? 117)%N then
              match rest' with
              | String h1 (String h2 (String h3 (String h4 rest''))) =>
                  match hex_value h1, hex_value h2, hex_value h3, hex_value h4 with
                  | Some a, Some b, Some c', Some d =>
                      match parse_string_body rest'' with
                      | Some (body, tail) =>
                          Some (utf8 (((a * 16 + b) * 16 + c') * 16 + d) +:+ body, tail)
                      | None => None
                      end
                  | _, _, _, _ => None
                  end
              | _ => None
              end
            else
              let unescaped :=
                if (m =? 34)%N then Some (chr 34)
                else if (m =? 92)%N then Some (chr 92)
                else if (m =? 47)%N then Some (chr 47)
                else if (m =? 98)%N then Some (chr 8)
                else if (m =? 102)%N then Some (chr 12)
                else if (m =? 110)%N then Some (chr 10)
                else if (m =? 114)%N then Some (chr 13)
                else if (m =? 116)%N then Some (chr 9)
                else None in
              match unescaped, parse_string_body rest' with
              | Some c', Some (body, tail) => Some (String c' body, tail)
              | _, _ => None
              end
        end
      else if (n <? 32)%N then None
      else
        match parse_string_body rest with
        | Some (body, tail) => Some (String c body, tail)
        | None => None
        end
  end.

Definition is_digit (c : ascii) : bool :=
  let n := code c in (48 <=? n)%N && (n <=? 57)%N.

Fixpoint parse_digits (acc : N) (s : string) : N * string :=
  match s with
  | String c rest =>
      if is_digit c then parse_digits (acc * 10 + (code c - 48))%N rest else (acc, s)
  | EmptyString => (acc, s)
  end.

(** After an integer literal: a fraction or exponent is not supported. *)
Definition number_ends (s : string) : bool :=
  match s with
  | String c _ =>
      let n := code c in
      negb ((n =? 46)%N || (n =? 101)%N || (n =? 69)%N)
  | EmptyString => true
  end.

(** [int = "0" | digit1-9 digit*], the leading character already checked to
    be a digit. *)
Definition parse_unsigned (s : string) : option (N * string) :=
  match s with
  | String c rest =>
      if (code c =? 48)%N then
        match rest with
        | String d _ => if is_digit d then None else
                          if number_ends rest then Some (0%N, rest) else None
        | EmptyString => Some (0%N, rest)
        end
      else if is_digit c then
        let '(n, tail) := parse_digits 0 s in
        if number_ends tail then Some (n, tail) else None
      else None
  | EmptyString => None
  end.

Fixpoint expect (lit : string) (s : string) : option string :=
  match lit, s with
  | EmptyString, _ => Some s
  | String a lit', String b s' => if Ascii.eqb a b then expect lit' s' else None
  | String _ _, EmptyString => None
  end.

(** Recursive descent over values, arrays and objects.  [parse_elements]
    reads [value ("," value)* "]"] and [parse_members] reads
    [string ":" value ("," string ":" value)* "}"]. *)
Fixpoint parse_value (fuel : nat) (s : string) : option (value * string) :=
  match fuel with
  | O => None
  | S fuel' =>
      match skip_ws s with
      | EmptyString => None
      | String c rest =>
          let n := code c in
          if (n =? 110)%N then
            match expect "ull" rest with Some tail => Some (VNull, tail) | None => None end
          else if (n =? 116)%N then
            match expect "rue" rest with Some tail => Some (VBool true, tail) | None => None end
          else if (n =? 102)%N then
            match expect "alse" rest with Some tail => Some (VBool false, tail) | None => None end
          else if (n =? 34)%N then
            match parse_string_body rest with
            | Some (body, tail) => Some (VStr body, tail)
            | None => None
            end
          else if (n =? 91)%N then
            match skip_ws rest with
            | String c' tail =>
                if (code c' =? 93)%N then Some (VArr [], tail)
                else match parse_elements fuel' rest with
                     | Some (items, tail') => Some (VArr items, tail')
                     | None => None
                     end
            | EmptyString => None
            end
          else if (n =? 123)%N then
            match skip_ws rest with
            | String c' tail =>
                if (code c' =? 125)%N then Some (VObj [], tail)
                else match parse_members fuel' rest with
                     | Some (fields, tail') => Some (VObj fields, tail')
                     | None => None
                     end
            | EmptyString => None
            end
          else if (n =? 45)%N then
            match parse_unsigned rest with
            | Some (m, tail) => Some (VNum (- Z.of_N m), tail)
            | None => None
            end
          else
            match parse_unsigned (String c rest) with
            | Some (m, tail) => Some (VNum (Z.of_N m), tail)
            | None => None
            end
      end
  end
with parse_elements (fuel : nat) (s : string) : option (list value * string) :=
  match fuel with
  | O => None
  | S fuel' =>
      match parse_value fuel' s with
      | Some (v, rest) =>
          match skip_ws rest with
          | String c tail =>
              if (code c =? 44)%N then
                match parse_elements fuel' tail with
                | Some (vs, tail') => Some (v :: vs, tail')
                | None => None
                end
              else if (code c =? 93)%N then Some ([v], tail)
              else None
          | EmptyString => None
          end
      | None => None
      end
  end
with parse_members (fuel : nat) (s : string) : option (list (string * value) * string) :=
  match fuel with
  | O => None
  | S fuel' =>
      match skip_ws s with
      | String q rest =>
          if (code q =? 34)%N then
            match parse_string_body rest with
            | Some (k, rest1) =>
                match skip_ws rest1 with
                | String colon rest2 =>
                    if (code colon =? 58)%N then
                      match parse_value fuel' rest2 with
                      | Some (v, rest3) =>
                          match skip_ws rest3 with
                          | String c tail =>
                              if (code c =? 44)%N then
                                match parse_members fuel' tail with
                                | Some (fs, tail') => Some ((k, v) :: fs, tail')
                                | None => None
                                end
                              else if (code c =? 125)%N then Some ([(k, v)], tail)
                              else None
                          | EmptyString => None
                          end
                      | None => None
                      end
                    else None
                | EmptyString => None
                end
            | None => None
            end
          else None
      | EmptyString => None
      end
  end.

(** [JSON.parse(text)]; [None] stands for a thrown [SyntaxError]. *)
Definition parse (text : string) : option value :=
  match parse_value (2 * String.length text + 4) text with
  | Some (v, rest) =>
      match skip_ws rest with
      | EmptyString => Some v
      | String _ _ => None
      end
  | None => None
  end.

End JSON.

(** *** Flat objects

    The objects the reference codec is shown to read back: every field holds
    [null], a boolean, an integer or a string (a user record
    [{ id, email, full_name, role }] is one). *)

Definition scalar (v : value) : bool :=
  match v with
  | VNull | VBool _ | VNum _ | VStr _ => true
  | _ => false
  end.

(** The text of a scalar and of a field as [JSON.stringify] prints them. *)
Definition scalar_text (v : value) : string := default "" (JSON.stringify v).

Definition field_text (kv : string * value) : string :=
  JSON.quote kv.1 +:+ ":" +:+ scalar_text kv.2.

(** What may follow a number literal. *)
Definition no_digit_head (s : string) : Prop :=
  match s with
  | String c _ => JSON.is_digit c = false
  | EmptyString => True
  end.

Definition tail_ok (s : string) : Prop :=
  no_digit_head s /\ JSON.number_ends s = true.

(** A text that starts with a comma or a closing brace. *)
Definition separator_head (s : string) : Prop :=
  exists (c : ascii) (r : string),
    s = String c r /\ (c = JSON.chr 44 \/ c = JSON.chr 125).

(** ** The network *)

(** What the network hands back to axios: a response with some status, or no
    response at all (connection failure, timeout). *)
Inductive net_result : Type :=
| NetResponse (r : response)
| NetFailure.

(** axios's default [validateStatus]. *)
Definition validateStatus (st : Z) : bool := ((200 <=? st) && (st <? 300))%Z.

(** axios settles the promise: resolved for a 2xx status, rejected with an
    error carrying the response otherwise, rejected without a response on a
    network failure. *)
Definition settle (n : net_result) : M response :=
  match n with
  | NetResponse r =>
      if validateStatus (status r) then ret r
      else throw (AxiosError (mkAxiosError (Some r)))
  | NetFailure => throw (AxiosError (mkAxiosError None))
  end.

(** [promise.then(onFulfilled, onRejected)] *)
Definition then_ {A B : Type} (m : M A) (onFulfilled : A -> M B) (onRejected : exn -> M B) : M B :=
  fun w =>
    match m w with
    | (Ok a, w1, t1) =>
        match onFulfilled a w1 with
        | (r, w2, t2) => (r, w2, t1 ++ t2)
        end
    | (Throw e, w1, t1) =>
        match onRejected e w1 with
        | (r, w2, t2) => (r, w2, t1 ++ t2)
        end
    end.

(** [v.k], which throws a [TypeError] on [null] and [undefined]. *)
Definition member (v : value) (k : string) : M value :=
  if is_nullish v then throw TypeError else ret (prop v k).

(** [a < n] for a number literal on the right. *)
Definition lt_num (a : value) (n : Z) : bool :=
  match a with
  | VNum m => (m <? n)%Z
  | _ => false
  end.

(** The response object as seen by JavaScript code ([err.response]). *)
Definition response_value (r : response) : value :=
  VObj [("status", VNum (status r)); ("data", resp_data r)].

(** [err.response] of a caught value. *)
Definition exn_response (e : exn) : value :=
  match e with
  | AxiosError a =>
      match err_response a with
      | Some r => response_value r
      | None => VUndefined
      end
  | _ => VUndefined
  end.

(** [URLSearchParams.prototype.append] *)
Definition URLSearchParams_append (p : list (string * string)) (k : string) (v : value)
  : list (string * string) :=
  p ++ [(k, to_string v)].

(** A request configuration with axios's defaults; [headers] lists the
    headers set by the calling code and by interceptors. *)
Definition plain_request (m : http_method) (u : string) (d : body) : request :=
  mkRequest m "" u ∅ d VUndefined VUndefined 0.

Definition with_headers (h : gmap string string) (r : request) : request :=
  mkRequest (method r) (baseURL r) (url r) h (data r) (params r) (responseType r) (timeout r).

Definition set_header (k v : string) (r : request) : request :=
  with_headers (<[k := v]> (headers r)) r.

(** ** Presence of the session *)

(** A value held by the store is present when it is neither [null] nor
    [undefined]; a storage entry is present when its key is. *)
Definition present (v : value) : bool := negb (is_nullish v).

Definition has_entry (k : string) (w : World) : bool :=
  match localStorage w !! k with
  | Some _ => true
  | None => false
  end.

(** Token and user are both present or both absent, in the store and in
    [localStorage]. *)
Definition paired (w : World) : bool :=
  Bool.eqb (present (token (store w))) (present (user (store w)))
  && Bool.eqb (has_entry dd_token w) (has_entry dd_user w).

Definition nonempty_token (tok : value) : bool :=
  match tok with
  | VStr (String _ _) => true
  | _ => false
  end.

Definition is_user (usr : value) : bool :=
  match usr with
  | VObj _ => true
  | _ => false
  end.

Definition empty_session : Session := mkSession VNull VNull.
Definition empty_world : World := mkWorld ∅ empty_session.

Section Platform.

(** The browser's [JSON.parse] ([None]: it throws a [SyntaxError]) and
    [JSON.stringify] ([None]: it returns [undefined]). *)
Variable JSON_parse : string -> option value.
Variable JSON_stringify : value -> option string.

(** [import.meta.env.VITE_API_BASE_URL]: a string, or [undefined]. *)
Variable VITE_API_BASE_URL : value.

(** The backend together with the network in front of it. *)
Variable server : request -> net_result.

Definition json_parse (text : value) : M value :=
  match JSON_parse (to_string text) with
  | Some v => ret v
  | None => throw SyntaxError
  end.

Definition json_stringify (v : value) : value :=
  match JSON_stringify v with
  | Some s => VStr s
  | None => VUndefined
  end.

(** [JSON.stringify(u)] is a text that [JSON.parse] reads back as [u]. *)
Definition JSON_serializable (u : value) : Prop :=
  exists s : string, JSON_stringify u = Some s /\ JSON_parse s = Some u.

(** *** [stores/authStore.js] *)

(** [const stored = { token: ..., user: ... }], evaluated when the module is
    loaded. *)
Definition stored : M Session :=
  t <- getItem dd_token ;;
  raw <- getItem dd_user ;;
  u <- json_parse (js_or raw (VStr "null")) ;;
  ret (mkSession (js_or t VNull) u).

(** Loading the module creates the store with [stored] as its state. *)
Definition initialize : M unit :=
  s <- stored ;;
  set_store (fun _ => s).

Definition setAuth (tok usr : value) : M unit :=
  setItem dd_token tok ;;;
  setItem dd_user (json_stringify usr) ;;;
  set_store (fun _ => mkSession tok usr).

Definition logout : M unit :=
  removeItem dd_token ;;;
  removeItem dd_user ;;;
  set_store (fun _ => mkSession VNull VNull).

Definition updateUser (usr : value) : M unit :=
  setItem dd_user (json_stringify usr) ;;;
  set_store (fun s => mkSession (token s) usr).

(** *** [api/client.js] *)

Definition default_base : string := "http://localhost:8000".

Definition client_baseURL : string := to_string (js_or VITE_API_BASE_URL (VStr default_base)).

(** [client.interceptors.request.use(config => ...)] *)
Definition request_interceptor (config : request) : M request :=
  tok <- getItem dd_token ;;
  if truthy tok
  then ret (set_header "Authorization" ("Bearer " +:+ to_string tok) config)
  else ret config.

(** [err.response?.status === 401] *)
Definition is_401 (err : exn) : bool :=
  match err with
  | AxiosError a =>
      match err_response a with
      | Some r => (status r =? 401)%Z
      | None => false
      end
  | _ => false
  end.

Definition response_onFulfilled (res : response) : M response := ret res.

Definition response_onRejected (err : exn) : M response :=
  (if is_401 err
   then removeItem dd_token ;;; removeItem dd_user ;;; emit (EvLocation "/login")
   else ret tt) ;;;
  throw err.

(** Plain [axios]: no interceptors. *)
Definition axios_request (r : request) : M response :=
  emit (EvHttp r) ;;;
  settle (server r).

(** A request through [client]: request interceptor, dispatch, response
    interceptor. *)
Definition client_request (config : request) : M response :=
  then_ (config' <- request_interceptor config ;; axios_request config')
    response_onFulfilled response_onRejected.

(** The configuration [client] starts from ([axios.create]). *)
Definition client_config (m : http_method) (u : string) (d : body) (ps rt : value) : request :=
  mkRequest m client_baseURL u ∅ d ps rt 30000.

Definition client_get (u : string) (ps rt : value) : M response :=
  client_request (client_config GET u NoBody ps rt).
Definition client_post (u : string) (d : value) : M response :=
  client_request (client_config POST u (JsonBody d) VUndefined VUndefined).
Definition client_put (u : string) (d : value) : M response :=
  client_request (client_config PUT u (JsonBody d) VUndefined VUndefined).
Definition client_delete (u : string) : M response :=
  client_request (client_config DELETE u NoBody VUndefined VUndefined).

(** *** [api/auth.js] *)

Definition API_BASE : string := to_string (js_or VITE_API_BASE_URL (VStr default_base)).

Definition login_request (email password : value) : request :=
  let formData := URLSearchParams_append
                    (URLSearchParams_append [] "username" email) "password" password in
  with_headers {[ "Content-Type" := "application/x-www-form-urlencoded" ]}
    (plain_request POST (API_BASE +:+ "/api/v1/auth/login") (FormBody formData)).

Definition authApi_login (email password : value) : M response :=
  axios_request (login_request email password).

Definition me_request (tok : value) : request :=
  with_headers {[ "Authorization" := "Bearer " +:+ to_string tok ]}
    (plain_request GET (API_BASE +:+ "/api/v1/auth/me") NoBody).

Definition authApi_me (tok : value) : M response :=
  axios_request (me_request tok).

(** [role = "patient"]: the default applies when the argument is
    [undefined]. *)
Definition register_request (email password fullName role : value) : request :=
  let role := match role with VUndefined => VStr "patient" | _ => role end in
  plain_request POST (API_BASE +:+ "/api/v1/auth/register")
    (JsonBody (VObj [("email", email); ("password", password);
                     ("full_name", fullName); ("role", role)])).

Definition authApi_register (email password fullName role : value) : M response :=
  axios_request (register_request email password fullName role).

Definition authApi_changePassword (oldPassword newPassword : value) : M response :=
  client_put "/api/v1/auth/change-password"
    (VObj [("old_password", oldPassword); ("new_password", newPassword)]).

Definition authApi_deactivateAccount : M response :=
  client_delete "/api/v1/auth/account".

(** The request that [authApi.register(form)] sends, written out: the form
    lands in [email], the other parameters are [undefined] and [role] takes
    its default. *)
Definition register_form_request (form : value) : request :=
  mkRequest POST "" (API_BASE +:+ "/api/v1/auth/register") ∅
    (JsonBody (VObj [("email", form); ("password", VUndefined);
                     ("full_name", VUndefined); ("role", VStr "patient")]))
    VUndefined VUndefined 0.

(** The request that [authApi.me()] sends, written out: the template
    literal renders the missing argument as ["undefined"]. *)
Definition me_noarg_request : request :=
  mkRequest GET "" (API_BASE +:+ "/api/v1/auth/me")
    {[ "Authorization" := "Bearer undefined" ]} NoBody VUndefined VUndefined 0.

(** *** [pages/Register.jsx] *)

(** [handleSubmit] of the registration page; [form] is the component's form
    state, an object, so reading its fields cannot throw.  Toasts,
    [setLoading] and [navigate] are recorded as events.  This is the handler
    as the component defines it (lines 18-35); the JSX the component returns
    (lines 37-132, which name [RiMicroscopeLine] without importing it) is
    not part of the embedding. *)
Definition handleSubmit (form : value) : M unit :=
  emit EvPreventDefault ;;;
  if negb (truthy (prop form "full_name"))
     || negb (truthy (prop form "email"))
     || negb (truthy (prop form "password"))
  then emit (EvToastError (VStr "All fields are required"))
  else if lt_num (prop (prop form "password") "length") 8
  then emit (EvToastError (VStr "Password must be at least 8 characters"))
  else
    emit (EvSetLoading true) ;;;
    finally
      (try_catch
         (_ <- authApi_register form VUndefined VUndefined VUndefined ;;
          res <- authApi_login (prop form "email") (prop form "password") ;;
          me <- authApi_me VUndefined ;;
          access_token <- member (resp_data res) "access_token" ;;
          setAuth access_token (resp_data me) ;;;
          emit (EvToastSuccess "Account created! Welcome 🎉") ;;;
          role <- member (resp_data me) "role" ;;
          emit (EvNavigate (if strict_eq_str role "investigator"
                            then "/investigator" else "/dashboard")))
         (fun err =>
            emit (EvToastError
                    (js_or (opt_member (opt_member (exn_response err) "data") "detail")
                           (VStr "Registration failed")))))
      (emit (EvSetLoading false)).

(** *** Sequences of store operations *)

Inductive op : Type :=
| OpSetAuth (tok usr : value)
| OpLogout
| OpUpdateUser (usr : value).

Definition run_op (o : op) : M unit :=
  match o with
  | OpSetAuth tok usr => setAuth tok usr
  | OpLogout => logout
  | OpUpdateUser usr => updateUser usr
  end.

(** The world before the first call and after each call. *)
Fixpoint observations (ops : list op) (w : World) : list World :=
  w :: match ops with
       | [] => []
       | o :: rest => observations rest (world_of (run_op o w))
       end.

(** [updateUser] is only called while the store holds a token. *)
Fixpoint only_updates_when_logged_in (ops : list op) (w : World) : Prop :=
  match ops with
  | [] => True
  | o :: rest =>
      match o with
      | OpUpdateUser _ => truthy (token (store w)) = true
      | _ => True
      end
      /\ only_updates_when_logged_in rest (world_of (run_op o w))
  end.

End Platform.

(** ** Predicates on sessions and forms *)

(** The registration form state, [{ full_name, email, password, role }]. *)
Definition form_of (full_name email password role : string) : value :=
  VObj [("full_name", VStr full_name); ("email", VStr email);
        ("password", VStr password); ("role", VStr role)].

(** Arguments as the specification requires them for each call. *)
Definition valid_op (o : op) : bool :=
  match o with
  | OpSetAuth tok usr => nonempty_token tok && is_user usr
  | OpLogout => true
  | OpUpdateUser usr => is_user usr
  end.

(** Logged out: nothing stored and nothing held. *)
Definition logged_out (w : World) : Prop :=
  localStorage w !! dd_token = None /\
  localStorage w !! dd_user = None /\
  store w = empty_session.

(** The client-side validation of the registration form: the three fields
    are non-empty and [password.length], counted in UTF-16 code units, is at
    least 8. *)
Definition passes_validation (full_name email password : string) : Prop :=
  full_name <> "" /\ email <> "" /\ password <> "" /\ 8 <= utf16_length password.

(** The two states the store is meant to be in. *)
Definition all_present (w : World) : Prop :=
  truthy (token (store w)) = true /\ present (token (store w)) = true /\
  present (user (store w)) = true /\
  has_entry dd_token w = true /\ has_entry dd_user w = true.

Definition all_absent (w : World) : Prop :=
  truthy (token (store w)) = false /\ present (token (store w)) = false /\
  present (user (store w)) = false /\
  has_entry dd_token w = false /\ has_entry dd_user w = false.

(** The status carried by a rejected request, if it carries a response. *)
Definition error_status (err : exn) : option Z :=
  match err with
  | AxiosError a => status <$> err_response a
  | _ => None
  end.

(** ** Concrete inputs

    Used to instantiate the statements below; the reference codec stands for
    the browser's [JSON] and [accepting_server] for a backend that accepts
    every request. *)

Definition sample_user : value :=
  VObj [("id", VNum 7); ("email", VStr "a@b.com");
        ("full_name", VStr "Priya Sharma"); ("role", VStr "patient")].

Definition session_without_role : Session :=
  mkSession (VStr "abc123") (VObj [("id", VNum 1)]).

Definition accepting_server (r : request) : net_result :=
  NetResponse (mkResponse 200
                 (VObj [("access_token", VStr "tok123"); ("id", VNum 7);
                        ("email", VStr "a@b.com"); ("full_name", VStr "Priya Sharma");
                        ("role", VStr "patient")])).

Definition logged_in_world : World :=
  world_of (setAuth JSON.stringify (VStr "abc123") sample_user empty_world).

Definition unauthorized : exn := AxiosError (mkAxiosError (Some (mkResponse 401 VNull))).
Definition forbidden : exn := AxiosError (mkAxiosError (Some (mkResponse 403 VNull))).
Definition server_error : exn := AxiosError (mkAxiosError (Some (mkResponse 500 VNull))).
Definition network_error : exn := AxiosError (mkAxiosError None).

Definition sample_form : value :=
  form_of "Priya Sharma" "a@b.com" "s3cretpass" "investigator".

Definition token_only_world : World :=
  mkWorld {[ dd_token := "abc123" ]} empty_session.

Definition user_only_world : World :=
  mkWorld {[ dd_user := default "" (JSON.stringify sample_user) ]} empty_session.

Definition corrupt_world : World :=
  mkWorld {[ dd_token := "abc123"; dd_user := "{oops" ]} empty_session.

Definition nameless_form : value :=
  form_of "" "a@b.com" "s3cretpass" "investigator".

(** A form as typing alone fills it: the role keeps its initial value. *)
Definition typed_form : value :=
  form_of "Priya Sharma" "a@b.com" "s3cretpass" "patient".

(** A password of six characters whose UTF-8 encoding takes eight bytes. *)
Definition short_password_form : value :=
  form_of "Priya Sharma" "a@b.com" "pässwö" "patient".

(** A backend that answers every request with status 500, and a network
    that delivers no response. *)
Definition failing_server (r : request) : net_result :=
  NetResponse (mkResponse 500 VNull).

Definition offline_server (r : request) : net_result := NetFailure.

(** * Further code

    The rest of the files above and their callers: the route table of
    [App.jsx], the login page, the sign-out button of the patient layout,
    the form state of the registration page and the API adapters that go
    through [client]. *)

(** ** Object literals with a spread *)

(** [{ ...f, [k]: v }] on the fields of [f]: an existing key keeps its
    place, a new key goes last.  (Fields are listed in insertion order; the
    reordering of integer-like keys is not modelled and does not affect
    lookups.) *)
Fixpoint obj_set (k : string) (v : value) (fields : list (string * value))
  : list (string * value) :=
  match fields with
  | [] => [(k, v)]
  | (k', v') :: rest =>
      if String.eqb k k' then (k, v) :: rest else (k', v') :: obj_set k v rest
  end.

(** The own enumerable properties that [...v] copies: the fields of an
    object, the indexed elements of an array or string, nothing for the
    other primitives. *)
Fixpoint indexed (i : nat) (items : list value) : list (string * value) :=
  match items with
  | [] => []
  | x :: rest => (pretty (Z.of_nat i), x) :: indexed (S i) rest
  end.

(** Whether a byte continues a UTF-8 sequence ([10xxxxxx]). *)
Definition is_continuation (c : ascii) : bool :=
  let n := nat_of_ascii c in (128 <=? n) && (n <? 192).

(** The code points of a string, each as the bytes that encode it: the
    continuation bytes the string starts with (none in well-formed text),
    then one sequence per lead byte. *)
Fixpoint split_points (s : string) : string * list string :=
  match s with
  | EmptyString => (EmptyString, [])
  | String c rest =>
      let '(k, gs) := split_points rest in
      if is_continuation c then (String c k, gs) else (EmptyString, String c k :: gs)
  end.

(** The three-byte form of a UTF-16 code unit from [0x0800] on; a
    surrogate, which is no code point, is held in this form. *)
Definition three_bytes (u : N) : string :=
  String (ascii_of_N (224 + u / 4096))
    (String (ascii_of_N (128 + (u / 64) mod 64))
       (String (ascii_of_N (128 + u mod 64)) EmptyString)).

(** The UTF-16 code units of one code point, each as a string of length 1:
    the code point itself, or its two surrogates when it is encoded in four
    bytes. *)
Definition units_of (g : string) : list value :=
  match g with
  | String b0 (String b1 (String b2 (String b3 EmptyString))) =>
      if (240 <=? N_of_ascii b0)%N then
        let cp := ((N_of_ascii b0 mod 8) * 262144 + (N_of_ascii b1 mod 64) * 4096
                   + (N_of_ascii b2 mod 64) * 64 + N_of_ascii b3 mod 64)%N in
        let v := (cp - 65536)%N in
        [VStr (three_bytes (55296 + v / 1024)); VStr (three_bytes (56320 + v mod 1024))]
      else [VStr g]
  | _ => [VStr g]
  end.

(** The indexed elements of a string: its UTF-16 code units. *)
Definition chars_of (s : string) : list value :=
  let '(k, gs) := split_points s in
  flat_map units_of (match k with EmptyString => gs | String _ _ => k :: gs end).

Definition spread_props (v : value) : list (string * value) :=
  match v with
  | VObj fields => fields
  | VArr items => indexed 0 items
  | VStr s => indexed 0 (chars_of s)
  | _ => []
  end.

(** [{ ...base, ...v }] for an object literal that starts with [base]. *)
Definition obj_spread (base : list (string * value)) (v : value) : list (string * value) :=
  fold_left (fun acc kv => obj_set kv.1 kv.2 acc) (spread_props v) base.

(** *** [pages/Register.jsx]: the form state *)

(** [useState({ full_name: '', email: '', password: '', role: 'patient' })] *)
Definition initial_form : value := form_of "" "" "" "patient".

(** [set(k, v)]: [setForm(f => ({ ...f, [k]: v }))] *)
Definition form_set (k : string) (v : value) (f : value) : value :=
  VObj (obj_set k v (spread_props f)).

(** The updates the page makes: the three inputs write what was typed into
    their own field, the role buttons write one of the two roles. *)
Inductive form_edit : Type :=
| EditFullName (typed : string)
| EditEmail (typed : string)
| EditPassword (typed : string)
| PickRole (investigator : bool).

Definition apply_edit (f : value) (e : form_edit) : value :=
  match e with
  | EditFullName s => form_set "full_name" (VStr s) f
  | EditEmail s => form_set "email" (VStr s) f
  | EditPassword s => form_set "password" (VStr s) f
  | PickRole b => form_set "role" (VStr (if b then "investigator" else "patient")) f
  end.

(** ** Route table ([App.jsx]) *)

Inductive page : Type :=
| Landing | Login | Register
| Dashboard | PatientProfile | DietaryRecall | DietPlan | FFQ | Progress
| RecallCalendar | PlanComparison | Goals
| InvestigatorDashboard | PatientOverview | ResearchAnalytics.

Inductive layout : Type := NoLayout | AppLayout | InvestigatorLayout.

Inductive wrapper : Type := Unguarded | WrapPublicOnly | WrapRequirePatient | WrapRequireInvestigator.

Record route : Type := mkRoute {
  route_path : string;
  route_wrapper : wrapper;
  route_layout : layout;
  route_page : page
}.

(** The [<Route>] elements with a path, in source order; the children of a
    layout route inherit its guard and its layout. *)
Definition routes : list route :=
  [ mkRoute "/" Unguarded NoLayout Landing;
    mkRoute "/login" WrapPublicOnly NoLayout Login;
    mkRoute "/register" WrapPublicOnly NoLayout Register;
    mkRoute "/dashboard" WrapRequirePatient AppLayout Dashboard;
    mkRoute "/profile" WrapRequirePatient AppLayout PatientProfile;
    mkRoute "/dietary-recall" WrapRequirePatient AppLayout DietaryRecall;
    mkRoute "/diet-plan" WrapRequirePatient AppLayout DietPlan;
    mkRoute "/ffq" WrapRequirePatient AppLayout FFQ;
    mkRoute "/progress" WrapRequirePatient AppLayout Progress;
    mkRoute "/recall-calendar" WrapRequirePatient AppLayout RecallCalendar;
    mkRoute "/plan-comparison" WrapRequirePatient AppLayout PlanComparison;
    mkRoute "/goals" WrapRequirePatient AppLayout Goals;
    mkRoute "/investigator" WrapRequireInvestigator InvestigatorLayout InvestigatorDashboard;
    mkRoute "/investigator/patients" WrapRequireInvestigator InvestigatorLayout PatientOverview;
    mkRoute "/investigator/analytics" WrapRequireInvestigator InvestigatorLayout ResearchAnalytics ].

Definition apply_wrapper (g : wrapper) (s : Session) : element :=
  match g with
  | Unguarded => Children
  | WrapPublicOnly => PublicOnly s
  | WrapRequirePatient => RequirePatient s
  | WrapRequireInvestigator => RequireInvestigator s
  end.

(** What the application shows at a location: a page inside its layout, or
    a [<Navigate replace />] to another location. *)
Inductive view : Type :=
| Display (l : layout) (p : page)
| GoTo (to : string).

(** The audience a page is written for (the import groups of [App.jsx]). *)
Inductive audience : Type := ForEveryone | ForVisitors | ForPatients | ForInvestigators.

Definition audience_of (p : page) : audience :=
  match p with
  | Landing => ForEveryone
  | Login | Register => ForVisitors
  | Dashboard | PatientProfile | DietaryRecall | DietPlan | FFQ | Progress
  | RecallCalendar | PlanComparison | Goals => ForPatients
  | InvestigatorDashboard | PatientOverview | ResearchAnalytics => ForInvestigators
  end.

Section Router.

(** The router's test that a route path matches a location's pathname. *)
Variable matchPath : string -> string -> bool.

(** The static paths are pairwise non-overlapping, so the first match is
    the router's best match; the catch-all [path="*"] ranks last. *)
Definition find_route (pathname : string) : option route :=
  List.find (fun r => matchPath (route_path r) pathname) routes.

Definition App (pathname : string) (s : Session) : view :=
  match find_route pathname with
  | Some r =>
      match apply_wrapper (route_wrapper r) s with
      | Children => Display (route_layout r) (route_page r)
      | Navigate to _ => GoTo to
      end
  | None => GoTo "/"
  end.

(** A route path matches itself and no other route path. *)
Definition matches_own_path_only : Prop :=
  forall r r' : route, In r routes -> In r' routes ->
    matchPath (route_path r) (route_path r') = String.eqb (route_path r) (route_path r').

End Router.

(** ** Login page, sign-out and API adapters *)

(** [s.split(' ')[0]]: the text before the first space. *)
Fixpoint first_segment (s : string) : string :=
  match s with
  | EmptyString => EmptyString
  | String c rest =>
      if (N_of_ascii c =? 32)%N then EmptyString else String c (first_segment rest)
  end.

(** [v.split(' ')[0]]: only a string has a [split] method; on anything else
    the call throws a [TypeError]. *)
Definition split_first (v : value) : M value :=
  match v with
  | VStr s => ret (VStr (first_segment s))
  | _ => throw TypeError
  end.

(** The login form state, [{ email, password }]. *)
Definition login_form (email password : string) : value :=
  VObj [("email", VStr email); ("password", VStr password)].

(** Does the text start with the given prefix? *)
Fixpoint starts_with (prefix s : string) : bool :=
  match prefix, s with
  | EmptyString, _ => true
  | String a prefix', String b s' => Ascii.eqb a b && starts_with prefix' s'
  | String _ _, EmptyString => false
  end.

Section Pages.
Variable JSON_stringify : value -> option string.
Variable VITE_API_BASE_URL : value.
Variable server : request -> net_result.

(** *** Store operations in sequence *)

(** The world after a sequence of store calls. *)
Fixpoint run_ops (ops : list op) (w : World) : World :=
  match ops with
  | [] => w
  | o :: rest => run_ops rest (world_of (run_op JSON_stringify o w))
  end.

(** *** [pages/Login.jsx] *)

Definition Login_handleSubmit (form : value) : M unit :=
  emit EvPreventDefault ;;;
  if negb (truthy (prop form "email")) || negb (truthy (prop form "password"))
  then emit (EvToastError (VStr "Fill in all fields"))
  else
    emit (EvSetLoading true) ;;;
    finally
      (try_catch
         (res <- authApi_login VITE_API_BASE_URL server
                   (prop form "email") (prop form "password") ;;
          tok <- member (resp_data res) "access_token" ;;
          me <- authApi_me VITE_API_BASE_URL server tok ;;
          setAuth JSON_stringify tok (resp_data me) ;;;
          full_name <- member (resp_data me) "full_name" ;;
          first <- split_first full_name ;;
          emit (EvToastSuccess ("Welcome back, " +:+ to_string first +:+ "!")) ;;;
          role <- member (resp_data me) "role" ;;
          emit (EvNavigate (if strict_eq_str role "investigator"
                            then "/investigator" else "/dashboard")))
         (fun err =>
            emit (EvToastError
                    (js_or (opt_member (opt_member (exn_response err) "data") "detail")
                           (VStr "Invalid credentials")))))
      (emit (EvSetLoading false)).

(** *** [components/layout/AppLayout.jsx]: the Sign Out button *)

(** [onClick={() => { logout(); navigate('/login') }}] *)
Definition signOut : M unit :=
  logout ;;;
  emit (EvNavigate "/login").

(** *** API adapters ([api/patient.js], [api/research.js], [api/dietary.js],
    [api/dietplan.js]) *)

(** [params = {}]: the default applies when the argument is [undefined]. *)
Definition default_params (ps : value) : value :=
  match ps with
  | VUndefined => VObj []
  | _ => ps
  end.

Inductive api_call : Type :=
| CreateProfile (data : value)
| GetProfile
| UpdateProfile (data : value)
| GetSummary
| GetStats
| ListPatients
| GetPatientSummary (id : value)
| GetPatientRecalls (id : value)
| GetPatientPlans (id : value)
| ExportPatients
| ExportTimeseries (ps : value)
| SearchFoods (q ps : value)
| GetCategories
| CreateRecall (data : value)
| ListRecalls (ps : value)
| GetRecall (id : value)
| DeleteRecall (id : value)
| SubmitFFQ (data : value)
| ListFFQ
| GeneratePlan (data : value)
| ComparePlans
| PlanHistory (ps : value)
| GetPlan (id : value)
| ChangePassword (oldPassword newPassword : value)
| DeactivateAccount.

(** [client.get(url, { params, responseType })], [client.post(url, data)],
    [client.put(url, data)] and [client.delete(url)]. *)
Definition get_config (u : string) (ps rt : value) : request :=
  client_config VITE_API_BASE_URL GET u NoBody ps rt.
Definition post_config (u : string) (d : value) : request :=
  client_config VITE_API_BASE_URL POST u (JsonBody d) VUndefined VUndefined.
Definition put_config (u : string) (d : value) : request :=
  client_config VITE_API_BASE_URL PUT u (JsonBody d) VUndefined VUndefined.
Definition delete_config (u : string) : request :=
  client_config VITE_API_BASE_URL DELETE u NoBody VUndefined VUndefined.

(** The configuration each adapter function hands to [client]. *)
Definition api_config (c : api_call) : request :=
  match c with
  | CreateProfile data => post_config "/api/v1/patients/profile" data
  | GetProfile => get_config "/api/v1/patients/profile" VUndefined VUndefined
  | UpdateProfile data => put_config "/api/v1/patients/profile" data
  | GetSummary => get_config "/api/v1/patients/profile/summary" VUndefined VUndefined
  | GetStats => get_config "/api/v1/research/stats" VUndefined VUndefined
  | ListPatients => get_config "/api/v1/research/patients" VUndefined VUndefined
  | GetPatientSummary id =>
      get_config ("/api/v1/research/patients/" +:+ to_string id +:+ "/summary")
        VUndefined VUndefined
  | GetPatientRecalls id =>
      get_config ("/api/v1/research/patients/" +:+ to_string id +:+ "/recalls")
        VUndefined VUndefined
  | GetPatientPlans id =>
      get_config ("/api/v1/research/patients/" +:+ to_string id +:+ "/plans")
        VUndefined VUndefined
  | ExportPatients =>
      get_config "/api/v1/research/export/patients" VUndefined (VStr "blob")
  | ExportTimeseries ps =>
      get_config "/api/v1/research/export/dietary-timeseries"
        (default_params ps) (VStr "blob")
  | SearchFoods q ps =>
      get_config "/api/v1/dietary/foods/search"
        (VObj (obj_spread [("q", q); ("limit", VNum 15)] (default_params ps)))
        VUndefined
  | GetCategories => get_config "/api/v1/dietary/foods/categories" VUndefined VUndefined
  | CreateRecall data => post_config "/api/v1/dietary/recall" data
  | ListRecalls ps => get_config "/api/v1/dietary/recall" (default_params ps) VUndefined
  | GetRecall id =>
      get_config ("/api/v1/dietary/recall/" +:+ to_string id) VUndefined VUndefined
  | DeleteRecall id => delete_config ("/api/v1/dietary/recall/" +:+ to_string id)
  | SubmitFFQ data => post_config "/api/v1/dietary/ffq" data
  | ListFFQ => get_config "/api/v1/dietary/ffq" VUndefined VUndefined
  | GeneratePlan data => post_config "/api/v1/diet-plan/generate" data
  | ComparePlans => get_config "/api/v1/diet-plan/compare" VUndefined VUndefined
  | PlanHistory ps => get_config "/api/v1/diet-plan/history" (default_params ps) VUndefined
  | GetPlan id => get_config ("/api/v1/diet-plan/" +:+ to_string id) VUndefined VUndefined
  | ChangePassword oldPassword newPassword =>
      put_config "/api/v1/auth/change-password"
        (VObj [("old_password", oldPassword); ("new_password", newPassword)])
  | DeactivateAccount => delete_config "/api/v1/auth/account"
  end.

Definition run_api (c : api_call) : M response :=
  client_request server (api_config c).

End Pages.

(** ** The loading flag of a submit handler *)

(** Either the handler stopped at its validation (one toast, the flag never
    raised), or it raised the flag first and lowered it last. *)
Definition loading_discipline (t : list event) : Prop :=
  (exists msg : value, t = [EvPreventDefault; EvToastError msg])
  \/ (exists mid : list event,
        t = [EvPreventDefault; EvSetLoading true] ++ mid ++ [EvSetLoading false]).

(** ** More concrete inputs *)

Definition investigator_user : value :=
  VObj [("id", VNum 9); ("email", VStr "dr@lab.org");
        ("full_name", VStr "Ada Byron King"); ("role", VStr "investigator")].

(** A backend that answers every request with 401. *)
Definition rejecting_server (r : request) : net_result :=
  NetResponse (mkResponse 401 (VObj [("detail", VStr "Could not validate credentials")])).

(** A backend whose [/me] payload has no [full_name]. *)
Definition nameless_server (r : request) : net_result :=
  NetResponse (mkResponse 200 (VObj [("access_token", VStr "tok123"); ("role", VStr "patient")])).

(** A backend that accepts register and login but rejects a request whose
    [Authorization] header is not [Bearer tok123]. *)
Definition strict_server (r : request) : net_result :=
  match headers r !! "Authorization" with
  | Some h =>
      if String.eqb h "Bearer tok123" then accepting_server r else rejecting_server r
  | None =>
      match method r with
      | POST => accepting_server r
      | _ => rejecting_server r
      end
  end.

Definition sample_login_form : value := login_form "a@b.com" "s3cretpass".

(** What [accepting_server], [rejecting_server] and [nameless_server]
    answer. *)
Definition accepted_response : response :=
  mkResponse 200
    (VObj [("access_token", VStr "tok123"); ("id", VNum 7);
           ("email", VStr "a@b.com"); ("full_name", VStr "Priya Sharma");
           ("role", VStr "patient")]).

Definition rejected_response : response :=
  mkResponse 401 (VObj [("detail", VStr "Could not validate credentials")]).

Definition nameless_response : response :=
  mkResponse 200 (VObj [("access_token", VStr "tok123"); ("role", VStr "patient")]).

Definition profile_request : request :=
  client_config VUndefined GET "/api/v1/patients/profile" NoBody VUndefined VUndefined.

Definition world_with_theme : World :=
  mkWorld {[ "theme" := "dark" ]} empty_session.

Definition patient_session : Session := mkSession (VStr "abc123") sample_user.

(** * Properties *)

(** Unfolds the monad and the store operations down to tuples. *)
Ltac js_unfold :=
  cbv [run_op initialize stored setAuth logout updateUser
       bind ret throw emit getItem setItem removeItem set_store
       then_ try_catch finally json_parse json_stringify
       result_of world_of trace_of fst snd app
       localStorage store token user].

(** ** The reference codec on samples *)

Example json_sample_roundtrip :
  JSON.parse (default "" (JSON.stringify sample_user)) = Some sample_user.
Proof. vm_compute. reflexivity. Qed.

Example json_parse_null : JSON.parse "null" = Some VNull.
Proof. vm_compute. reflexivity. Qed.

Example json_parse_empty : JSON.parse "" = None.
Proof. vm_compute. reflexivity. Qed.

Example json_parse_garbage : JSON.parse "{oops" = None.
Proof. vm_compute. reflexivity. Qed.

Example json_parse_array :
  JSON.parse " [1, -20, true, null, {}, [ ]] "
  = Some (VArr [VNum 1; VNum (-20); VBool true; VNull; VObj []; VArr []]).
Proof. vm_compute. reflexivity. Qed.

(** ** The reference codec reads back what it prints *)

Lemma append_assoc (a b c : string) : (a +:+ b) +:+ c = a +:+ (b +:+ c).
Proof.
  induction a as [| x a IH]; [reflexivity |].
  change (String x ((a +:+ b) +:+ c) = String x (a +:+ (b +:+ c))).
  f_equal. exact IH.
Qed.

Lemma parse_escape_char (c : ascii) (tail : string) :
  JSON.parse_string_body (JSON.escape_char c +:+ tail)
  = match JSON.parse_string_body tail with
    | Some (body, rest) => Some (String c body, rest)
    | None => None
    end.
Proof.
  destruct c as [[] [] [] [] [] [] [] []]; reflexivity.
Qed.

Lemma parse_escaped (s rest : string) :
  JSON.parse_string_body (JSON.escape s +:+ String (JSON.chr 34) rest) = Some (s, rest).
Proof.
  induction s as [| c s IH]; [reflexivity |].
  change (JSON.escape (String c s)) with (JSON.escape_char c +:+ JSON.escape s).
  rewrite append_assoc, parse_escape_char, IH. reflexivity.
Qed.

Section NumberTexts.
Local Open Scope N_scope.

Lemma parse_digits_char (d acc : N) (s : string) :
  d < 10 ->
  JSON.parse_digits acc (String (pretty_N_char d) s) = JSON.parse_digits (acc * 10 + d) s.
Proof.
  intros Hd.
  assert (d = 0 \/ d = 1 \/ d = 2 \/ d = 3 \/ d = 4 \/ d = 5 \/ d = 6 \/ d = 7 \/
          d = 8 \/ d = 9) as Hcases by lia.
  repeat (destruct Hcases as [-> | Hcases]; [reflexivity |]). subst d. reflexivity.
Qed.

Lemma parse_digits_pretty (x : N) :
  forall s : string, exists k : N, forall acc : N,
    JSON.parse_digits acc (pretty_N_go x s) = JSON.parse_digits (acc * 10 ^ k + x) s.
Proof.
  induction (N.lt_wf_0 x) as [x _ IH]. intros s.
  destruct (N.eq_dec x 0) as [-> | Hpos].
  - exists 0. intros acc. rewrite pretty_N_go_0. f_equal. cbn. lia.
  - rewrite pretty_N_go_step by lia.
    destruct (IH (x / 10)) with (s := String (pretty_N_char (x mod 10)) s) as [k Hk].
    { apply N.div_lt; lia. }
    exists (k + 1). intros acc. rewrite Hk.
    rewrite parse_digits_char by (apply N.mod_lt; lia).
    f_equal. rewrite N.pow_add_r, N.pow_1_r.
    pose proof (N.div_mod x 10 ltac:(lia)). lia.
Qed.

Lemma parse_digits_stop (acc : N) (s : string) :
  no_digit_head s -> JSON.parse_digits acc s = (acc, s).
Proof. destruct s as [| c s]; cbn; [reflexivity |]. intros ->. reflexivity. Qed.

Lemma pretty_N_go_head (x : N) :
  0 < x ->
  forall s : string, exists (d : N) (t : string),
    pretty_N_go x s = String (pretty_N_char d) t /\ 0 < d < 10.
Proof.
  induction (N.lt_wf_0 x) as [x _ IH]. intros Hpos s.
  rewrite pretty_N_go_step by exact Hpos.
  destruct (N.eq_dec (x / 10) 0) as [Hz | Hnz].
  - rewrite Hz, pretty_N_go_0. exists (x mod 10), s. split; [reflexivity |].
    assert (H10 : 10 <> 0) by discriminate.
    pose proof (N.div_mod x 10 H10) as H1. pose proof (N.mod_lt x 10 H10) as H2.
    rewrite Hz in H1. lia.
  - apply IH; [apply N.div_lt; lia | apply N.neq_0_lt_0; exact Hnz].
Qed.

Lemma pretty_N_go_app (x : N) :
  forall s r : string, pretty_N_go x s +:+ r = pretty_N_go x (s +:+ r).
Proof.
  induction (N.lt_wf_0 x) as [x _ IH]. intros s r.
  destruct (N.eq_dec x 0) as [-> | Hpos].
  - rewrite !pretty_N_go_0. reflexivity.
  - rewrite (pretty_N_go_step x s), (pretty_N_go_step x (s +:+ r)) by lia.
    apply (IH (x / 10)). apply N.div_lt; lia.
Qed.

Lemma digit_char_facts (d : N) :
  0 < d < 10 ->
  (JSON.code (pretty_N_char d) =? 48) = false /\
  JSON.is_digit (pretty_N_char d) = true.
Proof.
  intros Hd.
  assert (d = 1 \/ d = 2 \/ d = 3 \/ d = 4 \/ d = 5 \/ d = 6 \/ d = 7 \/
          d = 8 \/ d = 9) as Hcases by lia.
  repeat (destruct Hcases as [-> | Hcases]; [split; reflexivity |]).
  subst d. split; reflexivity.
Qed.

Lemma parse_unsigned_pretty (x : N) (rest : string) :
  0 < x -> tail_ok rest ->
  JSON.parse_unsigned (pretty_N_go x rest) = Some (x, rest).
Proof.
  intros Hpos [Hhead Hends].
  destruct (pretty_N_go_head x Hpos rest) as (d & t & Heq & Hd).
  destruct (parse_digits_pretty x rest) as [k Hk].
  specialize (Hk 0). rewrite (parse_digits_stop _ rest Hhead) in Hk.
  rewrite N.mul_0_l, N.add_0_l in Hk.
  destruct (digit_char_facts d Hd) as [Hnz Hdig].
  unfold JSON.parse_unsigned. rewrite Heq, Hnz, Hdig, <- Heq, Hk, Hends.
  reflexivity.
Qed.

Lemma parse_value_digit (f : nat) (c : ascii) (t : string) :
  JSON.is_digit c = true ->
  JSON.parse_value (S f) (String c t)
  = match JSON.parse_unsigned (String c t) with
    | Some (m, tail) => Some (VNum (Z.of_N m), tail)
    | None => None
    end.
Proof.
  intros Hc.
  destruct c as [[] [] [] [] [] [] [] []]; (discriminate Hc || reflexivity).
Qed.

Lemma parse_value_minus (f : nat) (t : string) :
  JSON.parse_value (S f) (String (JSON.chr 45) t)
  = match JSON.parse_unsigned t with
    | Some (m, tail) => Some (VNum (- Z.of_N m), tail)
    | None => None
    end.
Proof. reflexivity. Qed.

Lemma parse_value_number (f : nat) (z : Z) (rest : string) :
  tail_ok rest ->
  JSON.parse_value (S f) (pretty z +:+ rest) = Some (VNum z, rest).
Proof.
  intros Hrest. destruct z as [| p | p].
  - change (pretty 0%Z +:+ rest) with (String (pretty_N_char 0) rest).
    rewrite parse_value_digit by reflexivity.
    destruct Hrest as [Hhead Hends].
    unfold JSON.parse_unsigned. cbn [pretty_N_char JSON.code N_of_ascii N.eqb].
    destruct rest as [| c r]; [reflexivity |].
    cbn in Hhead. rewrite Hhead, Hends. reflexivity.
  - change (pretty (Z.pos p)) with (pretty_N_go (N.pos p) "").
    rewrite pretty_N_go_app. change ("" +:+ rest) with rest.
    destruct (pretty_N_go_head (N.pos p) ltac:(lia) rest) as (d & t & Heq & Hd).
    rewrite Heq, parse_value_digit by (apply digit_char_facts; exact Hd).
    rewrite <- Heq, parse_unsigned_pretty by (lia || assumption).
    reflexivity.
  - change (pretty (Z.neg p) +:+ rest)
      with (String (JSON.chr 45) (pretty_N_go (N.pos p) "" +:+ rest)).
    rewrite parse_value_minus, pretty_N_go_app. change ("" +:+ rest) with rest.
    rewrite parse_unsigned_pretty by (lia || assumption).
    reflexivity.
Qed.

End NumberTexts.

Lemma separator_tail_ok (s : string) : separator_head s -> tail_ok s.
Proof. intros (c & r & -> & [-> | ->]); split; reflexivity. Qed.

Lemma quote_app (s rest : string) :
  JSON.quote s +:+ rest = String (JSON.chr 34) (JSON.escape s +:+ String (JSON.chr 34) rest).
Proof.
  unfold JSON.quote, JSON.str1. rewrite !append_assoc. reflexivity.
Qed.

Lemma parse_value_quoted (f : nat) (s rest : string) :
  JSON.parse_value (S f) (JSON.quote s +:+ rest) = Some (VStr s, rest).
Proof.
  rewrite quote_app.
  transitivity (match JSON.parse_string_body
                        (JSON.escape s +:+ String (JSON.chr 34) rest) with
                | Some (body, tail) => Some (VStr body, tail)
                | None => None
                end); [reflexivity |].
  rewrite parse_escaped. reflexivity.
Qed.

Lemma parse_value_scalar (f : nat) (x : value) (rest : string) :
  scalar x = true -> separator_head rest ->
  JSON.parse_value (S f) (scalar_text x +:+ rest) = Some (x, rest).
Proof.
  intros Hx Hrest. destruct x as [| | [] | n | s | |]; try discriminate Hx.
  - reflexivity.
  - reflexivity.
  - reflexivity.
  - apply parse_value_number, separator_tail_ok, Hrest.
  - apply parse_value_quoted.
Qed.

Lemma parse_members_step (f : nat) (k V : string) :
  JSON.parse_members (S f) (JSON.quote k +:+ ":" +:+ V)
  = match JSON.parse_value f V with
    | Some (v, rest3) =>
        match JSON.skip_ws rest3 with
        | String c tail =>
            if (JSON.code c =? 44)%N then
              match JSON.parse_members f tail with
              | Some (fs, tail') => Some ((k, v) :: fs, tail')
              | None => None
              end
            else if (JSON.code c =? 125)%N then Some ([(k, v)], tail)
            else None
        | EmptyString => None
        end
    | None => None
    end.
Proof.
  rewrite quote_app.
  transitivity
    (match JSON.parse_string_body
             (JSON.escape k +:+ String (JSON.chr 34) (":" +:+ V)) with
     | Some (k', rest1) =>
         match JSON.skip_ws rest1 with
         | String colon rest2 =>
             if (JSON.code colon =? 58)%N then
               match JSON.parse_value f rest2 with
               | Some (v, rest3) =>
                   match JSON.skip_ws rest3 with
                   | String c tail =>
                       if (JSON.code c =? 44)%N then
                         match JSON.parse_members f tail with
                         | Some (fs, tail') => Some ((k', v) :: fs, tail')
                         | None => None
                         end
                       else if (JSON.code c =? 125)%N then Some ([(k', v)], tail)
                       else None
                   | EmptyString => None
                   end
               | None => None
               end
             else None
         | EmptyString => None
         end
     | None => None
     end); [reflexivity |].
  rewrite parse_escaped. reflexivity.
Qed.

Lemma skip_ws_comma (s : string) :
  JSON.skip_ws (String (JSON.chr 44) s) = String (JSON.chr 44) s.
Proof. reflexivity. Qed.

Lemma field_text_app (k : string) (x : value) (rest : string) :
  field_text (k, x) +:+ rest = JSON.quote k +:+ ":" +:+ (scalar_text x +:+ rest).
Proof. unfold field_text. cbn [fst snd]. rewrite !append_assoc. reflexivity. Qed.

Lemma parse_members_flat (fields : list (string * value)) :
  forall (f : nat) (tail : string),
    fields <> [] ->
    forallb (fun kv => scalar kv.2) fields = true ->
    length fields <= f ->
    JSON.parse_members (S f)
      (JSON.join_commas (map field_text fields) +:+ String (JSON.chr 125) tail)
    = Some (fields, tail).
Proof.
  induction fields as [| [k x] rest IH]; intros f tail Hne Hall Hlen; [congruence |].
  cbn [forallb snd] in Hall. apply andb_prop in Hall as [Hx Hrest].
  cbn [length] in Hlen. destruct f as [| f]; [lia |].
  destruct rest as [| kv' rest'].
  - cbn [map JSON.join_commas].
    rewrite field_text_app, parse_members_step.
    rewrite parse_value_scalar by (try assumption; eexists _, _; eauto).
    reflexivity.
  - change (JSON.join_commas (map field_text ((k, x) :: kv' :: rest')))
      with (field_text (k, x) +:+ "," +:+ JSON.join_commas (map field_text (kv' :: rest'))).
    rewrite !append_assoc.
    rewrite field_text_app, parse_members_step.
    rewrite parse_value_scalar by (try assumption; eexists _, _; eauto).
    change ("," +:+ ?a) with (String (JSON.chr 44) a).
    rewrite skip_ws_comma.
    change (JSON.code (JSON.chr 44) =? 44)%N with true. cbv iota.
    rewrite IH by (try assumption; try discriminate; cbn [length] in *; lia).
    reflexivity.
Qed.

Lemma stringify_flat (fields : list (string * value)) :
  forallb (fun kv => scalar kv.2) fields = true ->
  JSON.stringify (VObj fields)
  = Some ("{" +:+ JSON.join_commas (map field_text fields) +:+ "}").
Proof.
  intros Hall. cbn [JSON.stringify]. do 4 f_equal.
  induction fields as [| [k x] rest IH]; [reflexivity |].
  cbn [forallb snd] in Hall. apply andb_prop in Hall as [Hx Hrest].
  cbn [map]. rewrite <- (IH Hrest).
  destruct x as [| | [] | n | s | |]; try discriminate Hx; reflexivity.
Qed.

Lemma length_append (a b : string) :
  String.length (a +:+ b) = String.length a + String.length b.
Proof.
  induction a as [| c a IH]; [reflexivity |].
  change (S (String.length (a +:+ b)) = S (String.length a + String.length b)).
  now rewrite IH.
Qed.

Lemma join_commas_length (fields : list (string * value)) :
  length fields <= String.length (JSON.join_commas (map field_text fields)).
Proof.
  induction fields as [| [k x] rest IH]; [cbn; lia |].
  destruct rest as [| kv' rest'].
  - cbn [map JSON.join_commas length]. unfold field_text. rewrite quote_app. cbn; lia.
  - change (JSON.join_commas (map field_text ((k, x) :: kv' :: rest')))
      with (field_text (k, x) +:+ "," +:+ JSON.join_commas (map field_text (kv' :: rest'))).
    rewrite !length_append. cbn [List.length String.length] in *. lia.
Qed.

(** The reference codec reads back every flat object it prints. *)
Lemma flat_object_roundtrip (fields : list (string * value)) :
  forallb (fun kv => scalar kv.2) fields = true ->
  exists text : string,
    JSON.stringify (VObj fields) = Some text /\ JSON.parse text = Some (VObj fields).
Proof.
  intros Hall. eexists. split; [apply stringify_flat, Hall |].
  destruct fields as [| kv rest]; [reflexivity |].
  unfold JSON.parse.
  set (body := JSON.join_commas (map field_text (kv :: rest))).
  assert (Hlen : length (kv :: rest) <= String.length body)
    by apply join_commas_length.
  assert (Hhead : exists t, body = String (JSON.chr 34) t).
  { subst body. destruct kv as [k x]. destruct rest as [| kv' rest'].
    - cbn [map JSON.join_commas]. unfold field_text. rewrite quote_app. eauto.
    - change (JSON.join_commas (map field_text ((k, x) :: kv' :: rest')))
        with (field_text (k, x) +:+ "," +:+ JSON.join_commas (map field_text (kv' :: rest'))).
      unfold field_text. rewrite quote_app. eauto. }
  change ("{" +:+ body +:+ "}") with (String (JSON.chr 123) (body +:+ String (JSON.chr 125) "")).
  cbn [String.length]. rewrite length_append.
  replace (2 * S (String.length body + String.length (String (JSON.chr 125) "")) + 4)
    with (S (S (String.length body + (String.length body + 6)))) by (cbn; lia).
  pose proof (parse_members_flat (kv :: rest)
                (String.length body + (String.length body + 6)) ""
                ltac:(discriminate) Hall ltac:(lia)) as Hmembers.
  fold body in Hmembers.
  destruct Hhead as [t Ht].
  transitivity
    (match
        match JSON.skip_ws (body +:+ String (JSON.chr 125) "") with
        | String c' tail =>
            if (JSON.code c' =? 125)%N then Some (VObj [], tail)
            else match JSON.parse_members
                         (S (String.length body + (String.length body + 6)))
                         (body +:+ String (JSON.chr 125) "") with
                 | Some (fs, tail') => Some (VObj fs, tail')
                 | None => None
                 end
        | EmptyString => None
        end
      with
      | Some (v, rest0) =>
          match JSON.skip_ws rest0 with
          | EmptyString => Some v
          | String _ _ => None
          end
      | None => None
      end); [reflexivity |].
  rewrite Hmembers. rewrite Ht.
  reflexivity.
Qed.

Lemma flat_object_serializable (fields : list (string * value)) :
  forallb (fun kv => scalar kv.2) fields = true ->
  JSON_serializable JSON.parse JSON.stringify (VObj fields).
Proof. intros Hall. exact (flat_object_roundtrip fields Hall). Qed.

(** ** Storage keys *)

Lemma dd_keys_distinct : dd_token <> dd_user.
Proof. discriminate. Qed.

(** ** Route guards *)

(** C1. Every guard's decision is the one the guard table gives for the
    pair (token present?, role): [RequireAuth] renders exactly when a token
    is present; and with a token whose user has no role or an unknown role,
    [RequirePatient] renders and [PublicOnly] redirects to the patient
    home. *)
Theorem guards_follow_table :
  (forall (g : guard) (s : Session),
      run_guard g s = guard_table g (classify (hasToken s) (role_of s)))
  /\ (forall s : Session, RequireAuth s = Children <-> hasToken s = true)
  /\ (forall s : Session,
        hasToken s = true ->
        strict_eq_str (role_of s) "patient" = false ->
        strict_eq_str (role_of s) "investigator" = false ->
        RequirePatient s = Children /\
        PublicOnly s = Navigate "/dashboard" true).
Proof.
  split; [| split].
  - intros g s. unfold classify, hasToken, role_of.
    destruct g; cbn [run_guard];
      unfold RequireAuth, RequirePatient, RequireInvestigator, PublicOnly;
      destruct (truthy (token s)); cbn [negb guard_table]; try reflexivity;
      destruct (strict_eq_str (opt_member (user s) "role") "investigator") eqn:Hinv;
      cbn [negb guard_table]; try reflexivity;
      destruct (strict_eq_str (opt_member (user s) "role") "patient");
      reflexivity.
  - intros s. unfold RequireAuth, hasToken.
    destruct (truthy (token s)); split; congruence.
  - intros s Htok _ Hinv. unfold hasToken, role_of in *.
    unfold RequirePatient, PublicOnly. rewrite Htok, Hinv. split; reflexivity.
Qed.

Lemma guards_follow_table_witness :
  hasToken session_without_role = true /\
  RequirePatient session_without_role = Children /\
  PublicOnly session_without_role = Navigate "/dashboard" true.
Proof.
  split; [reflexivity |].
  apply (proj2 (proj2 guards_follow_table) session_without_role); reflexivity.
Defined.

(** ** Session store *)

Lemma logout_run (w : World) :
  logout w =
  (Ok tt,
   mkWorld (delete dd_user (delete dd_token (localStorage w))) empty_session,
   [EvRemoveItem dd_token; EvRemoveItem dd_user; EvStoreSet empty_session]).
Proof. reflexivity. Qed.

(** C8. Calling [logout] twice in a row succeeds and leaves the world that
    one call leaves; on a logged-out world [logout] changes nothing. *)
Theorem logout_idempotent (w : World) :
  result_of (logout w) = Ok tt
  /\ result_of ((logout ;;; logout) w) = Ok tt
  /\ world_of ((logout ;;; logout) w) = world_of (logout w)
  /\ (logged_out w -> world_of (logout w) = w).
Proof.
  split; [reflexivity |]. split; [reflexivity |]. split.
  - unfold bind. rewrite !logout_run. cbn [world_of fst snd localStorage].
    f_equal.
    rewrite (delete_id (delete dd_user _) dd_token).
    + apply delete_id. apply lookup_delete_eq.
    + rewrite lookup_delete_ne by (apply not_eq_sym, dd_keys_distinct).
      apply lookup_delete_eq.
  - intros (Ht & Hu & Hs). rewrite logout_run. cbn [world_of fst snd].
    destruct w as [ls st]. cbn in Ht, Hu, Hs. subst st. f_equal.
    rewrite (delete_id ls dd_token Ht). apply delete_id. exact Hu.
Qed.

Lemma logout_idempotent_witness :
  logged_out empty_world /\ world_of (logout empty_world) = empty_world.
Proof.
  assert (H : logged_out empty_world) by (repeat split; reflexivity).
  split; [exact H |].
  exact (proj2 (proj2 (proj2 (logout_idempotent empty_world))) H).
Defined.

Section StoreProperties.
Variable JSON_stringify : value -> option string.

Lemma setAuth_run (tok usr : value) (w : World) :
  setAuth JSON_stringify tok usr w =
  (Ok tt,
   mkWorld (<[dd_user := to_string (json_stringify JSON_stringify usr)]>
              (<[dd_token := to_string tok]> (localStorage w)))
           (mkSession tok usr),
   [EvSetItem dd_token (to_string tok);
    EvSetItem dd_user (to_string (json_stringify JSON_stringify usr));
    EvStoreSet (mkSession tok usr)]).
Proof. reflexivity. Qed.

Lemma updateUser_run (usr : value) (w : World) :
  updateUser JSON_stringify usr w =
  (Ok tt,
   mkWorld (<[dd_user := to_string (json_stringify JSON_stringify usr)]> (localStorage w))
           (mkSession (token (store w)) usr),
   [EvSetItem dd_user (to_string (json_stringify JSON_stringify usr));
    EvStoreSet (mkSession (token (store w)) usr)]).
Proof. reflexivity. Qed.

Lemma paired_of_all_present (w : World) : all_present w -> paired w = true.
Proof.
  intros (_ & Ht & Hu & Het & Heu). unfold paired. rewrite Ht, Hu, Het, Heu. reflexivity.
Qed.

Lemma paired_of_all_absent (w : World) : all_absent w -> paired w = true.
Proof.
  intros (_ & Ht & Hu & Het & Heu). unfold paired. rewrite Ht, Hu, Het, Heu. reflexivity.
Qed.

Lemma nonempty_token_truthy (tok : value) :
  nonempty_token tok = true -> truthy tok = true /\ present tok = true.
Proof. destruct tok as [| | | | [|c s] | |]; cbn; intros H; try discriminate; auto. Qed.

Lemma is_user_present (usr : value) : is_user usr = true -> present usr = true.
Proof. destruct usr; cbn; intros H; try discriminate; reflexivity. Qed.

Lemma has_entry_insert_eq (k v : string) (ls : gmap string string) (st : Session) :
  has_entry k (mkWorld (<[k := v]> ls) st) = true.
Proof. unfold has_entry. cbn [localStorage]. rewrite lookup_insert_eq. reflexivity. Qed.

Lemma has_entry_insert_ne (k k' v : string) (ls : gmap string string) (st st' : Session) :
  k <> k' ->
  has_entry k' (mkWorld (<[k := v]> ls) st) = has_entry k' (mkWorld ls st').
Proof.
  intros Hne. unfold has_entry. cbn [localStorage].
  rewrite lookup_insert_ne by exact Hne. reflexivity.
Qed.

Lemma has_entry_delete_eq (k : string) (ls : gmap string string) (st : Session) :
  has_entry k (mkWorld (delete k ls) st) = false.
Proof. unfold has_entry. cbn [localStorage]. rewrite lookup_delete_eq. reflexivity. Qed.

Lemma has_entry_delete_ne (k k' : string) (ls : gmap string string) (st st' : Session) :
  k <> k' ->
  has_entry k' (mkWorld (delete k ls) st) = has_entry k' (mkWorld ls st').
Proof.
  intros Hne. unfold has_entry. cbn [localStorage].
  rewrite lookup_delete_ne by exact Hne. reflexivity.
Qed.

Lemma setAuth_all_present (tok usr : value) (w : World) :
  nonempty_token tok = true -> is_user usr = true ->
  all_present (world_of (setAuth JSON_stringify tok usr w)).
Proof.
  intros Ht Hu. rewrite setAuth_run. cbn [world_of fst snd].
  destruct (nonempty_token_truthy tok Ht) as [Htr Hpr].
  unfold all_present. cbn [store token user].
  repeat split; auto using is_user_present.
  - rewrite (has_entry_insert_ne dd_user dd_token _ _ _ empty_session)
      by (apply not_eq_sym, dd_keys_distinct).
    apply has_entry_insert_eq.
  - apply has_entry_insert_eq.
Qed.

Lemma logout_all_absent (w : World) : all_absent (world_of (logout w)).
Proof.
  rewrite logout_run. cbn [world_of fst snd]. unfold all_absent.
  cbn [store token user empty_session truthy present is_nullish negb].
  repeat split.
  - rewrite (has_entry_delete_ne dd_user dd_token _ _ empty_session)
      by (apply not_eq_sym, dd_keys_distinct).
    apply has_entry_delete_eq.
  - apply has_entry_delete_eq.
Qed.

Lemma updateUser_all_present (usr : value) (w : World) :
  is_user usr = true -> all_present w ->
  all_present (world_of (updateUser JSON_stringify usr w)).
Proof.
  intros Hu (Htr & Hpr & _ & Het & _). rewrite updateUser_run. cbn [world_of fst snd].
  unfold all_present. cbn [store token user].
  repeat split; auto using is_user_present.
  - rewrite (has_entry_insert_ne dd_user dd_token _ _ _ (store w))
      by (apply not_eq_sym, dd_keys_distinct).
    destruct w; exact Het.
  - apply has_entry_insert_eq.
Qed.

Lemma observations_paired (ops : list op) :
  forall w : World,
    all_present w \/ all_absent w ->
    forallb valid_op ops = true ->
    only_updates_when_logged_in JSON_stringify ops w ->
    Forall (fun w' => paired w' = true) (observations JSON_stringify ops w).
Proof.
  induction ops as [| o rest IH]; intros w Hinv Hvalid Hseq; cbn [observations].
  - constructor; [| constructor].
    destruct Hinv; auto using paired_of_all_present, paired_of_all_absent.
  - cbn [forallb] in Hvalid. apply andb_prop in Hvalid as [Ho Hrest].
    cbn [only_updates_when_logged_in] in Hseq. destruct Hseq as [Hnow Hlater].
    constructor.
    + destruct Hinv; auto using paired_of_all_present, paired_of_all_absent.
    + apply IH; [| exact Hrest | exact Hlater].
      destruct o as [tok usr | | usr]; cbn [run_op valid_op] in *.
      * apply andb_prop in Ho as [Ht Hu]. left. now apply setAuth_all_present.
      * right. apply logout_all_absent.
      * left. apply updateUser_all_present; [exact Ho |].
        destruct Hinv as [Hp | Ha]; [exact Hp |].
        destruct Ha as (Hfalse & _). congruence.
Qed.

Lemma empty_world_all_absent : all_absent empty_world.
Proof. repeat split. Qed.

(** C3 (amended). Starting from the empty session, along every sequence of
    [setAuth] (non-empty token, a user record), [logout] and [updateUser]
    (a user record) calls in which [updateUser] is only called while the
    store holds a token, token and user are both present or both absent at
    every observation point, in the store and in [localStorage]. *)
Theorem pairing_invariant (ops : list op) :
  forallb valid_op ops = true ->
  only_updates_when_logged_in JSON_stringify ops empty_world ->
  Forall (fun w => paired w = true) (observations JSON_stringify ops empty_world).
Proof.
  intros Hvalid Hseq. apply observations_paired; auto.
  right. apply empty_world_all_absent.
Qed.

End StoreProperties.

Section ReloadProperties.
Variable JSON_parse : string -> option value.
Variable JSON_stringify : value -> option string.

Lemma initialize_run (w : World) :
  initialize JSON_parse w =
  match JSON_parse (to_string (js_or (entry dd_user w) (VStr "null"))) with
  | Some u =>
      let s := mkSession (js_or (entry dd_token w) VNull) u in
      (Ok tt, mkWorld (localStorage w) s, [EvStoreSet s])
  | None => (Throw SyntaxError, w, [])
  end.
Proof.
  unfold entry. js_unfold.
  destruct (JSON_parse _); reflexivity.
Qed.

(** With both entries stored, the token non-empty and the user text
    readable, the store starts from exactly what is stored. *)
Lemma initialize_reads_entries (w : World) (t s : string) (u : value) :
  localStorage w !! dd_token = Some t -> t <> "" ->
  localStorage w !! dd_user = Some s -> s <> "" ->
  JSON_parse s = Some u ->
  result_of (initialize JSON_parse w) = Ok tt /\
  store (world_of (initialize JSON_parse w)) = mkSession (VStr t) u.
Proof.
  intros Htok Ht Huser Hs Hparse. rewrite initialize_run.
  unfold entry. rewrite Htok, Huser.
  destruct s as [| c s']; [congruence |].
  destruct t as [| a t']; [congruence |].
  cbn [js_or truthy to_string]. rewrite Hparse. split; reflexivity.
Qed.

Lemma setAuth_entries (t : string) (u : value) (s : string) (w : World) :
  JSON_stringify u = Some s ->
  let w1 := world_of (setAuth JSON_stringify (VStr t) u w) in
  localStorage w1 !! dd_token = Some t /\ localStorage w1 !! dd_user = Some s.
Proof.
  intros Hs w1. subst w1. rewrite setAuth_run. cbn [world_of fst snd localStorage].
  unfold json_stringify. rewrite Hs. cbn [to_string]. split.
  - rewrite lookup_insert_ne by (apply not_eq_sym, dd_keys_distinct).
    apply lookup_insert_eq.
  - apply lookup_insert_eq.
Qed.

(** C5. Durable round trip.  After [setAuth(t, u)] with a non-empty token
    string [t] and a JSON-serializable user [u], a reload - the page starts
    again with the [localStorage] that [setAuth] left and with whatever
    session [s0] in memory, nothing of the old store surviving - runs
    [initialize] without an error and yields the session [(t, u)], read
    back from [localStorage] alone; [localStorage] itself is not changed by
    the reload. *)
Theorem setAuth_initialize_roundtrip (t : string) (u : value) (w : World) (s0 : Session) :
  JSON_parse "" = None ->
  t <> "" ->
  JSON_serializable JSON_parse JSON_stringify u ->
  let w1 := world_of (setAuth JSON_stringify (VStr t) u w) in
  let reloaded := mkWorld (localStorage w1) s0 in
  store w1 = mkSession (VStr t) u
  /\ result_of (initialize JSON_parse reloaded) = Ok tt
  /\ store (world_of (initialize JSON_parse reloaded)) = mkSession (VStr t) u
  /\ localStorage (world_of (initialize JSON_parse reloaded)) = localStorage w1.
Proof.
  intros Hempty Ht (s & Hs & Hparse) w1 reloaded.
  assert (Hne : s <> "") by (intros ->; congruence).
  destruct (setAuth_entries t u s w Hs) as [Htok Huser].
  fold w1 in Htok, Huser.
  split; [reflexivity |].
  destruct (initialize_reads_entries reloaded t s u Htok Ht Huser Hne Hparse)
    as [Hres Hstore].
  split; [exact Hres |]. split; [exact Hstore |].
  rewrite initialize_run.
  destruct (JSON_parse (to_string _)); reflexivity.
Qed.

(** C4 (amended). [initialize] reads the two entries independently and
    does not check that they come in pairs.  When the user entry is absent
    (or empty) it does not throw, the user is [null] and the token is the
    stored token entry, [null] when that entry is absent or empty; so with
    both entries absent the session is logged out, and a token stored alone
    is kept.  A user entry stored alone that holds a JSON text is kept as
    well. *)
Theorem initialize_without_user_entry (w : World) :
  JSON_parse "null" = Some VNull ->
  (localStorage w !! dd_user = None \/ localStorage w !! dd_user = Some "" ->
   result_of (initialize JSON_parse w) = Ok tt
   /\ localStorage (world_of (initialize JSON_parse w)) = localStorage w
   /\ user (store (world_of (initialize JSON_parse w))) = VNull
   /\ (forall t : string,
         localStorage w !! dd_token = Some t -> t <> "" ->
         store (world_of (initialize JSON_parse w)) = mkSession (VStr t) VNull)
   /\ (localStorage w !! dd_token = None \/ localStorage w !! dd_token = Some "" ->
       store (world_of (initialize JSON_parse w)) = empty_session))
  /\ (forall (s : string) (u : value),
        localStorage w !! dd_token = None ->
        localStorage w !! dd_user = Some s -> s <> "" ->
        JSON_parse s = Some u ->
        result_of (initialize JSON_parse w) = Ok tt
        /\ store (world_of (initialize JSON_parse w)) = mkSession VNull u).
Proof.
  intros Hnull. split.
  - intros Huser. rewrite initialize_run.
    assert (Hraw : to_string (js_or (entry dd_user w) (VStr "null")) = "null").
    { unfold entry. destruct Huser as [-> | ->]; reflexivity. }
    rewrite Hraw, Hnull. cbn.
    repeat split.
    + intros t Ht Hne. unfold entry. rewrite Ht.
      destruct t; [congruence | reflexivity].
    + intros [Ht | Ht]; unfold entry; rewrite Ht; reflexivity.
  - intros s u Htok Huser Hne Hparse. rewrite initialize_run.
    unfold entry. rewrite Htok, Huser.
    destruct s as [| c s']; [congruence |].
    cbn [js_or truthy to_string]. rewrite Hparse. split; reflexivity.
Qed.

(** After a 401 the reloaded page starts logged out, so [RequireAuth] sends
    it to the login route. *)
Lemma reload_after_401 (err : exn) (w : World) :
  JSON_parse "null" = Some VNull ->
  is_401 err = true ->
  let w' := world_of (response_onRejected err w) in
  store (world_of (initialize JSON_parse w')) = empty_session /\
  RequireAuth (store (world_of (initialize JSON_parse w'))) = Navigate "/login" true.
Proof.
  intros Hnull H401 w'. subst w'. rewrite initialize_run.
  unfold response_onRejected. rewrite H401. js_unfold. unfold entry.
  cbn [localStorage].
  rewrite lookup_delete_eq.
  rewrite lookup_delete_ne by (apply not_eq_sym, dd_keys_distinct).
  rewrite lookup_delete_eq. cbn [js_or truthy to_string].
  rewrite Hnull. split; reflexivity.
Qed.

End ReloadProperties.

(** ** Request client *)

Lemma is_401_status (err : exn) : is_401 err = true <-> error_status err = Some 401%Z.
Proof.
  destruct err as [| | [[r |]]]; cbn; try (split; congruence).
  rewrite Z.eqb_eq. split; congruence.
Qed.

(** The rejection handler of the response interceptor always rejects with
    the error it was given.  When the error carries status 401 it first
    removes the token entry, then the user entry, and only then assigns the
    login route to [window.location.href]; for every other error (another
    status, or no response at all) it touches nothing. *)
Lemma response_onRejected_effects (err : exn) (w : World) :
  result_of (response_onRejected err w) = Throw err
  /\ (error_status err = Some 401%Z ->
      trace_of (response_onRejected err w)
      = [EvRemoveItem dd_token; EvRemoveItem dd_user; EvLocation "/login"]
      /\ localStorage (world_of (response_onRejected err w))
         = delete dd_user (delete dd_token (localStorage w))
      /\ localStorage (world_of (response_onRejected err w)) !! dd_token = None
      /\ localStorage (world_of (response_onRejected err w)) !! dd_user = None
      /\ store (world_of (response_onRejected err w)) = store w)
  /\ (error_status err <> Some 401%Z ->
      world_of (response_onRejected err w) = w
      /\ trace_of (response_onRejected err w) = []).
Proof.
  unfold response_onRejected.
  destruct (is_401 err) eqn:H401.
  - split; [reflexivity |]. split.
    + intros _. js_unfold. repeat split.
      * rewrite lookup_delete_ne by (apply not_eq_sym, dd_keys_distinct).
        apply lookup_delete_eq.
      * apply lookup_delete_eq.
    + intros Hne. apply is_401_status in H401. contradiction.
  - split; [reflexivity |]. split.
    + intros Hst. apply is_401_status in Hst. congruence.
    + intros _. js_unfold. destruct w. split; reflexivity.
Qed.

Section ClientProperties.
Variable VITE_API_BASE_URL : value.
Variable server : request -> net_result.

Lemma request_interceptor_run (config : request) (w : World) :
  request_interceptor config w =
  (Ok (if truthy (entry dd_token w)
       then set_header "Authorization" ("Bearer " +:+ to_string (entry dd_token w)) config
       else config),
   w, []).
Proof.
  unfold entry. js_unfold. unfold request_interceptor. js_unfold.
  destruct (truthy _); reflexivity.
Qed.

Lemma settle_trace (n : net_result) (w : World) :
  world_of (settle n w) = w /\ trace_of (settle n w) = [].
Proof.
  destruct n as [r |]; cbn [settle]; [destruct (validateStatus (status r)) |];
    split; reflexivity.
Qed.

Lemma axios_request_trace (r : request) (w : World) :
  world_of (axios_request server r w) = w /\
  trace_of (axios_request server r w) = [EvHttp r].
Proof.
  unfold axios_request. js_unfold.
  destruct (settle_trace (server r) w) as [Hw Ht].
  destruct (settle (server r) w) as [[res w'] t'].
  cbn [world_of trace_of fst snd] in Hw, Ht. subst. split; reflexivity.
Qed.

Lemma client_request_dispatches (config : request) (w : World) :
  exists rest : list event,
    trace_of (client_request server config w)
    = EvHttp (if truthy (entry dd_token w)
              then set_header "Authorization"
                     ("Bearer " +:+ to_string (entry dd_token w)) config
              else config) :: rest.
Proof.
  unfold client_request, then_, bind. rewrite request_interceptor_run.
  set (config' := if truthy (entry dd_token w) then _ else _).
  destruct (axios_request_trace config' w) as [Hw Ht].
  destruct (axios_request server config' w) as [[res w1] t1].
  cbn [world_of trace_of fst snd] in Hw, Ht. subst w1 t1. cbn [app].
  destruct res as [a | e].
  - destruct (response_onFulfilled a w) as [[r2 w2] t2].
    exists t2. reflexivity.
  - destruct (response_onRejected e w) as [[r2 w2] t2].
    exists t2. reflexivity.
Qed.

(** C6. Every request sent through [client] is dispatched with the header
    [Authorization: Bearer t] when [localStorage] holds the token [t] at
    that moment, and without an [Authorization] header when it holds no
    token. *)
Theorem client_attaches_bearer
    (m : http_method) (u : string) (d : body) (ps rt : value) (w : World) :
  let config := client_config VITE_API_BASE_URL m u d ps rt in
  (forall t : string,
      localStorage w !! dd_token = Some t -> t <> "" ->
      exists (r : request) (rest : list event),
        trace_of (client_request server config w) = EvHttp r :: rest
        /\ r = set_header "Authorization" ("Bearer " +:+ t) config
        /\ headers r !! "Authorization" = Some ("Bearer " +:+ t))
  /\ (localStorage w !! dd_token = None \/ localStorage w !! dd_token = Some "" ->
      exists (r : request) (rest : list event),
        trace_of (client_request server config w) = EvHttp r :: rest
        /\ r = config
        /\ headers r !! "Authorization" = None).
Proof.
  intros config. split.
  - intros t Ht Hne.
    destruct (client_request_dispatches config w) as [rest Hrest].
    unfold entry in Hrest. rewrite Ht in Hrest.
    destruct t as [| c t']; [congruence |]. cbn [truthy to_string] in Hrest.
    eexists _, rest. split; [exact Hrest |]. split; [reflexivity |].
    cbn [set_header with_headers headers]. apply lookup_insert_eq.
  - intros Ht.
    destruct (client_request_dispatches config w) as [rest Hrest].
    unfold entry in Hrest. destruct Ht as [Ht | Ht]; rewrite Ht in Hrest;
      cbn [truthy] in Hrest.
    all: eexists _, rest; (split; [exact Hrest |]); (split; [reflexivity |]).
    all: subst config; cbn [client_config headers]; apply lookup_empty.
Qed.

(** A 401 from any endpoint: the whole pipeline of [client] dispatches the
    request, clears the two entries, redirects and rejects. *)
Lemma client_request_401 (config : request) (w : World) (r : response) :
  let config' :=
    if truthy (entry dd_token w)
    then set_header "Authorization" ("Bearer " +:+ to_string (entry dd_token w)) config
    else config in
  server config' = NetResponse r ->
  status r = 401%Z ->
  client_request server config w
  = (Throw (AxiosError (mkAxiosError (Some r))),
     mkWorld (delete dd_user (delete dd_token (localStorage w))) (store w),
     [EvHttp config'; EvRemoveItem dd_token; EvRemoveItem dd_user; EvLocation "/login"]).
Proof.
  intros config' Hserver Hstatus.
  destruct r as [st d]. cbn [status] in Hstatus. subst st.
  unfold client_request, then_, bind. rewrite request_interceptor_run.
  fold config'. unfold axios_request, bind, emit. rewrite Hserver.
  reflexivity.
Qed.

Lemma client_request_run (config : request) (w : World) :
  let config' :=
    if truthy (entry dd_token w)
    then set_header "Authorization" ("Bearer " +:+ to_string (entry dd_token w)) config
    else config in
  client_request server config w
  = match server config' with
    | NetResponse r =>
        if validateStatus (status r) then (Ok r, w, [EvHttp config'])
        else
          (result_of (response_onRejected (AxiosError (mkAxiosError (Some r))) w),
           world_of (response_onRejected (AxiosError (mkAxiosError (Some r))) w),
           EvHttp config'
           :: trace_of (response_onRejected (AxiosError (mkAxiosError (Some r))) w))
    | NetFailure => (Throw (AxiosError (mkAxiosError None)), w, [EvHttp config'])
    end.
Proof.
  intros config'.
  unfold client_request, then_, bind. rewrite request_interceptor_run.
  fold config'. unfold axios_request, bind, emit.
  destruct (server config') as [r |]; cbn [settle].
  - destruct (validateStatus (status r)); [reflexivity |].
    cbn [throw app].
    destruct (response_onRejected (AxiosError (mkAxiosError (Some r))) w) as [[res w2] t2].
    reflexivity.
  - destruct w; reflexivity.
Qed.

(** C2. For every request through [client] that ends in an error.  When
    the response has status 401, the two [localStorage] entries are removed
    (token first, then user), after that the login route is assigned to
    [window.location.href], and the call still rejects with that error.  For
    any other failure - another status outside 2xx, or no response (network
    error, timeout) - the call rejects with the error unchanged, and the
    request is its only effect: [localStorage] and the store are as they
    were.  Conversely, an entry is removed, the location assigned or the
    world changed only after a 401. *)
Theorem forced_logout_iff_401 (config : request) (w : World) :
  let config' :=
    if truthy (entry dd_token w)
    then set_header "Authorization" ("Bearer " +:+ to_string (entry dd_token w)) config
    else config in
  let run := client_request server config w in
  (forall r : response,
      server config' = NetResponse r -> status r = 401%Z ->
      result_of run = Throw (AxiosError (mkAxiosError (Some r)))
      /\ trace_of run
         = [EvHttp config'; EvRemoveItem dd_token; EvRemoveItem dd_user;
            EvLocation "/login"]
      /\ localStorage (world_of run) = delete dd_user (delete dd_token (localStorage w))
      /\ localStorage (world_of run) !! dd_token = None
      /\ localStorage (world_of run) !! dd_user = None
      /\ store (world_of run) = store w)
  /\ (forall r : response,
        server config' = NetResponse r -> validateStatus (status r) = false ->
        status r <> 401%Z ->
        result_of run = Throw (AxiosError (mkAxiosError (Some r)))
        /\ trace_of run = [EvHttp config']
        /\ world_of run = w)
  /\ (server config' = NetFailure ->
      result_of run = Throw (AxiosError (mkAxiosError None))
      /\ trace_of run = [EvHttp config']
      /\ world_of run = w)
  /\ ((world_of run <> w
       \/ In (EvRemoveItem dd_token) (trace_of run)
       \/ In (EvRemoveItem dd_user) (trace_of run)
       \/ In (EvLocation "/login") (trace_of run)) ->
      exists r : response, server config' = NetResponse r /\ status r = 401%Z).
Proof.
  intros config' run.
  assert (H401 : forall r : response,
             server config' = NetResponse r -> status r = 401%Z ->
             run = (Throw (AxiosError (mkAxiosError (Some r))),
                    mkWorld (delete dd_user (delete dd_token (localStorage w))) (store w),
                    [EvHttp config'; EvRemoveItem dd_token; EvRemoveItem dd_user;
                     EvLocation "/login"])).
  { intros r Hs Hst. exact (client_request_401 config w r Hs Hst). }
  assert (Hother :
            (forall r : response, server config' = NetResponse r -> status r <> 401%Z) ->
            world_of run = w /\ trace_of run = [EvHttp config']
            /\ result_of run
               = match server config' with
                 | NetResponse r =>
                     if validateStatus (status r) then Ok r
                     else Throw (AxiosError (mkAxiosError (Some r)))
                 | NetFailure => Throw (AxiosError (mkAxiosError None))
                 end).
  { intros Hnot. subst run. rewrite client_request_run. fold config'.
    destruct (server config') as [r |] eqn:Hs; [| repeat split].
    destruct (validateStatus (status r)); [repeat split |].
    assert (Hno : is_401 (AxiosError (mkAxiosError (Some r))) = false).
    { cbn [is_401 err_response]. apply Z.eqb_neq. apply Hnot. reflexivity. }
    unfold response_onRejected. rewrite Hno. js_unfold.
    destruct w. repeat split. }
  split; [| split; [| split]].
  - intros r Hs Hst. rewrite (H401 r Hs Hst).
    cbn [result_of world_of trace_of fst snd localStorage store].
    repeat split.
    + rewrite lookup_delete_ne by (apply not_eq_sym, dd_keys_distinct).
      apply lookup_delete_eq.
    + apply lookup_delete_eq.
  - intros r Hs Hv Hst.
    destruct Hother as (Hw & Ht & Hr).
    { intros r' Hs'. rewrite Hs in Hs'. injection Hs' as <-. exact Hst. }
    rewrite Hs, Hv in Hr. repeat split; assumption.
  - intros Hs.
    destruct Hother as (Hw & Ht & Hr).
    { intros r' Hs'. rewrite Hs in Hs'. discriminate Hs'. }
    rewrite Hs in Hr. repeat split; assumption.
  - intros Hchanged.
    destruct (server config') as [r |] eqn:Hs.
    + destruct (Z.eq_dec (status r) 401%Z) as [Hst | Hst];
        [exists r; split; [reflexivity | exact Hst] |].
      exfalso.
      destruct Hother as (Hw & Ht & _).
      { intros r' [= <-]. exact Hst. }
      rewrite Ht in Hchanged. cbn [In] in Hchanged.
      destruct Hchanged as [Hc | [[Hc | []] | [[Hc | []] | [Hc | []]]]];
        [exact (Hc Hw) | discriminate Hc ..].
    + exfalso.
      destruct Hother as (Hw & Ht & _).
      { intros r' Hs'. discriminate Hs'. }
      rewrite Ht in Hchanged. cbn [In] in Hchanged.
      destruct Hchanged as [Hc | [[Hc | []] | [[Hc | []] | [Hc | []]]]];
        [exact (Hc Hw) | discriminate Hc ..].
Qed.

(** C7. [login(e, p)] issues exactly one request: a POST to
    [/api/v1/auth/login] under the API base, whose body is a form (not
    JSON) with the fields [username = e] and [password = p], in this order,
    and whose content type is [application/x-www-form-urlencoded]. *)
Theorem login_wire_format (e p : string) (w : World) :
  trace_of (authApi_login VITE_API_BASE_URL server (VStr e) (VStr p) w)
  = [EvHttp (mkRequest POST ""
               (API_BASE VITE_API_BASE_URL +:+ "/api/v1/auth/login")
               {[ "Content-Type" := "application/x-www-form-urlencoded" ]}
               (FormBody [("username", e); ("password", p)])
               VUndefined VUndefined 0)].
Proof.
  unfold authApi_login.
  exact (proj2 (axios_request_trace _ w)).
Qed.

End ClientProperties.

(** ** Registration page *)

Lemma trace_bind_Ok {A B : Type} (m : M A) (f : A -> M B) (w w1 : World)
    (a : A) (t1 : list event) :
  m w = (Ok a, w1, t1) ->
  trace_of (bind m f w) = t1 ++ trace_of (f a w1).
Proof.
  intros Hm. unfold bind. rewrite Hm.
  destruct (f a w1) as [[r w2] t2]. reflexivity.
Qed.

Lemma trace_bind_prefix {A B : Type} (m : M A) (f : A -> M B) (w : World) :
  exists rest : list event, trace_of (bind m f w) = trace_of (m w) ++ rest.
Proof.
  unfold bind. destruct (m w) as [[[a | e] w1] t1].
  - destruct (f a w1) as [[r w2] t2]. exists t2. reflexivity.
  - exists []. cbn. now rewrite app_nil_r.
Qed.

Lemma trace_try_catch_prefix {A : Type} (body : M A) (handler : exn -> M A) (w : World) :
  exists rest : list event,
    trace_of (try_catch body handler w) = trace_of (body w) ++ rest.
Proof.
  unfold try_catch. destruct (body w) as [[[a | e] w1] t1].
  - exists []. cbn. now rewrite app_nil_r.
  - destruct (handler e w1) as [[r w2] t2]. exists t2. reflexivity.
Qed.

Lemma trace_finally_prefix {A : Type} (body : M A) (fin : M unit) (w : World) :
  exists rest : list event,
    trace_of (finally body fin w) = trace_of (body w) ++ rest.
Proof.
  unfold finally. destruct (body w) as [[r w1] t1].
  destruct (fin w1) as [[[u | e] w2] t2]; exists t2; reflexivity.
Qed.

Lemma truthy_VStr (s : string) : truthy (VStr s) = true <-> s <> "".
Proof. destruct s; cbn; split; congruence. Qed.

Lemma form_checks_pass (fn em pw rl : string) :
  passes_validation fn em pw ->
  negb (truthy (prop (form_of fn em pw rl) "full_name"))
  || negb (truthy (prop (form_of fn em pw rl) "email"))
  || negb (truthy (prop (form_of fn em pw rl) "password")) = false
  /\ lt_num (prop (prop (form_of fn em pw rl) "password") "length") 8 = false.
Proof.
  intros (Hfn & Hem & Hpw & Hlen).
  change (prop (form_of fn em pw rl) "full_name") with (VStr fn).
  change (prop (form_of fn em pw rl) "email") with (VStr em).
  change (prop (form_of fn em pw rl) "password") with (VStr pw).
  apply truthy_VStr in Hfn, Hem, Hpw. rewrite Hfn, Hem, Hpw.
  split; [reflexivity |].
  change (prop (VStr pw) "length") with (VNum (Z.of_nat (utf16_length pw))).
  cbn [lt_num]. apply Z.ltb_ge. lia.
Qed.

Lemma form_checks_fail (fn em pw rl : string) :
  ~ passes_validation fn em pw ->
  negb (truthy (prop (form_of fn em pw rl) "full_name"))
  || negb (truthy (prop (form_of fn em pw rl) "email"))
  || negb (truthy (prop (form_of fn em pw rl) "password")) = true
  \/ lt_num (prop (prop (form_of fn em pw rl) "password") "length") 8 = true.
Proof.
  intros Hnot.
  change (prop (form_of fn em pw rl) "full_name") with (VStr fn).
  change (prop (form_of fn em pw rl) "email") with (VStr em).
  change (prop (form_of fn em pw rl) "password") with (VStr pw).
  change (prop (VStr pw) "length") with (VNum (Z.of_nat (utf16_length pw))).
  destruct (truthy (VStr fn)) eqn:Hfn; [| left; reflexivity].
  destruct (truthy (VStr em)) eqn:Hem; [| left; reflexivity].
  destruct (truthy (VStr pw)) eqn:Hpw; [| left; reflexivity].
  right. cbn [lt_num]. apply Z.ltb_lt.
  apply truthy_VStr in Hfn, Hem, Hpw.
  destruct (Nat.le_gt_cases 8 (utf16_length pw)) as [Hle | Hgt]; [| lia].
  exfalso. apply Hnot. repeat split; assumption.
Qed.

Section RegisterProperties.
Variable JSON_stringify : value -> option string.
Variable VITE_API_BASE_URL : value.
Variable server : request -> net_result.

Lemma axios_request_Ok (r : request) (res : response) (w : World) :
  server r = NetResponse res ->
  validateStatus (status res) = true ->
  axios_request server r w = (Ok res, w, [EvHttp r]).
Proof.
  intros Hs Hv. unfold axios_request. js_unfold. rewrite Hs. cbn [settle].
  rewrite Hv. reflexivity.
Qed.

Lemma register_request_of_form (form : value) :
  register_request VITE_API_BASE_URL form VUndefined VUndefined VUndefined
  = register_form_request VITE_API_BASE_URL form.
Proof. reflexivity. Qed.

Lemma me_request_without_argument :
  me_request VITE_API_BASE_URL VUndefined = me_noarg_request VITE_API_BASE_URL.
Proof. reflexivity. Qed.

Lemma handleSubmit_valid (fn em pw rl : string) (w : World) :
  passes_validation fn em pw ->
  exists rest : list event,
    trace_of (handleSubmit JSON_stringify VITE_API_BASE_URL server (form_of fn em pw rl) w)
    = [EvPreventDefault; EvSetLoading true] ++
      trace_of (authApi_register VITE_API_BASE_URL server (form_of fn em pw rl)
                  VUndefined VUndefined VUndefined w) ++ rest.
Proof.
  intros Hvalid. unfold handleSubmit.
  destruct (form_checks_pass fn em pw rl Hvalid) as [Hc1 Hc2].
  rewrite (trace_bind_Ok _ _ w w tt [EvPreventDefault]) by reflexivity.
  rewrite Hc1, Hc2.
  rewrite (trace_bind_Ok _ _ w w tt [EvSetLoading true]) by reflexivity.
  match goal with
  | |- context [trace_of (finally ?b ?f w)] =>
      destruct (trace_finally_prefix b f w) as [r1 ->]
  end.
  match goal with
  | |- context [trace_of (try_catch ?b ?h w)] =>
      destruct (trace_try_catch_prefix b h w) as [r2 ->]
  end.
  match goal with
  | |- context [trace_of (bind ?m ?f w)] =>
      destruct (trace_bind_prefix m f w) as [r3 ->]
  end.
  exists (r3 ++ r2 ++ r1). cbn [app]. rewrite <- !app_assoc. reflexivity.
Qed.

(** C10 (amended). For every submission of the registration form that
    passes the page's validation (name, email and password non-empty,
    [password.length] at least 8), the page calls [authApi.register] with
    the whole form object as its single argument: the first request is the
    POST to [/api/v1/auth/register] under the API base whose JSON body has
    the form object in [email], [undefined] for [password] and [full_name],
    and role ["patient"], whatever role the form holds.  A submission that
    fails the validation sends nothing. *)
Theorem register_sends_form_as_email (fn em pw rl : string) (w : World) :
  (passes_validation fn em pw ->
   exists (r : request) (rest : list event),
     trace_of (handleSubmit JSON_stringify VITE_API_BASE_URL server (form_of fn em pw rl) w)
     = [EvPreventDefault; EvSetLoading true; EvHttp r] ++ rest
     /\ r = register_request VITE_API_BASE_URL (form_of fn em pw rl)
             VUndefined VUndefined VUndefined
     /\ method r = POST
     /\ url r = API_BASE VITE_API_BASE_URL +:+ "/api/v1/auth/register"
     /\ data r = JsonBody (VObj [("email", form_of fn em pw rl);
                                 ("password", VUndefined);
                                 ("full_name", VUndefined);
                                 ("role", VStr "patient")]))
  /\ (~ passes_validation fn em pw ->
      exists msg : value,
        trace_of (handleSubmit JSON_stringify VITE_API_BASE_URL server (form_of fn em pw rl) w)
        = [EvPreventDefault; EvToastError msg]).
Proof.
  split.
  - intros Hvalid.
    destruct (handleSubmit_valid fn em pw rl w Hvalid) as [rest Hrest].
    eexists _, rest. split; [| repeat split].
    rewrite Hrest. unfold authApi_register.
    rewrite (proj2 (axios_request_trace server _ w)). reflexivity.
  - intros Hnot. unfold handleSubmit.
    rewrite (trace_bind_Ok _ _ w w tt [EvPreventDefault]) by reflexivity.
    destruct (form_checks_fail fn em pw rl Hnot) as [Hc | Hc].
    + rewrite Hc. eexists. reflexivity.
    + destruct (negb _ || negb _ || negb _); [eexists; reflexivity |].
      rewrite Hc. eexists. reflexivity.
Qed.

(** C9. In the registration flow, once register and login have succeeded,
    the next effect is the GET to [/api/v1/auth/me] sent by [me()] without a
    token argument: nothing has been written to the store or to
    [localStorage] before it, and its [Authorization] header is the literal
    ["Bearer undefined"], whatever access token the login returned. *)
Theorem register_calls_me_without_token
    (fn em pw rl : string) (w : World) (r1 r2 : response) :
  passes_validation fn em pw ->
  server (register_form_request VITE_API_BASE_URL (form_of fn em pw rl)) = NetResponse r1 ->
  validateStatus (status r1) = true ->
  server (login_request VITE_API_BASE_URL (VStr em) (VStr pw)) = NetResponse r2 ->
  validateStatus (status r2) = true ->
  (exists rest : list event,
      trace_of (handleSubmit JSON_stringify VITE_API_BASE_URL server (form_of fn em pw rl) w)
      = [EvPreventDefault; EvSetLoading true;
         EvHttp (register_form_request VITE_API_BASE_URL (form_of fn em pw rl));
         EvHttp (login_request VITE_API_BASE_URL (VStr em) (VStr pw));
         EvHttp (me_noarg_request VITE_API_BASE_URL)] ++ rest)
  /\ method (me_noarg_request VITE_API_BASE_URL) = GET
  /\ url (me_noarg_request VITE_API_BASE_URL) = API_BASE VITE_API_BASE_URL +:+ "/api/v1/auth/me"
  /\ headers (me_noarg_request VITE_API_BASE_URL) !! "Authorization" = Some "Bearer undefined".
Proof.
  intros Hvalid Hreg Hok1 Hlogin Hok2.
  split; [| repeat split; apply lookup_singleton_eq].
  unfold handleSubmit.
  destruct (form_checks_pass fn em pw rl Hvalid) as [Hc1 Hc2].
  rewrite (trace_bind_Ok _ _ w w tt [EvPreventDefault]) by reflexivity.
  rewrite Hc1, Hc2.
  rewrite (trace_bind_Ok _ _ w w tt [EvSetLoading true]) by reflexivity.
  match goal with
  | |- context [trace_of (finally ?b ?f w)] =>
      destruct (trace_finally_prefix b f w) as [rest1 ->]
  end.
  match goal with
  | |- context [trace_of (try_catch ?b ?h w)] =>
      destruct (trace_try_catch_prefix b h w) as [rest2 ->]
  end.
  rewrite (trace_bind_Ok _ _ w w r1
             [EvHttp (register_form_request VITE_API_BASE_URL (form_of fn em pw rl))])
    by (apply axios_request_Ok; assumption).
  rewrite (trace_bind_Ok _ _ w w r2
             [EvHttp (login_request VITE_API_BASE_URL (VStr em) (VStr pw))])
    by (apply axios_request_Ok; assumption).
  match goal with
  | |- context [trace_of (bind ?m ?f w)] =>
      destruct (trace_bind_prefix m f w) as [rest3 ->]
  end.
  unfold authApi_me. rewrite (proj2 (axios_request_trace server _ w)).
  exists (rest3 ++ rest2 ++ rest1). cbn [app]. rewrite <- !app_assoc. reflexivity.
Qed.

End RegisterProperties.

(** * Closed instances

    The statements above at concrete inputs, with the reference codec for
    [JSON] and a backend that accepts every request. *)

(** C3, as stated, fails: [updateUser] on the empty session stores a user
    without a token. *)
Lemma pairing_broken_by_lone_updateUser :
  forallb valid_op [OpUpdateUser sample_user] = true /\
  forallb paired (observations JSON.stringify [OpUpdateUser sample_user] empty_world)
  = false.
Proof. split; vm_compute; reflexivity. Qed.

Lemma pairing_invariant_witness :
  let ops := [OpSetAuth (VStr "abc123") sample_user; OpUpdateUser sample_user; OpLogout] in
  forallb valid_op ops = true /\
  only_updates_when_logged_in JSON.stringify ops empty_world /\
  Forall (fun w => paired w = true) (observations JSON.stringify ops empty_world).
Proof.
  intros ops.
  assert (Hvalid : forallb valid_op ops = true) by reflexivity.
  assert (Hseq : only_updates_when_logged_in JSON.stringify ops empty_world)
    by (vm_compute; repeat split).
  split; [exact Hvalid |]. split; [exact Hseq |].
  exact (pairing_invariant JSON.stringify ops Hvalid Hseq).
Defined.

(** C4, as stated, fails in each of its three cases: a token entry stored
    alone is kept, a user entry stored alone is kept, and a user entry that
    is not JSON makes the module throw. *)
Lemma initialize_is_not_defensive :
  (localStorage token_only_world !! dd_user = None /\
   result_of (initialize JSON.parse token_only_world) = Ok tt /\
   store (world_of (initialize JSON.parse token_only_world))
   = mkSession (VStr "abc123") VNull /\
   RequireAuth (store (world_of (initialize JSON.parse token_only_world))) = Children)
  /\ (localStorage user_only_world !! dd_token = None /\
      store (world_of (initialize JSON.parse user_only_world))
      = mkSession VNull sample_user)
  /\ (JSON.parse "{oops" = None /\
      localStorage corrupt_world !! dd_user = Some "{oops" /\
      result_of (initialize JSON.parse corrupt_world) = Throw SyntaxError).
Proof. repeat split; vm_compute; reflexivity. Qed.

Lemma initialize_without_user_entry_witness :
  JSON.parse "null" = Some VNull /\
  localStorage token_only_world !! dd_user = None /\
  store (world_of (initialize JSON.parse empty_world)) = empty_session /\
  store (world_of (initialize JSON.parse token_only_world))
  = mkSession (VStr "abc123") VNull.
Proof.
  assert (Hnull : JSON.parse "null" = Some VNull) by (vm_compute; reflexivity).
  assert (Huser : localStorage token_only_world !! dd_user = None)
    by (vm_compute; reflexivity).
  assert (Htok : localStorage token_only_world !! dd_token = Some "abc123")
    by (vm_compute; reflexivity).
  assert (Hne : "abc123" <> "") by discriminate.
  split; [exact Hnull |]. split; [exact Huser |]. split.
  - apply (proj1 (initialize_without_user_entry JSON.parse empty_world Hnull)
             (or_introl eq_refl)).
    left. reflexivity.
  - exact (proj1 (proj2 (proj2 (proj2
             (proj1 (initialize_without_user_entry JSON.parse token_only_world Hnull)
                (or_introl Huser)))))
             "abc123" Htok Hne).
Defined.

(** On the reference codec the round trip holds for every flat user
    record. *)
Lemma flat_user_survives_reload (t : string) (fields : list (string * value)) (w : World) :
  t <> "" ->
  forallb (fun kv => scalar kv.2) fields = true ->
  let w1 := world_of (setAuth JSON.stringify (VStr t) (VObj fields) w) in
  result_of (initialize JSON.parse w1) = Ok tt /\
  store (world_of (initialize JSON.parse w1)) = mkSession (VStr t) (VObj fields).
Proof.
  intros Ht Hflat w1.
  destruct (flat_object_roundtrip fields Hflat) as (s & Hs & Hparse).
  assert (Hne : s <> "").
  { intros ->. rewrite json_parse_empty in Hparse. discriminate. }
  destruct (setAuth_entries JSON.stringify t (VObj fields) s w Hs) as [Htok Huser].
  fold w1 in Htok, Huser.
  exact (initialize_reads_entries JSON.parse w1 t s (VObj fields) Htok Ht Huser Hne Hparse).
Qed.

Lemma setAuth_initialize_roundtrip_witness :
  JSON.parse "" = None /\
  JSON_serializable JSON.parse JSON.stringify sample_user /\
  store (world_of (initialize JSON.parse
                     (mkWorld (localStorage logged_in_world) session_without_role)))
  = mkSession (VStr "abc123") sample_user.
Proof.
  assert (Hempty : JSON.parse "" = None) by (vm_compute; reflexivity).
  assert (Hser : JSON_serializable JSON.parse JSON.stringify sample_user).
  { eexists. split; vm_compute; reflexivity. }
  assert (Hne : "abc123" <> "") by discriminate.
  split; [exact Hempty |]. split; [exact Hser |].
  exact (proj1 (proj2 (proj2 (setAuth_initialize_roundtrip JSON.parse JSON.stringify
                                "abc123" sample_user empty_world session_without_role
                                Hempty Hne Hser)))).
Defined.

Lemma forced_logout_iff_401_witness :
  (let run := client_request rejecting_server profile_request logged_in_world in
   result_of run = Throw (AxiosError (mkAxiosError (Some rejected_response)))
   /\ trace_of run
      = [EvHttp (set_header "Authorization" "Bearer abc123" profile_request);
         EvRemoveItem dd_token; EvRemoveItem dd_user; EvLocation "/login"]
   /\ localStorage (world_of run) !! dd_token = None
   /\ localStorage (world_of run) !! dd_user = None)
  /\ (let run := client_request failing_server profile_request logged_in_world in
      result_of run = Throw server_error /\ world_of run = logged_in_world)
  /\ (let run := client_request offline_server profile_request logged_in_world in
      result_of run = Throw network_error /\ world_of run = logged_in_world).
Proof.
  split; [| split].
  - destruct (proj1 (forced_logout_iff_401 rejecting_server profile_request logged_in_world)
                rejected_response eq_refl eq_refl)
      as (Hres & Htrace & _ & Htok & Huser & _).
    intros run. split; [exact Hres |]. split; [exact Htrace |].
    split; [exact Htok | exact Huser].
  - destruct (proj1 (proj2 (forced_logout_iff_401 failing_server profile_request
                              logged_in_world))
                (mkResponse 500 VNull) eq_refl eq_refl ltac:(discriminate))
      as (Hres & _ & Hworld).
    intros run. split; [exact Hres | exact Hworld].
  - destruct (proj1 (proj2 (proj2 (forced_logout_iff_401 offline_server profile_request
                                     logged_in_world))) eq_refl)
      as (Hres & _ & Hworld).
    intros run. split; [exact Hres | exact Hworld].
Defined.

Example other_failures_keep_the_session :
  world_of (response_onRejected forbidden logged_in_world) = logged_in_world /\
  world_of (response_onRejected network_error logged_in_world) = logged_in_world /\
  trace_of (response_onRejected forbidden logged_in_world) = [] /\
  trace_of (response_onRejected network_error logged_in_world) = [].
Proof. repeat split. Qed.

Lemma client_attaches_bearer_witness :
  (localStorage logged_in_world !! dd_token = Some "abc123" /\
   exists (r : request) (rest : list event),
     trace_of (client_request accepting_server
                 (client_config VUndefined GET "/api/v1/patients/profile" NoBody
                    VUndefined VUndefined) logged_in_world)
     = EvHttp r :: rest
     /\ headers r !! "Authorization" = Some "Bearer abc123")
  /\ (localStorage empty_world !! dd_token = None /\
      exists (r : request) (rest : list event),
        trace_of (client_request accepting_server
                    (client_config VUndefined GET "/api/v1/patients/profile" NoBody
                       VUndefined VUndefined) empty_world)
        = EvHttp r :: rest
        /\ headers r !! "Authorization" = None).
Proof.
  assert (Htok : localStorage logged_in_world !! dd_token = Some "abc123")
    by (vm_compute; reflexivity).
  assert (Hne : "abc123" <> "") by discriminate.
  assert (Hnone : localStorage empty_world !! dd_token = None) by reflexivity.
  split; split; [exact Htok | | exact Hnone |].
  - destruct (proj1 (client_attaches_bearer VUndefined accepting_server GET
                       "/api/v1/patients/profile" NoBody VUndefined VUndefined
                       logged_in_world) "abc123" Htok Hne)
      as (r & rest & Htrace & _ & Hheader).
    exists r, rest. split; [exact Htrace | exact Hheader].
  - destruct (proj2 (client_attaches_bearer VUndefined accepting_server GET
                       "/api/v1/patients/profile" NoBody VUndefined VUndefined
                       empty_world) (or_introl Hnone))
      as (r & rest & Htrace & _ & Hheader).
    exists r, rest. split; [exact Htrace | exact Hheader].
Defined.

Example registration_flow_on_accepting_server :
  let run := handleSubmit JSON.stringify VUndefined accepting_server sample_form empty_world in
  result_of run = Ok tt /\
  token (store (world_of run)) = VStr "tok123" /\
  localStorage (world_of run) !! dd_token = Some "tok123" /\
  List.length (trace_of run) = 11 /\
  last (trace_of run) = Some (EvSetLoading false).
Proof. vm_compute. repeat split. Qed.

(** C10, as stated, fails: submitting the form in the state the component
    starts with (line 10: nothing typed, role ["patient"]) stops at the
    validation; no request is sent, so [authApi.register] is not called. *)
Lemma register_not_called_on_invalid_form :
  let run := handleSubmit JSON.stringify VUndefined accepting_server initial_form
               empty_world in
  trace_of run = [EvPreventDefault; EvToastError (VStr "All fields are required")]
  /\ forall r : request, ~ In (EvHttp r) (trace_of run).
Proof.
  split; [vm_compute; reflexivity |].
  intros r. vm_compute. intros [H | [H | []]]; discriminate H.
Qed.

Lemma sample_form_passes : passes_validation "Priya Sharma" "a@b.com" "s3cretpass".
Proof. repeat split; try discriminate. vm_compute. lia. Defined.

(** [length] counts UTF-16 code units: a password of six characters is
    refused although its UTF-8 encoding takes eight bytes. *)
Example short_non_ascii_password_is_refused :
  String.length "pässwö" = 8 /\ utf16_length "pässwö" = 6 /\
  ~ passes_validation "Priya Sharma" "a@b.com" "pässwö" /\
  trace_of (handleSubmit JSON.stringify VUndefined accepting_server short_password_form
              empty_world)
  = [EvPreventDefault; EvToastError (VStr "Password must be at least 8 characters")].
Proof.
  split; [reflexivity |]. split; [reflexivity |]. split; [| vm_compute; reflexivity].
  intros (_ & _ & _ & Hlen). vm_compute in Hlen. lia.
Qed.

(** Spreading a string copies its UTF-16 code units, one per index. *)
Example string_spread_by_code_units :
  spread_props (VStr "aä") = [("0", VStr "a"); ("1", VStr "ä")]
  /\ chars_of "😀"
     = [VStr (String (ascii_of_N 237) (String (ascii_of_N 160) (String (ascii_of_N 189) "")));
        VStr (String (ascii_of_N 237) (String (ascii_of_N 184) (String (ascii_of_N 128) "")))]
  /\ map (fun v => utf16_length (to_string v)) (chars_of "a😀ä") = [1; 1; 1; 1]
  /\ utf16_length "a😀ä" = 4.
Proof. repeat split; vm_compute; reflexivity. Qed.

Lemma register_sends_form_as_email_witness :
  exists (r : request) (rest : list event),
    trace_of (handleSubmit JSON.stringify VUndefined accepting_server typed_form empty_world)
    = [EvPreventDefault; EvSetLoading true; EvHttp r] ++ rest
    /\ data r = JsonBody (VObj [("email", typed_form); ("password", VUndefined);
                                ("full_name", VUndefined); ("role", VStr "patient")]).
Proof.
  destruct (proj1 (register_sends_form_as_email JSON.stringify VUndefined accepting_server
                     "Priya Sharma" "a@b.com" "s3cretpass" "patient" empty_world)
              sample_form_passes)
    as (r & rest & Htrace & _ & _ & _ & Hdata).
  exists r, rest. split; [exact Htrace | exact Hdata].
Defined.

Lemma register_calls_me_without_token_witness :
  exists rest : list event,
    trace_of (handleSubmit JSON.stringify VUndefined accepting_server typed_form empty_world)
    = [EvPreventDefault; EvSetLoading true;
       EvHttp (register_form_request VUndefined typed_form);
       EvHttp (login_request VUndefined (VStr "a@b.com") (VStr "s3cretpass"));
       EvHttp (me_noarg_request VUndefined)] ++ rest.
Proof.
  exact (proj1 (register_calls_me_without_token JSON.stringify VUndefined accepting_server
                  "Priya Sharma" "a@b.com" "s3cretpass" "patient" empty_world
                  _ _ sample_form_passes eq_refl eq_refl eq_refl eq_refl)).
Defined.

(** * Further properties *)

(** ** Session store: frame, last write, reload *)

Section StoreFurther.
Variable JSON_parse : string -> option value.
Variable JSON_stringify : value -> option string.

Lemma run_op_frame (o : op) (w : World) (k : string) :
  k <> dd_token -> k <> dd_user ->
  localStorage (world_of (run_op JSON_stringify o w)) !! k = localStorage w !! k.
Proof.
  intros Ht Hu. destruct o as [tok usr | | usr]; cbn [run_op].
  - rewrite setAuth_run. cbn [world_of fst snd localStorage].
    rewrite !lookup_insert_ne by (apply not_eq_sym; assumption). reflexivity.
  - rewrite logout_run. cbn [world_of fst snd localStorage].
    rewrite !lookup_delete_ne by (apply not_eq_sym; assumption). reflexivity.
  - rewrite updateUser_run. cbn [world_of fst snd localStorage].
    rewrite lookup_insert_ne by (apply not_eq_sym; assumption). reflexivity.
Qed.

Lemma run_ops_frame (ops : list op) :
  forall (w : World) (k : string),
    k <> dd_token -> k <> dd_user ->
    localStorage (run_ops JSON_stringify ops w) !! k = localStorage w !! k.
Proof.
  induction ops as [| o rest IH]; intros w k Ht Hu; cbn [run_ops]; [reflexivity |].
  rewrite IH by assumption. apply run_op_frame; assumption.
Qed.

(** X1. The store never touches a [localStorage] key other than its own
    two: whatever sequence of [setAuth], [logout] and [updateUser] calls is
    made, with whatever arguments, every other entry is as before. *)
Theorem store_keeps_other_entries (ops : list op) (w : World) (k : string) :
  k <> dd_token -> k <> dd_user ->
  localStorage (run_ops JSON_stringify ops w) !! k = localStorage w !! k.
Proof.
  intros Ht Hu. revert w.
  induction ops as [| o rest IH]; intros w; cbn [run_ops]; [reflexivity |].
  rewrite IH. apply run_op_frame; assumption.
Qed.

Lemma insert_both_keys (a b : string) (ls ls' : gmap string string) :
  (forall k : string, k <> dd_token -> k <> dd_user -> ls' !! k = ls !! k) ->
  <[dd_user := b]> (<[dd_token := a]> ls') = <[dd_user := b]> (<[dd_token := a]> ls).
Proof.
  intros Hframe. apply map_eq. intros k.
  destruct (decide (k = dd_user)) as [-> | Hu].
  - rewrite !lookup_insert_eq. reflexivity.
  - rewrite !(lookup_insert_ne _ dd_user k) by (apply not_eq_sym; exact Hu).
    destruct (decide (k = dd_token)) as [-> | Ht].
    + rewrite !lookup_insert_eq. reflexivity.
    + rewrite !(lookup_insert_ne _ dd_token k) by (apply not_eq_sym; exact Ht).
      apply Hframe; assumption.
Qed.

Lemma delete_both_keys (ls ls' : gmap string string) :
  (forall k : string, k <> dd_token -> k <> dd_user -> ls' !! k = ls !! k) ->
  delete dd_user (delete dd_token ls') = delete dd_user (delete dd_token ls).
Proof.
  intros Hframe. apply map_eq. intros k.
  destruct (decide (k = dd_user)) as [-> | Hu].
  - rewrite !lookup_delete_eq. reflexivity.
  - rewrite !(lookup_delete_ne _ dd_user k) by (apply not_eq_sym; exact Hu).
    destruct (decide (k = dd_token)) as [-> | Ht].
    + rewrite !lookup_delete_eq. reflexivity.
    + rewrite !(lookup_delete_ne _ dd_token k) by (apply not_eq_sym; exact Ht).
      apply Hframe; assumption.
Qed.

Lemma run_ops_app (a b : list op) (w : World) :
  run_ops JSON_stringify (a ++ b) w
  = run_ops JSON_stringify b (run_ops JSON_stringify a w).
Proof.
  revert w. induction a as [| o a IH]; intros w; cbn [app run_ops]; [reflexivity |].
  apply IH.
Qed.

(** X2. The last [setAuth] or [logout] decides the session.  After any
    sequence of store calls that ends in [setAuth(tok, usr)], the session in
    memory is [(tok, usr)] and both entries are present, [dd_token] holding
    [tok] as text and [dd_user] holding what [JSON.stringify(usr)] gave, as
    text; after one that ends in [logout], the session is [(null, null)] and
    both entries are absent.  In both cases the world is the one the last
    call leaves when it is the only call: nothing of the earlier calls
    shows. *)
Theorem last_write_decides_session (ops : list op) (w : World) (tok usr : value) :
  let w1 := run_ops JSON_stringify (ops ++ [OpSetAuth tok usr]) w in
  let w2 := run_ops JSON_stringify (ops ++ [OpLogout]) w in
  (store w1 = mkSession tok usr
   /\ localStorage w1 !! dd_token = Some (to_string tok)
   /\ localStorage w1 !! dd_user = Some (to_string (json_stringify JSON_stringify usr))
   /\ w1 = world_of (setAuth JSON_stringify tok usr w))
  /\ (store w2 = mkSession VNull VNull
      /\ localStorage w2 !! dd_token = None
      /\ localStorage w2 !! dd_user = None
      /\ w2 = world_of (logout w)).
Proof.
  intros w1 w2. subst w1 w2. rewrite !run_ops_app. cbn [run_ops run_op].
  rewrite !setAuth_run, !logout_run. cbn [world_of fst snd store localStorage].
  split; (split; [reflexivity |]).
  - split; [| split].
    + rewrite lookup_insert_ne by (apply not_eq_sym, dd_keys_distinct).
      apply lookup_insert_eq.
    + apply lookup_insert_eq.
    + f_equal. apply insert_both_keys. intros k Ht Hu. apply run_ops_frame; assumption.
  - split; [| split].
    + rewrite lookup_delete_ne by (apply not_eq_sym, dd_keys_distinct).
      apply lookup_delete_eq.
    + apply lookup_delete_eq.
    + f_equal. apply delete_both_keys. intros k Ht Hu. apply run_ops_frame; assumption.
Qed.

(** X3. [updateUser] is durable: when [localStorage] holds a token [t],
    [updateUser(u)] with a JSON-serializable [u] followed by a reload yields
    the session [(t, u)]. *)
Theorem updateUser_survives_reload (t : string) (u : value) (w : World) :
  JSON_parse "" = None ->
  localStorage w !! dd_token = Some t -> t <> "" ->
  JSON_serializable JSON_parse JSON_stringify u ->
  let w1 := world_of (updateUser JSON_stringify u w) in
  result_of (initialize JSON_parse w1) = Ok tt /\
  store (world_of (initialize JSON_parse w1)) = mkSession (VStr t) u.
Proof.
  intros Hempty Htok Ht (s & Hs & Hparse) w1.
  assert (Hne : s <> "") by (intros ->; congruence).
  apply (initialize_reads_entries JSON_parse w1 t s u); try assumption.
  - subst w1. rewrite updateUser_run. cbn [world_of fst snd localStorage].
    rewrite lookup_insert_ne by (apply not_eq_sym, dd_keys_distinct). exact Htok.
  - subst w1. rewrite updateUser_run. cbn [world_of fst snd localStorage].
    unfold json_stringify. rewrite Hs. apply lookup_insert_eq.
Qed.

(** X4. [setAuth] stores the token through ToString and a reload reads the
    text back: the store holds [tok] as given, but after a reload the token
    is the string [String(tok)].  So a token that is not a string (such as
    [undefined], which is falsy) comes back as a non-empty, truthy string. *)
Theorem reload_reads_token_as_text (tok u : value) (w : World) :
  JSON_parse "" = None ->
  to_string tok <> "" ->
  JSON_serializable JSON_parse JSON_stringify u ->
  let w1 := world_of (setAuth JSON_stringify tok u w) in
  store w1 = mkSession tok u /\
  store (world_of (initialize JSON_parse w1)) = mkSession (VStr (to_string tok)) u /\
  hasToken (store (world_of (initialize JSON_parse w1))) = true.
Proof.
  intros Hempty Htok (s & Hs & Hparse) w1.
  assert (Hne : s <> "") by (intros ->; congruence).
  split; [reflexivity |].
  assert (Hstore : store (world_of (initialize JSON_parse w1))
                   = mkSession (VStr (to_string tok)) u).
  { apply (initialize_reads_entries JSON_parse w1 (to_string tok) s u); try assumption.
    - subst w1. rewrite setAuth_run. cbn [world_of fst snd localStorage].
      rewrite lookup_insert_ne by (apply not_eq_sym, dd_keys_distinct).
      apply lookup_insert_eq.
    - subst w1. rewrite setAuth_run. cbn [world_of fst snd localStorage].
      unfold json_stringify. rewrite Hs. apply lookup_insert_eq. }
  split; [exact Hstore |].
  rewrite Hstore. unfold hasToken. cbn [token].
  apply truthy_VStr. exact Htok.
Qed.

(** X5. A user that [JSON.stringify] maps to [undefined] poisons the
    storage: [setAuth] succeeds and writes the text ["undefined"], which is
    not JSON, so the next load of the store throws a [SyntaxError]. *)
Theorem unserializable_user_breaks_reload (tok u : value) (w : World) :
  JSON_stringify u = None ->
  JSON_parse "undefined" = None ->
  let w1 := world_of (setAuth JSON_stringify tok u w) in
  result_of (setAuth JSON_stringify tok u w) = Ok tt /\
  localStorage w1 !! dd_user = Some "undefined" /\
  result_of (initialize JSON_parse w1) = Throw SyntaxError.
Proof.
  intros Hs Hparse w1. split; [reflexivity |].
  assert (Huser : localStorage w1 !! dd_user = Some "undefined").
  { subst w1. rewrite setAuth_run. cbn [world_of fst snd localStorage].
    unfold json_stringify. rewrite Hs. apply lookup_insert_eq. }
  split; [exact Huser |].
  rewrite initialize_run. unfold entry. rewrite Huser.
  cbn [js_or truthy to_string]. rewrite Hparse. reflexivity.
Qed.

End StoreFurther.

(** ** Request client: what the interceptors leave alone *)

Section ClientFurther.
Variable VITE_API_BASE_URL : value.
Variable server : request -> net_result.

(** X6. The request interceptor never throws, never changes the world and
    changes nothing of the request but its [Authorization] header: method,
    address, body, parameters, timeout and every other header go out as the
    caller set them.  A stored token replaces an [Authorization] header the
    caller had set; without a token the request is returned as it came. *)
Theorem interceptor_touches_authorization_only (config : request) (w : World) :
  exists config' : request,
    request_interceptor config w = (Ok config', w, [])
    /\ method config' = method config /\ baseURL config' = baseURL config
    /\ url config' = url config /\ data config' = data config
    /\ params config' = params config /\ responseType config' = responseType config
    /\ timeout config' = timeout config
    /\ (forall k : string, k <> "Authorization" ->
          headers config' !! k = headers config !! k)
    /\ (forall t : string, localStorage w !! dd_token = Some t -> t <> "" ->
          headers config' !! "Authorization" = Some ("Bearer " +:+ t))
    /\ (localStorage w !! dd_token = None \/ localStorage w !! dd_token = Some "" ->
        config' = config).
Proof.
  eexists. split; [apply request_interceptor_run |].
  unfold entry.
  destruct (localStorage w !! dd_token) as [[| c t'] |] eqn:Htok; cbn [truthy to_string].
  - repeat split; try reflexivity. intros t [= <-] Hne. congruence.
  - repeat split; try reflexivity.
    + intros k Hk. cbn [set_header with_headers headers].
      apply lookup_insert_ne. apply not_eq_sym. exact Hk.
    + intros t [= <-] _. cbn [set_header with_headers headers].
      apply lookup_insert_eq.
    + intros [H | H]; discriminate H.
  - repeat split; try reflexivity. intros t H. discriminate H.
Qed.

(** X7. Through the whole pipeline of [client], anything but a 401 leaves
    the world alone: the only effect is the one request, a 2xx response comes
    back as it is, and any other answer (another status, or no response) is
    rejected with the error unchanged. *)
Theorem client_touches_storage_only_on_401 (config : request) (w : World) :
  let config' :=
    if truthy (entry dd_token w)
    then set_header "Authorization" ("Bearer " +:+ to_string (entry dd_token w)) config
    else config in
  (forall r : response, server config' = NetResponse r -> status r <> 401%Z) ->
  world_of (client_request server config w) = w
  /\ trace_of (client_request server config w) = [EvHttp config']
  /\ result_of (client_request server config w)
     = match server config' with
       | NetResponse r =>
           if validateStatus (status r) then Ok r
           else Throw (AxiosError (mkAxiosError (Some r)))
       | NetFailure => Throw (AxiosError (mkAxiosError None))
       end.
Proof.
  intros config' Hnot. rewrite client_request_run. fold config'.
  destruct (server config') as [r |] eqn:Hs; [| repeat split].
  destruct (validateStatus (status r)); [repeat split |].
  assert (H401 : is_401 (AxiosError (mkAxiosError (Some r))) = false).
  { cbn [is_401 err_response]. apply Z.eqb_neq. apply Hnot. reflexivity. }
  unfold response_onRejected. rewrite H401. js_unfold.
  destruct w. repeat split.
Qed.

(** X8. Forced logout clears [localStorage] only: after a 401 the store
    still holds the session it held, so the guards keep rendering until the
    page is reloaded, while the next request through [client] already goes
    out without an [Authorization] header.  The 401 request itself rejects
    with its error, and its effects are the request, the two removals and,
    last, the assignment of [/login] to [window.location.href]. *)
Theorem forced_logout_leaves_store_stale
    (config next : request) (w : World) (r : response) :
  let config' :=
    if truthy (entry dd_token w)
    then set_header "Authorization" ("Bearer " +:+ to_string (entry dd_token w)) config
    else config in
  server config' = NetResponse r ->
  status r = 401%Z ->
  hasToken (store w) = true ->
  let w' := world_of (client_request server config w) in
  store w' = store w
  /\ RequireAuth (store w') = Children
  /\ localStorage w' !! dd_token = None
  /\ localStorage w' !! dd_user = None
  /\ (exists rest : list event,
        trace_of (client_request server next w') = EvHttp next :: rest)
  /\ result_of (client_request server config w)
     = Throw (AxiosError (mkAxiosError (Some r)))
  /\ trace_of (client_request server config w)
     = [EvHttp config'; EvRemoveItem dd_token; EvRemoveItem dd_user;
        EvLocation "/login"]
  /\ last (trace_of (client_request server config w)) = Some (EvLocation "/login").
Proof.
  intros config' Hserver Hstatus Htok w'.
  assert (Hrun : client_request server config w
                 = (Throw (AxiosError (mkAxiosError (Some r))),
                    mkWorld (delete dd_user (delete dd_token (localStorage w))) (store w),
                    [EvHttp config'; EvRemoveItem dd_token; EvRemoveItem dd_user;
                     EvLocation "/login"])).
  { exact (client_request_401 server config w r Hserver Hstatus). }
  assert (Hw' : w' = mkWorld (delete dd_user (delete dd_token (localStorage w))) (store w)).
  { subst w'. rewrite Hrun. reflexivity. }
  assert (Hnone : localStorage w' !! dd_token = None).
  { rewrite Hw'. cbn [localStorage].
    rewrite lookup_delete_ne by (apply not_eq_sym, dd_keys_distinct).
    apply lookup_delete_eq. }
  split; [rewrite Hw'; reflexivity |].
  split; [rewrite Hw'; cbn [store]; unfold RequireAuth; unfold hasToken in Htok;
          rewrite Htok; reflexivity |].
  split; [exact Hnone |].
  split; [rewrite Hw'; cbn [localStorage]; apply lookup_delete_eq |].
  split.
  { destruct (client_request_dispatches server next w') as [rest Hrest].
    unfold entry in Hrest. rewrite Hnone in Hrest. cbn [truthy] in Hrest.
    exists rest. exact Hrest. }
  rewrite Hrun. repeat split.
Qed.

(** X9. [login], [me] and [register] use plain [axios], not [client]:
    whatever the backend answers, a 401 included, they leave [localStorage]
    and the store as they are and their only effect is the one request - no
    forced logout and no redirect. *)
Theorem auth_calls_never_force_logout
    (email password tok fullName role : value) (w : World) :
  (world_of (authApi_login VITE_API_BASE_URL server email password w) = w /\
   trace_of (authApi_login VITE_API_BASE_URL server email password w)
   = [EvHttp (login_request VITE_API_BASE_URL email password)])
  /\ (world_of (authApi_me VITE_API_BASE_URL server tok w) = w /\
      trace_of (authApi_me VITE_API_BASE_URL server tok w)
      = [EvHttp (me_request VITE_API_BASE_URL tok)])
  /\ (world_of (authApi_register VITE_API_BASE_URL server email password fullName role w) = w /\
      trace_of (authApi_register VITE_API_BASE_URL server email password fullName role w)
      = [EvHttp (register_request VITE_API_BASE_URL email password fullName role)]).
Proof.
  unfold authApi_login, authApi_me, authApi_register.
  repeat split; apply axios_request_trace.
Qed.

End ClientFurther.

(** ** Route table *)

Ltac guard_cases s :=
  unfold RequirePatient, RequireInvestigator, PublicOnly, hasToken, role_of in *;
  destruct (truthy (token s)) eqn:?Htok;
  destruct (strict_eq_str (opt_member (user s) "role") "investigator") eqn:?Hrole;
  cbn [negb] in *.

(** X10. Whatever the router matches, a page is only shown to its
    audience: a patient page only with a token and a role other than
    investigator, inside the patient layout; an investigator page only with
    a token and the investigator role, inside the investigator layout; the
    login and register pages only without a token. *)
Theorem routes_enforce_audience
    (matchPath : string -> string -> bool) (pathname : string) (s : Session)
    (l : layout) (p : page) :
  App matchPath pathname s = Display l p ->
  match audience_of p with
  | ForEveryone => l = NoLayout
  | ForVisitors => hasToken s = false /\ l = NoLayout
  | ForPatients =>
      hasToken s = true /\ strict_eq_str (role_of s) "investigator" = false
      /\ l = AppLayout
  | ForInvestigators =>
      hasToken s = true /\ strict_eq_str (role_of s) "investigator" = true
      /\ l = InvestigatorLayout
  end.
Proof.
  unfold App. intros Hshow.
  destruct (find_route matchPath pathname) as [r |] eqn:Hfind; [| discriminate Hshow].
  apply find_some in Hfind as [Hin _].
  cbn [routes In] in Hin.
  repeat (destruct Hin as [<- | Hin];
          [cbn [route_wrapper route_layout route_page apply_wrapper] in Hshow;
           guard_cases s; try discriminate Hshow;
           injection Hshow as <- <-; cbn [audience_of]; repeat split |]).
  contradiction.
Qed.

Lemma find_route_own (matchPath : string -> string -> bool) (r : route) :
  matches_own_path_only matchPath -> In r routes ->
  find_route matchPath (route_path r)
  = List.find (fun r' => String.eqb (route_path r') (route_path r)) routes.
Proof.
  intros Hm Hr. unfold find_route.
  assert (Hext : forall l : list route,
             (forall r', In r' l -> In r' routes) ->
             List.find (fun r' => matchPath (route_path r') (route_path r)) l
             = List.find (fun r' => String.eqb (route_path r') (route_path r)) l).
  { induction l as [| x l IH]; intros Hsub; [reflexivity |].
    cbn [List.find]. rewrite (Hm x r (Hsub x (or_introl eq_refl)) Hr).
    rewrite IH by (intros r' Hin; apply Hsub; right; exact Hin). reflexivity. }
  apply Hext. auto.
Qed.

Lemma redirect_targets_resolve (matchPath : string -> string -> bool) :
  matches_own_path_only matchPath ->
  find_route matchPath "/" = Some (mkRoute "/" Unguarded NoLayout Landing)
  /\ find_route matchPath "/login" = Some (mkRoute "/login" WrapPublicOnly NoLayout Login)
  /\ find_route matchPath "/dashboard"
     = Some (mkRoute "/dashboard" WrapRequirePatient AppLayout Dashboard)
  /\ find_route matchPath "/investigator"
     = Some (mkRoute "/investigator" WrapRequireInvestigator InvestigatorLayout
               InvestigatorDashboard).
Proof.
  intros Hm. repeat split.
  - apply (find_route_own matchPath (mkRoute "/" Unguarded NoLayout Landing) Hm).
    cbn; auto.
  - apply (find_route_own matchPath (mkRoute "/login" WrapPublicOnly NoLayout Login) Hm).
    cbn; auto.
  - apply (find_route_own matchPath
             (mkRoute "/dashboard" WrapRequirePatient AppLayout Dashboard) Hm).
    cbn; auto 10.
  - apply (find_route_own matchPath
             (mkRoute "/investigator" WrapRequireInvestigator InvestigatorLayout
                InvestigatorDashboard) Hm).
    cbn; auto 20.
Qed.

(** X11. No redirect loop: at any location and for any session, when the
    application redirects (a guard refuses, or no route matches), the
    location it redirects to shows a page for that same session. *)
Theorem redirects_land_on_a_page
    (matchPath : string -> string -> bool) (pathname : string) (s : Session)
    (to : string) :
  matches_own_path_only matchPath ->
  App matchPath pathname s = GoTo to ->
  exists (l : layout) (p : page), App matchPath to s = Display l p.
Proof.
  intros Hm Hgo.
  destruct (redirect_targets_resolve matchPath Hm) as (Hhome & Hlogin & Hdash & Hinv).
  unfold App in Hgo.
  destruct (find_route matchPath pathname) as [r |] eqn:Hfind.
  - apply find_some in Hfind as [Hin _].
    cbn [routes In] in Hin.
    repeat (destruct Hin as [<- | Hin];
            [cbn [route_wrapper route_layout route_page apply_wrapper] in Hgo;
             guard_cases s; try discriminate Hgo;
             injection Hgo as <-; unfold App;
             rewrite ?Hlogin, ?Hdash, ?Hinv;
             cbn [route_wrapper route_layout route_page apply_wrapper];
             unfold RequirePatient, RequireInvestigator, PublicOnly;
             rewrite ?Htok, ?Hrole; cbn [negb];
             eexists _, _; reflexivity |]).
    contradiction.
  - injection Hgo as <-. unfold App. rewrite Hhome. eexists _, _. reflexivity.
Qed.

(** ** Running the page handlers *)

Lemma bind_Ok_run {A B : Type} (m : M A) (f : A -> M B) (w w1 : World)
    (a : A) (t1 : list event) :
  m w = (Ok a, w1, t1) ->
  bind m f w = (result_of (f a w1), world_of (f a w1), t1 ++ trace_of (f a w1)).
Proof.
  intros Hm. unfold bind. rewrite Hm. destruct (f a w1) as [[r w2] t2]. reflexivity.
Qed.

Lemma bind_Throw_run {A B : Type} (m : M A) (f : A -> M B) (w w1 : World)
    (e : exn) (t1 : list event) :
  m w = (Throw e, w1, t1) -> bind m f w = (Throw e, w1, t1).
Proof. intros Hm. unfold bind. rewrite Hm. reflexivity. Qed.

Lemma try_catch_Ok_run {A : Type} (body : M A) (handler : exn -> M A) (w w1 : World)
    (a : A) (t1 : list event) :
  body w = (Ok a, w1, t1) -> try_catch body handler w = (Ok a, w1, t1).
Proof. intros Hb. unfold try_catch. rewrite Hb. reflexivity. Qed.

Lemma try_catch_Throw_run {A : Type} (body : M A) (handler : exn -> M A) (w w1 : World)
    (e : exn) (t1 : list event) :
  body w = (Throw e, w1, t1) ->
  try_catch body handler w
  = (result_of (handler e w1), world_of (handler e w1), t1 ++ trace_of (handler e w1)).
Proof.
  intros Hb. unfold try_catch. rewrite Hb. destruct (handler e w1) as [[r w2] t2].
  reflexivity.
Qed.

Lemma finally_emit_run {A : Type} (body : M A) (e : event) (w : World) :
  finally body (emit e) w
  = (result_of (body w), world_of (body w), trace_of (body w) ++ [e]).
Proof. unfold finally, emit. destruct (body w) as [[r w1] t1]. reflexivity. Qed.

Lemma axios_request_Throw (server : request -> net_result) (r : request) (w : World) :
  (forall res, server r = NetResponse res -> validateStatus (status res) = false) ->
  exists a : axios_error,
    axios_request server r w = (Throw (AxiosError a), w, [EvHttp r])
    /\ (server r = NetFailure -> a = mkAxiosError None).
Proof.
  intros Hbad. unfold axios_request, bind, emit.
  destruct (server r) as [res |] eqn:Hs; cbn [settle].
  - rewrite (Hbad res eq_refl). eexists. split; [reflexivity | discriminate].
  - eexists. split; [reflexivity | reflexivity].
Qed.

Lemma member_run (v : value) (k : string) (w : World) :
  is_nullish v = false -> member v k w = (Ok (prop v k), w, []).
Proof. intros H. unfold member. rewrite H. reflexivity. Qed.

Lemma toast_detail_of_response (r : response) (fallback : string) :
  js_or (opt_member
           (opt_member (exn_response (AxiosError (mkAxiosError (Some r)))) "data")
           "detail") (VStr fallback)
  = js_or (opt_member (resp_data r) "detail") (VStr fallback).
Proof. reflexivity. Qed.

(** A handler of the shape [try { body } catch { toast } finally { reset }]
    always completes, and the reset is its last effect. *)
Lemma guarded_handler_completes (body : M unit) (g : exn -> event) (e : event) (w : World) :
  result_of (finally (try_catch body (fun err => emit (g err))) (emit e) w) = Ok tt
  /\ exists mid : list event,
       trace_of (finally (try_catch body (fun err => emit (g err))) (emit e) w)
       = mid ++ [e].
Proof.
  rewrite finally_emit_run. cbn [result_of trace_of fst snd].
  unfold try_catch. destruct (body w) as [[[[] | err] w1] t1].
  - split; [reflexivity | eexists; reflexivity].
  - split; [reflexivity | eexists; reflexivity].
Qed.

Section LoginProperties.
Variable JSON_stringify : value -> option string.
Variable VITE_API_BASE_URL : value.
Variable server : request -> net_result.

Lemma login_fields_present (em pw : string) :
  em <> "" -> pw <> "" ->
  negb (truthy (prop (login_form em pw) "email"))
  || negb (truthy (prop (login_form em pw) "password")) = false.
Proof.
  intros Hem Hpw.
  change (prop (login_form em pw) "email") with (VStr em).
  change (prop (login_form em pw) "password") with (VStr pw).
  apply truthy_VStr in Hem, Hpw. rewrite Hem, Hpw. reflexivity.
Qed.

Lemma Login_success_run (em pw name : string) (w : World) (r1 r2 : response) :
  let tok := prop (resp_data r1) "access_token" in
  let u := resp_data r2 in
  em <> "" -> pw <> "" ->
  server (login_request VITE_API_BASE_URL (VStr em) (VStr pw)) = NetResponse r1 ->
  validateStatus (status r1) = true ->
  is_nullish (resp_data r1) = false ->
  server (me_request VITE_API_BASE_URL tok) = NetResponse r2 ->
  validateStatus (status r2) = true ->
  is_nullish u = false ->
  prop u "full_name" = VStr name ->
  Login_handleSubmit JSON_stringify VITE_API_BASE_URL server (login_form em pw) w
  = (Ok tt,
     world_of (setAuth JSON_stringify tok u w),
     [EvPreventDefault; EvSetLoading true;
      EvHttp (login_request VITE_API_BASE_URL (VStr em) (VStr pw));
      EvHttp (me_request VITE_API_BASE_URL tok)]
     ++ trace_of (setAuth JSON_stringify tok u w)
     ++ [EvToastSuccess ("Welcome back, " +:+ first_segment name +:+ "!");
         EvNavigate (if strict_eq_str (prop u "role") "investigator"
                     then "/investigator" else "/dashboard");
         EvSetLoading false]).
Proof.
  intros tok u Hem Hpw Hlogin Hok1 Hdata1 Hme Hok2 Hdata2 Hname.
  unfold Login_handleSubmit.
  rewrite (bind_Ok_run _ _ w w tt [EvPreventDefault]) by reflexivity.
  rewrite (login_fields_present em pw Hem Hpw).
  rewrite (bind_Ok_run _ _ w w tt [EvSetLoading true]) by reflexivity.
  rewrite finally_emit_run.
  assert (Hbody :
    forall handler,
    try_catch
      (res <- authApi_login VITE_API_BASE_URL server
                (prop (login_form em pw) "email") (prop (login_form em pw) "password") ;;
       tok0 <- member (resp_data res) "access_token" ;;
       me <- authApi_me VITE_API_BASE_URL server tok0 ;;
       setAuth JSON_stringify tok0 (resp_data me) ;;;
       full_name <- member (resp_data me) "full_name" ;;
       first <- split_first full_name ;;
       emit (EvToastSuccess ("Welcome back, " +:+ to_string first +:+ "!")) ;;;
       role <- member (resp_data me) "role" ;;
       emit (EvNavigate (if strict_eq_str role "investigator"
                         then "/investigator" else "/dashboard"))) handler w
    = (Ok tt, world_of (setAuth JSON_stringify tok u w),
       [EvHttp (login_request VITE_API_BASE_URL (VStr em) (VStr pw));
        EvHttp (me_request VITE_API_BASE_URL tok)]
       ++ trace_of (setAuth JSON_stringify tok u w)
       ++ [EvToastSuccess ("Welcome back, " +:+ first_segment name +:+ "!");
           EvNavigate (if strict_eq_str (prop u "role") "investigator"
                       then "/investigator" else "/dashboard")])).
  { intros handler. apply try_catch_Ok_run.
    rewrite (bind_Ok_run _ _ w w r1
               [EvHttp (login_request VITE_API_BASE_URL (VStr em) (VStr pw))])
      by (apply axios_request_Ok; assumption).
    rewrite (bind_Ok_run _ _ w w tok []) by (apply member_run; exact Hdata1).
    rewrite (bind_Ok_run _ _ w w r2 [EvHttp (me_request VITE_API_BASE_URL tok)])
      by (apply axios_request_Ok; assumption).
    rewrite (bind_Ok_run _ _ w (world_of (setAuth JSON_stringify tok u w)) tt
               (trace_of (setAuth JSON_stringify tok u w))) by reflexivity.
    rewrite (bind_Ok_run _ _ _ _ (VStr name) [])
      by (fold u; rewrite <- Hname; apply member_run; exact Hdata2).
    rewrite (bind_Ok_run _ _ _ _ (VStr (first_segment name)) []) by reflexivity.
    rewrite (bind_Ok_run _ _ _ _ tt
               [EvToastSuccess ("Welcome back, " +:+ first_segment name +:+ "!")])
      by reflexivity.
    rewrite (bind_Ok_run _ _ _ _ (prop u "role") [])
      by (apply member_run; exact Hdata2).
    reflexivity. }
  rewrite Hbody. reflexivity.
Qed.

(** X12. The login page hands the token it just received to [me]: once
    login has succeeded, the next effect is the GET to [/api/v1/auth/me]
    whose [Authorization] header is [Bearer] followed by the response's
    [access_token], before anything is written to the store. *)
Theorem login_passes_token_to_me (em pw : string) (w : World) (r1 : response) :
  let tok := prop (resp_data r1) "access_token" in
  em <> "" -> pw <> "" ->
  server (login_request VITE_API_BASE_URL (VStr em) (VStr pw)) = NetResponse r1 ->
  validateStatus (status r1) = true ->
  is_nullish (resp_data r1) = false ->
  (exists rest : list event,
      trace_of (Login_handleSubmit JSON_stringify VITE_API_BASE_URL server
                  (login_form em pw) w)
      = [EvPreventDefault; EvSetLoading true;
         EvHttp (login_request VITE_API_BASE_URL (VStr em) (VStr pw));
         EvHttp (me_request VITE_API_BASE_URL tok)] ++ rest)
  /\ headers (me_request VITE_API_BASE_URL tok) !! "Authorization"
     = Some ("Bearer " +:+ to_string tok).
Proof.
  intros tok Hem Hpw Hlogin Hok1 Hdata1.
  split; [| apply lookup_singleton_eq].
  unfold Login_handleSubmit.
  rewrite (trace_bind_Ok _ _ w w tt [EvPreventDefault]) by reflexivity.
  rewrite (login_fields_present em pw Hem Hpw).
  rewrite (trace_bind_Ok _ _ w w tt [EvSetLoading true]) by reflexivity.
  match goal with
  | |- context [trace_of (finally ?b ?f w)] =>
      destruct (trace_finally_prefix b f w) as [rest1 ->]
  end.
  match goal with
  | |- context [trace_of (try_catch ?b ?h w)] =>
      destruct (trace_try_catch_prefix b h w) as [rest2 ->]
  end.
  rewrite (trace_bind_Ok _ _ w w r1
             [EvHttp (login_request VITE_API_BASE_URL (VStr em) (VStr pw))])
    by (apply axios_request_Ok; assumption).
  rewrite (trace_bind_Ok _ _ w w tok []) by (apply member_run; exact Hdata1).
  match goal with
  | |- context [trace_of (bind ?m ?f w)] =>
      destruct (trace_bind_prefix m f w) as [rest3 ->]
  end.
  unfold authApi_me. rewrite (proj2 (axios_request_trace server _ w)).
  exists (rest3 ++ rest2 ++ rest1). cbn [app]. rewrite <- !app_assoc. reflexivity.
Qed.

(** X13. A successful login (login and [me] both answered, the user has a
    name): the handler completes, the session is the returned token with
    the returned user, in the store and in [localStorage]; the toast greets
    by the first word of the name and the navigation goes to the
    investigator home for an investigator and to the patient home
    otherwise; the loading flag is reset last. *)
Theorem login_success_stores_session (em pw name : string) (w : World) (r1 r2 : response) :
  let tok := prop (resp_data r1) "access_token" in
  let u := resp_data r2 in
  let run := Login_handleSubmit JSON_stringify VITE_API_BASE_URL server
               (login_form em pw) w in
  em <> "" -> pw <> "" ->
  server (login_request VITE_API_BASE_URL (VStr em) (VStr pw)) = NetResponse r1 ->
  validateStatus (status r1) = true ->
  is_nullish (resp_data r1) = false ->
  server (me_request VITE_API_BASE_URL tok) = NetResponse r2 ->
  validateStatus (status r2) = true ->
  is_nullish u = false ->
  prop u "full_name" = VStr name ->
  result_of run = Ok tt
  /\ store (world_of run) = mkSession tok u
  /\ localStorage (world_of run) !! dd_token = Some (to_string tok)
  /\ trace_of run
     = [EvPreventDefault; EvSetLoading true;
        EvHttp (login_request VITE_API_BASE_URL (VStr em) (VStr pw));
        EvHttp (me_request VITE_API_BASE_URL tok);
        EvSetItem dd_token (to_string tok);
        EvSetItem dd_user (to_string (json_stringify JSON_stringify u));
        EvStoreSet (mkSession tok u);
        EvToastSuccess ("Welcome back, " +:+ first_segment name +:+ "!");
        EvNavigate (if strict_eq_str (prop u "role") "investigator"
                    then "/investigator" else "/dashboard");
        EvSetLoading false].
Proof.
  intros tok u run Hem Hpw Hlogin Hok1 Hdata1 Hme Hok2 Hdata2 Hname.
  subst run.
  rewrite (Login_success_run em pw name w r1 r2 Hem Hpw Hlogin Hok1 Hdata1 Hme Hok2
             Hdata2 Hname).
  fold tok u. rewrite setAuth_run.
  cbn [result_of world_of trace_of fst snd store localStorage app].
  repeat split.
  rewrite lookup_insert_ne by (apply not_eq_sym, dd_keys_distinct).
  apply lookup_insert_eq.
Qed.

Lemma Login_rejected_run (em pw : string) (w : World) (a : axios_error) :
  em <> "" -> pw <> "" ->
  axios_request server (login_request VITE_API_BASE_URL (VStr em) (VStr pw)) w
  = (Throw (AxiosError a), w,
     [EvHttp (login_request VITE_API_BASE_URL (VStr em) (VStr pw))]) ->
  Login_handleSubmit JSON_stringify VITE_API_BASE_URL server (login_form em pw) w
  = (Ok tt, w,
     [EvPreventDefault; EvSetLoading true;
      EvHttp (login_request VITE_API_BASE_URL (VStr em) (VStr pw));
      EvToastError
        (js_or (opt_member (opt_member (exn_response (AxiosError a)) "data") "detail")
               (VStr "Invalid credentials"));
      EvSetLoading false]).
Proof.
  intros Hem Hpw Hreq. unfold Login_handleSubmit.
  rewrite (bind_Ok_run _ _ w w tt [EvPreventDefault]) by reflexivity.
  rewrite (login_fields_present em pw Hem Hpw).
  rewrite (bind_Ok_run _ _ w w tt [EvSetLoading true]) by reflexivity.
  rewrite finally_emit_run.
  match goal with
  | |- context [try_catch ?b ?h w] =>
      rewrite (try_catch_Throw_run b h w w (AxiosError a)
                 [EvHttp (login_request VITE_API_BASE_URL (VStr em) (VStr pw))])
        by (apply bind_Throw_run; exact Hreq)
  end.
  reflexivity.
Qed.

(** X14. A rejected login touches nothing: whether the backend answers
    with a status outside 2xx or does not answer, no further request is
    sent, [localStorage] and the store stay as they were, the toast shows
    the response's [detail] when it has a truthy one and
    ["Invalid credentials"] otherwise, and the loading flag is reset. *)
Theorem login_rejection_keeps_session (em pw : string) (w : World) :
  let run := Login_handleSubmit JSON_stringify VITE_API_BASE_URL server
               (login_form em pw) w in
  let req := login_request VITE_API_BASE_URL (VStr em) (VStr pw) in
  em <> "" -> pw <> "" ->
  (forall r : response,
      server req = NetResponse r -> validateStatus (status r) = false ->
      run = (Ok tt, w,
             [EvPreventDefault; EvSetLoading true; EvHttp req;
              EvToastError (js_or (opt_member (resp_data r) "detail")
                                  (VStr "Invalid credentials"));
              EvSetLoading false]))
  /\ (server req = NetFailure ->
      run = (Ok tt, w,
             [EvPreventDefault; EvSetLoading true; EvHttp req;
              EvToastError (VStr "Invalid credentials");
              EvSetLoading false])).
Proof.
  intros run req Hem Hpw. subst run req. split.
  - intros r Hs Hbad.
    rewrite (Login_rejected_run em pw w (mkAxiosError (Some r)) Hem Hpw).
    + reflexivity.
    + unfold axios_request, bind, emit. rewrite Hs. cbn [settle]. rewrite Hbad.
      reflexivity.
  - intros Hs.
    rewrite (Login_rejected_run em pw w (mkAxiosError None) Hem Hpw).
    + reflexivity.
    + unfold axios_request, bind, emit. rewrite Hs. reflexivity.
Qed.

(** X15. A [/me] payload without a textual [full_name] logs the user in
    and then fails: the session is stored (store and [localStorage]), but
    building the greeting throws, so the page shows the error toast
    ["Invalid credentials"] and does not navigate. *)
Theorem login_without_name_stores_then_fails (em pw : string) (w : World) (r1 r2 : response) :
  let tok := prop (resp_data r1) "access_token" in
  let u := resp_data r2 in
  let run := Login_handleSubmit JSON_stringify VITE_API_BASE_URL server
               (login_form em pw) w in
  em <> "" -> pw <> "" ->
  server (login_request VITE_API_BASE_URL (VStr em) (VStr pw)) = NetResponse r1 ->
  validateStatus (status r1) = true ->
  is_nullish (resp_data r1) = false ->
  server (me_request VITE_API_BASE_URL tok) = NetResponse r2 ->
  validateStatus (status r2) = true ->
  is_nullish u = false ->
  (forall name : string, prop u "full_name" <> VStr name) ->
  result_of run = Ok tt
  /\ world_of run = world_of (setAuth JSON_stringify tok u w)
  /\ store (world_of run) = mkSession tok u
  /\ trace_of run
     = [EvPreventDefault; EvSetLoading true;
        EvHttp (login_request VITE_API_BASE_URL (VStr em) (VStr pw));
        EvHttp (me_request VITE_API_BASE_URL tok);
        EvSetItem dd_token (to_string tok);
        EvSetItem dd_user (to_string (json_stringify JSON_stringify u));
        EvStoreSet (mkSession tok u);
        EvToastError (VStr "Invalid credentials");
        EvSetLoading false].
Proof.
  intros tok u run Hem Hpw Hlogin Hok1 Hdata1 Hme Hok2 Hdata2 Hname.
  assert (Hsplit : forall w', split_first (prop u "full_name") w' = (Throw TypeError, w', [])).
  { intros w'. destruct (prop u "full_name") as [| | b | n | s | l | fs] eqn:Hp;
      try reflexivity. exfalso. apply (Hname s). reflexivity. }
  assert (Hrun : run = (Ok tt, world_of (setAuth JSON_stringify tok u w),
                        [EvPreventDefault; EvSetLoading true;
                         EvHttp (login_request VITE_API_BASE_URL (VStr em) (VStr pw));
                         EvHttp (me_request VITE_API_BASE_URL tok)]
                        ++ trace_of (setAuth JSON_stringify tok u w)
                        ++ [EvToastError (VStr "Invalid credentials");
                            EvSetLoading false])).
  { subst run. unfold Login_handleSubmit.
    rewrite (bind_Ok_run _ _ w w tt [EvPreventDefault]) by reflexivity.
    rewrite (login_fields_present em pw Hem Hpw).
    rewrite (bind_Ok_run _ _ w w tt [EvSetLoading true]) by reflexivity.
    rewrite finally_emit_run.
    match goal with
    | |- context [try_catch ?b ?h w] =>
        rewrite (try_catch_Throw_run b h w (world_of (setAuth JSON_stringify tok u w))
                   TypeError
                   ([EvHttp (login_request VITE_API_BASE_URL (VStr em) (VStr pw));
                     EvHttp (me_request VITE_API_BASE_URL tok)]
                    ++ trace_of (setAuth JSON_stringify tok u w)))
    end.
    - reflexivity.
    - rewrite (bind_Ok_run _ _ w w r1
                 [EvHttp (login_request VITE_API_BASE_URL (VStr em) (VStr pw))])
        by (apply axios_request_Ok; assumption).
      rewrite (bind_Ok_run _ _ w w tok []) by (apply member_run; exact Hdata1).
      rewrite (bind_Ok_run _ _ w w r2 [EvHttp (me_request VITE_API_BASE_URL tok)])
        by (apply axios_request_Ok; assumption).
      rewrite (bind_Ok_run _ _ w (world_of (setAuth JSON_stringify tok u w)) tt
                 (trace_of (setAuth JSON_stringify tok u w))) by reflexivity.
      rewrite (bind_Ok_run _ _ _ _ (prop u "full_name") [])
        by (apply member_run; exact Hdata2).
      rewrite (bind_Throw_run _ _ _ _ TypeError [] (Hsplit _)).
      reflexivity. }
  rewrite Hrun. rewrite setAuth_run.
  cbn [result_of world_of trace_of fst snd store app]. repeat split.
Qed.

(** X16. With an empty email or password the login page only shows the
    toast ["Fill in all fields"]: no request is sent, nothing is stored and
    the loading flag is not raised. *)
Theorem login_empty_fields_send_nothing (em pw : string) (w : World) :
  em = "" \/ pw = "" ->
  Login_handleSubmit JSON_stringify VITE_API_BASE_URL server (login_form em pw) w
  = (Ok tt, w, [EvPreventDefault; EvToastError (VStr "Fill in all fields")]).
Proof.
  intros Hempty. unfold Login_handleSubmit.
  rewrite (bind_Ok_run _ _ w w tt [EvPreventDefault]) by reflexivity.
  change (prop (login_form em pw) "email") with (VStr em).
  change (prop (login_form em pw) "password") with (VStr pw).
  destruct Hempty as [-> | ->].
  - reflexivity.
  - destruct (truthy (VStr em)); reflexivity.
Qed.

End LoginProperties.

(** ** Registration page: failures *)

Section RegisterFurther.
Variable JSON_stringify : value -> option string.
Variable VITE_API_BASE_URL : value.
Variable server : request -> net_result.

Lemma Register_rejected_run (fn em pw rl : string) (w : World) (a : axios_error) :
  passes_validation fn em pw ->
  axios_request server (register_form_request VITE_API_BASE_URL (form_of fn em pw rl)) w
  = (Throw (AxiosError a), w,
     [EvHttp (register_form_request VITE_API_BASE_URL (form_of fn em pw rl))]) ->
  handleSubmit JSON_stringify VITE_API_BASE_URL server (form_of fn em pw rl) w
  = (Ok tt, w,
     [EvPreventDefault; EvSetLoading true;
      EvHttp (register_form_request VITE_API_BASE_URL (form_of fn em pw rl));
      EvToastError
        (js_or (opt_member (opt_member (exn_response (AxiosError a)) "data") "detail")
               (VStr "Registration failed"));
      EvSetLoading false]).
Proof.
  intros Hvalid Hreq. unfold handleSubmit.
  destruct (form_checks_pass fn em pw rl Hvalid) as [Hc1 Hc2].
  rewrite (bind_Ok_run _ _ w w tt [EvPreventDefault]) by reflexivity.
  rewrite Hc1, Hc2.
  rewrite (bind_Ok_run _ _ w w tt [EvSetLoading true]) by reflexivity.
  rewrite finally_emit_run.
  match goal with
  | |- context [try_catch ?b ?h w] =>
      rewrite (try_catch_Throw_run b h w w (AxiosError a)
                 [EvHttp (register_form_request VITE_API_BASE_URL (form_of fn em pw rl))])
        by (apply bind_Throw_run; exact Hreq)
  end.
  reflexivity.
Qed.

(** X17. A rejected registration stops the flow: no login and no [me]
    request follow, [localStorage] and the store stay as they were, the
    toast shows the response's [detail] when it has a truthy one and
    ["Registration failed"] otherwise, and the loading flag is reset. *)
Theorem register_rejection_stops_flow (fn em pw rl : string) (w : World) :
  let run := handleSubmit JSON_stringify VITE_API_BASE_URL server (form_of fn em pw rl) w in
  let req := register_form_request VITE_API_BASE_URL (form_of fn em pw rl) in
  passes_validation fn em pw ->
  (forall r : response,
      server req = NetResponse r -> validateStatus (status r) = false ->
      run = (Ok tt, w,
             [EvPreventDefault; EvSetLoading true; EvHttp req;
              EvToastError (js_or (opt_member (resp_data r) "detail")
                                  (VStr "Registration failed"));
              EvSetLoading false]))
  /\ (server req = NetFailure ->
      run = (Ok tt, w,
             [EvPreventDefault; EvSetLoading true; EvHttp req;
              EvToastError (VStr "Registration failed");
              EvSetLoading false])).
Proof.
  intros run req Hvalid. subst run req. split.
  - intros r Hs Hbad.
    rewrite (Register_rejected_run fn em pw rl w (mkAxiosError (Some r)) Hvalid).
    + reflexivity.
    + unfold axios_request, bind, emit. rewrite Hs. cbn [settle]. rewrite Hbad.
      reflexivity.
  - intros Hs.
    rewrite (Register_rejected_run fn em pw rl w (mkAxiosError None) Hvalid).
    + reflexivity.
    + unfold axios_request, bind, emit. rewrite Hs. reflexivity.
Qed.

(** X18. When the backend rejects the token-less [me()] call, the
    registration page reports a failure although the account was created
    and the login succeeded: nothing is stored, there is no navigation, and
    the toast shows the rejection's [detail] or ["Registration failed"]. *)
Theorem register_reports_failure_when_me_is_rejected
    (fn em pw rl : string) (w : World) (r1 r2 r3 : response) :
  let run := handleSubmit JSON_stringify VITE_API_BASE_URL server (form_of fn em pw rl) w in
  passes_validation fn em pw ->
  server (register_form_request VITE_API_BASE_URL (form_of fn em pw rl)) = NetResponse r1 ->
  validateStatus (status r1) = true ->
  server (login_request VITE_API_BASE_URL (VStr em) (VStr pw)) = NetResponse r2 ->
  validateStatus (status r2) = true ->
  server (me_noarg_request VITE_API_BASE_URL) = NetResponse r3 ->
  validateStatus (status r3) = false ->
  run = (Ok tt, w,
         [EvPreventDefault; EvSetLoading true;
          EvHttp (register_form_request VITE_API_BASE_URL (form_of fn em pw rl));
          EvHttp (login_request VITE_API_BASE_URL (VStr em) (VStr pw));
          EvHttp (me_noarg_request VITE_API_BASE_URL);
          EvToastError (js_or (opt_member (resp_data r3) "detail")
                              (VStr "Registration failed"));
          EvSetLoading false]).
Proof.
  intros run Hvalid Hreg Hok1 Hlogin Hok2 Hme Hbad. subst run.
  unfold handleSubmit.
  destruct (form_checks_pass fn em pw rl Hvalid) as [Hc1 Hc2].
  rewrite (bind_Ok_run _ _ w w tt [EvPreventDefault]) by reflexivity.
  rewrite Hc1, Hc2.
  rewrite (bind_Ok_run _ _ w w tt [EvSetLoading true]) by reflexivity.
  rewrite finally_emit_run.
  match goal with
  | |- context [try_catch ?b ?h w] =>
      rewrite (try_catch_Throw_run b h w w (AxiosError (mkAxiosError (Some r3)))
                 [EvHttp (register_form_request VITE_API_BASE_URL (form_of fn em pw rl));
                  EvHttp (login_request VITE_API_BASE_URL (VStr em) (VStr pw));
                  EvHttp (me_noarg_request VITE_API_BASE_URL)])
  end.
  - reflexivity.
  - rewrite (bind_Ok_run _ _ w w r1
               [EvHttp (register_form_request VITE_API_BASE_URL (form_of fn em pw rl))])
      by (apply axios_request_Ok; assumption).
    rewrite (bind_Ok_run _ _ w w r2
               [EvHttp (login_request VITE_API_BASE_URL (VStr em) (VStr pw))])
      by (apply axios_request_Ok; assumption).
    rewrite (bind_Throw_run _ _ w w (AxiosError (mkAxiosError (Some r3)))
               [EvHttp (me_noarg_request VITE_API_BASE_URL)]).
    + reflexivity.
    + unfold authApi_me, axios_request, bind, emit.
      change (me_request VITE_API_BASE_URL VUndefined)
        with (me_noarg_request VITE_API_BASE_URL).
      rewrite Hme. cbn [settle]. rewrite Hbad. reflexivity.
Qed.

(** X19. Neither submit handler ever rejects, and both keep the loading
    flag in order: for any form object and any backend, the handler
    completes, and it either stopped at its validation with one toast or
    raised the flag first and lowered it as its last effect. *)
Theorem submit_handlers_complete (fields : list (string * value)) (w : World) :
  (result_of (Login_handleSubmit JSON_stringify VITE_API_BASE_URL server (VObj fields) w)
   = Ok tt
   /\ loading_discipline
        (trace_of (Login_handleSubmit JSON_stringify VITE_API_BASE_URL server
                     (VObj fields) w)))
  /\ (result_of (handleSubmit JSON_stringify VITE_API_BASE_URL server (VObj fields) w)
      = Ok tt
      /\ loading_discipline
           (trace_of (handleSubmit JSON_stringify VITE_API_BASE_URL server
                        (VObj fields) w))).
Proof.
  split.
  - unfold Login_handleSubmit.
    rewrite (bind_Ok_run _ _ w w tt [EvPreventDefault]) by reflexivity.
    destruct (negb _ || negb _).
    + split; [reflexivity | left; eexists; reflexivity].
    + rewrite (bind_Ok_run _ _ w w tt [EvSetLoading true]) by reflexivity.
      match goal with
      | |- context [finally (try_catch ?b (fun err => emit (@?g err))) (emit ?e) w] =>
          destruct (guarded_handler_completes b g e w) as [Hres [mid Hmid]]
      end.
      cbn [result_of trace_of fst snd] in *. split; [exact Hres |].
      right. exists mid. rewrite Hmid. reflexivity.
  - unfold handleSubmit.
    rewrite (bind_Ok_run _ _ w w tt [EvPreventDefault]) by reflexivity.
    destruct (negb _ || negb _ || negb _).
    + split; [reflexivity | left; eexists; reflexivity].
    + destruct (lt_num _ 8).
      * split; [reflexivity | left; eexists; reflexivity].
      * rewrite (bind_Ok_run _ _ w w tt [EvSetLoading true]) by reflexivity.
        match goal with
        | |- context [finally (try_catch ?b (fun err => emit (@?g err))) (emit ?e) w] =>
            destruct (guarded_handler_completes b g e w) as [Hres [mid Hmid]]
        end.
        cbn [result_of trace_of fst snd] in *. split; [exact Hres |].
        right. exists mid. rewrite Hmid. reflexivity.
Qed.

End RegisterFurther.

(** ** Pages and routes together *)

Section Navigation.
Variable JSON_stringify : value -> option string.
Variable VITE_API_BASE_URL : value.
Variable server : request -> net_result.
Variable matchPath : string -> string -> bool.

(** X20. The location the login page navigates to after a success shows a
    page for the session it has just stored: the investigator home for an
    investigator, the patient dashboard otherwise - as long as the token is
    truthy.  When the login response carries no usable [access_token], the
    page still greets and navigates, and the guard sends the user back to
    the login route. *)
Theorem login_navigation_lands (em pw name : string) (w : World) (r1 r2 : response) :
  let tok := prop (resp_data r1) "access_token" in
  let u := resp_data r2 in
  let run := Login_handleSubmit JSON_stringify VITE_API_BASE_URL server
               (login_form em pw) w in
  let to := if strict_eq_str (prop u "role") "investigator"
            then "/investigator" else "/dashboard" in
  matches_own_path_only matchPath ->
  em <> "" -> pw <> "" ->
  server (login_request VITE_API_BASE_URL (VStr em) (VStr pw)) = NetResponse r1 ->
  validateStatus (status r1) = true ->
  is_nullish (resp_data r1) = false ->
  server (me_request VITE_API_BASE_URL tok) = NetResponse r2 ->
  validateStatus (status r2) = true ->
  is_nullish u = false ->
  prop u "full_name" = VStr name ->
  In (EvNavigate to) (trace_of run)
  /\ (truthy tok = true ->
      App matchPath to (store (world_of run))
      = if strict_eq_str (prop u "role") "investigator"
        then Display InvestigatorLayout InvestigatorDashboard
        else Display AppLayout Dashboard)
  /\ (truthy tok = false ->
      App matchPath to (store (world_of run)) = GoTo "/login").
Proof.
  intros tok u run to Hm Hem Hpw Hlogin Hok1 Hdata1 Hme Hok2 Hdata2 Hname.
  destruct (redirect_targets_resolve matchPath Hm) as (_ & _ & Hdash & Hinv).
  subst run.
  rewrite (Login_success_run JSON_stringify VITE_API_BASE_URL server em pw name w r1 r2
             Hem Hpw Hlogin Hok1 Hdata1 Hme Hok2 Hdata2 Hname).
  fold tok u. rewrite setAuth_run.
  cbn [result_of world_of trace_of fst snd store app].
  assert (Hrole : opt_member u "role" = prop u "role")
    by (unfold opt_member; rewrite Hdata2; reflexivity).
  split; [cbn [In]; fold to; auto 12 |].
  subst to. unfold App.
  destruct (strict_eq_str (prop u "role") "investigator") eqn:Hr.
  - rewrite Hinv. cbn [route_wrapper route_layout route_page apply_wrapper].
    unfold RequireInvestigator. cbn [token user]. rewrite Hrole, Hr.
    split; intros ->; reflexivity.
  - rewrite Hdash. cbn [route_wrapper route_layout route_page apply_wrapper].
    unfold RequirePatient. cbn [token user]. rewrite Hrole, Hr.
    split; intros ->; reflexivity.
Qed.

(** X21. Signing out from the patient layout lands on the login page:
    from any world, the button clears both entries and the store and then
    navigates to [/login], where the login form is shown (no bounce back to
    a dashboard). *)
Theorem sign_out_lands_on_login (w : World) :
  matches_own_path_only matchPath ->
  let run := signOut w in
  result_of run = Ok tt
  /\ trace_of run
     = [EvRemoveItem dd_token; EvRemoveItem dd_user; EvStoreSet empty_session;
        EvNavigate "/login"]
  /\ logged_out (world_of run)
  /\ App matchPath "/login" (store (world_of run)) = Display NoLayout Login.
Proof.
  intros Hm run.
  destruct (redirect_targets_resolve matchPath Hm) as (_ & Hlogin & _ & _).
  subst run. unfold signOut.
  rewrite (bind_Ok_run _ _ w _ tt _ (logout_run w)).
  cbn [emit result_of world_of trace_of fst snd app store localStorage].
  split; [reflexivity |]. split; [reflexivity |]. split.
  - repeat split; cbn [localStorage store].
    + rewrite lookup_delete_ne by (apply not_eq_sym, dd_keys_distinct).
      apply lookup_delete_eq.
    + apply lookup_delete_eq.
  - unfold App. rewrite Hlogin. reflexivity.
Qed.

End Navigation.

(** ** Registration form state *)

Lemma apply_edit_form (fn em pw rl : string) (e : form_edit) :
  rl = "patient" \/ rl = "investigator" ->
  exists fn' em' pw' rl' : string,
    apply_edit (form_of fn em pw rl) e = form_of fn' em' pw' rl'
    /\ (rl' = "patient" \/ rl' = "investigator").
Proof.
  intros Hrl. destruct e as [s | s | s | []].
  - exists s, em, pw, rl. split; [reflexivity | exact Hrl].
  - exists fn, s, pw, rl. split; [reflexivity | exact Hrl].
  - exists fn, em, s, rl. split; [reflexivity | exact Hrl].
  - exists fn, em, pw, "investigator". split; [reflexivity | right; reflexivity].
  - exists fn, em, pw, "patient". split; [reflexivity | left; reflexivity].
Qed.

(** X22. The registration form keeps its shape: whatever is typed and
    clicked, in any order, the form state is an object with exactly the
    fields [full_name], [email], [password], [role] in this order, each a
    string, and [role] is ["patient"] or ["investigator"]. *)
Theorem register_form_keeps_shape (edits : list form_edit) :
  exists fn em pw rl : string,
    fold_left apply_edit edits initial_form = form_of fn em pw rl
    /\ (rl = "patient" \/ rl = "investigator").
Proof.
  assert (Hgen : forall (l : list form_edit) (fn em pw rl : string),
             rl = "patient" \/ rl = "investigator" ->
             exists fn' em' pw' rl' : string,
               fold_left apply_edit l (form_of fn em pw rl) = form_of fn' em' pw' rl'
               /\ (rl' = "patient" \/ rl' = "investigator")).
  { induction l as [| e l IH]; intros fn em pw rl Hrl.
    - exists fn, em, pw, rl. split; [reflexivity | exact Hrl].
    - cbn [fold_left].
      destruct (apply_edit_form fn em pw rl e Hrl) as (fn' & em' & pw' & rl' & -> & Hrl').
      apply IH. exact Hrl'. }
  apply Hgen. left. reflexivity.
Qed.

(** ** API adapters *)

Lemma assoc_obj_set_eq (k : string) (v : value) (fields : list (string * value)) :
  assoc k (obj_set k v fields) = v.
Proof.
  induction fields as [| [k' v'] rest IH]; cbn [obj_set assoc].
  - rewrite String.eqb_refl. reflexivity.
  - destruct (String.eqb k k') eqn:Hk; cbn [assoc].
    + rewrite String.eqb_refl. reflexivity.
    + rewrite Hk. exact IH.
Qed.

Lemma assoc_obj_set_ne (k k' : string) (v : value) (fields : list (string * value)) :
  k <> k' -> assoc k' (obj_set k v fields) = assoc k' fields.
Proof.
  intros Hne. induction fields as [| [k0 v0] rest IH]; cbn [obj_set assoc].
  - destruct (String.eqb k' k) eqn:Hk; [| reflexivity].
    apply String.eqb_eq in Hk. congruence.
  - destruct (String.eqb k k0) eqn:Hk; cbn [assoc].
    + apply String.eqb_eq in Hk. subst k0.
      destruct (String.eqb k' k) eqn:Hk'; [| reflexivity].
      apply String.eqb_eq in Hk'. congruence.
    + destruct (String.eqb k' k0); [reflexivity | exact IH].
Qed.

Lemma assoc_spread_absent (k : string) (extra base : list (string * value)) :
  (forall v : value, ~ In (k, v) extra) ->
  assoc k (fold_left (fun acc kv => obj_set kv.1 kv.2 acc) extra base) = assoc k base.
Proof.
  revert base. induction extra as [| [k0 v0] rest IH]; intros base Habs; [reflexivity |].
  cbn [fold_left fst snd]. rewrite IH.
  - apply assoc_obj_set_ne. intros ->. apply (Habs v0). left. reflexivity.
  - intros v Hin. apply (Habs v). right. exact Hin.
Qed.

Lemma assoc_spread_present (k : string) (v : value) (extra base : list (string * value)) :
  List.NoDup (map fst extra) -> In (k, v) extra ->
  assoc k (fold_left (fun acc kv => obj_set kv.1 kv.2 acc) extra base) = v.
Proof.
  revert base. induction extra as [| [k0 v0] rest IH]; intros base Hnd Hin; [contradiction |].
  cbn [map fst] in Hnd. apply NoDup_cons_iff in Hnd as [Hfresh Hnd].
  cbn [fold_left fst snd]. destruct Hin as [[= -> ->] | Hin].
  - rewrite assoc_spread_absent; [apply assoc_obj_set_eq |].
    intros v' Hin'. apply Hfresh. apply (in_map fst) in Hin'. exact Hin'.
  - apply IH; assumption.
Qed.

Section AdapterProperties.
Variable VITE_API_BASE_URL : value.
Variable server : request -> net_result.

(** X23. [searchFoods(q, params)] sends [q] and [limit = 15] unless the
    caller's [params] say otherwise: without [params] the query is exactly
    [{ q, limit: 15 }]; with [params], every key of [params] wins - a
    [limit] replaces the 15 and a [q] replaces the first argument - and the
    keys [params] lacks keep their defaults. *)
Theorem searchFoods_params (q : value) :
  params (api_config VITE_API_BASE_URL (SearchFoods q VUndefined))
  = VObj [("q", q); ("limit", VNum 15)]
  /\ forall fields : list (string * value),
       List.NoDup (map fst fields) ->
       let sent := params (api_config VITE_API_BASE_URL (SearchFoods q (VObj fields))) in
       (forall (k : string) (v : value), In (k, v) fields -> prop sent k = v)
       /\ (forall k : string, (forall v : value, ~ In (k, v) fields) ->
             prop sent k = assoc k [("q", q); ("limit", VNum 15)]).
Proof.
  split; [reflexivity |].
  intros fields Hnd sent. subst sent.
  cbn [api_config get_config client_config params default_params prop obj_spread
         spread_props].
  split.
  - intros k v Hin. apply assoc_spread_present; assumption.
  - intros k Habs. apply assoc_spread_absent. exact Habs.
Qed.

(** X24. Every adapter function of [patientApi], [researchApi],
    [dietaryApi], [dietPlanApi] and the two [client] calls of [authApi]
    sends its request through [client]: to a path under [/api/v1/] on the
    client's base address, with the 30-second timeout and no header of its
    own; it goes out with [Authorization: Bearer t] when a token [t] is
    stored and without that header otherwise. *)
Theorem api_calls_go_through_client (c : api_call) (w : World) :
  let config := api_config VITE_API_BASE_URL c in
  baseURL config = client_baseURL VITE_API_BASE_URL
  /\ timeout config = 30000%Z
  /\ starts_with "/api/v1/" (url config) = true
  /\ headers config = ∅
  /\ (forall t : string,
        localStorage w !! dd_token = Some t -> t <> "" ->
        exists rest : list event,
          trace_of (run_api VITE_API_BASE_URL server c w)
          = EvHttp (set_header "Authorization" ("Bearer " +:+ t) config) :: rest)
  /\ (localStorage w !! dd_token = None ->
      exists rest : list event,
        trace_of (run_api VITE_API_BASE_URL server c w) = EvHttp config :: rest).
Proof.
  intros config.
  split; [destruct c; reflexivity |].
  split; [destruct c; reflexivity |].
  split; [destruct c; reflexivity |].
  split; [destruct c; reflexivity |].
  unfold run_api. fold config.
  destruct (client_request_dispatches server config w) as [rest Hrest].
  unfold entry in Hrest. split.
  - intros t Ht Hne. rewrite Ht in Hrest.
    destruct t as [| a t']; [congruence |]. cbn [truthy to_string] in Hrest.
    exists rest. exact Hrest.
  - intros Ht. rewrite Ht in Hrest. cbn [truthy] in Hrest.
    exists rest. exact Hrest.
Qed.

End AdapterProperties.

(** * Closed instances of the further properties *)

Lemma eqb_matches_own_path_only : matches_own_path_only String.eqb.
Proof. intros r r' _ _. reflexivity. Defined.

Lemma store_keeps_other_entries_witness :
  localStorage
    (run_ops JSON.stringify
       [OpSetAuth (VStr "abc123") sample_user; OpUpdateUser investigator_user; OpLogout]
       world_with_theme) !! "theme"
  = Some "dark".
Proof.
  rewrite (store_keeps_other_entries JSON.stringify
             [OpSetAuth (VStr "abc123") sample_user; OpUpdateUser investigator_user; OpLogout]
             world_with_theme "theme" ltac:(discriminate) ltac:(discriminate)).
  reflexivity.
Defined.

Lemma updateUser_survives_reload_witness :
  store (world_of (initialize JSON.parse
                     (world_of (updateUser JSON.stringify investigator_user logged_in_world))))
  = mkSession (VStr "abc123") investigator_user.
Proof.
  assert (Hempty : JSON.parse "" = None) by (vm_compute; reflexivity).
  assert (Htok : localStorage logged_in_world !! dd_token = Some "abc123")
    by (vm_compute; reflexivity).
  assert (Hser : JSON_serializable JSON.parse JSON.stringify investigator_user).
  { eexists. split; vm_compute; reflexivity. }
  exact (proj2 (updateUser_survives_reload JSON.parse JSON.stringify "abc123"
                  investigator_user logged_in_world Hempty Htok ltac:(discriminate) Hser)).
Defined.

Lemma reload_reads_token_as_text_witness :
  let w1 := world_of (setAuth JSON.stringify VUndefined sample_user empty_world) in
  hasToken (store w1) = false /\
  store (world_of (initialize JSON.parse w1)) = mkSession (VStr "undefined") sample_user /\
  hasToken (store (world_of (initialize JSON.parse w1))) = true.
Proof.
  intros w1.
  assert (Hempty : JSON.parse "" = None) by (vm_compute; reflexivity).
  assert (Hser : JSON_serializable JSON.parse JSON.stringify sample_user).
  { eexists. split; vm_compute; reflexivity. }
  split; [reflexivity |].
  exact (proj2 (reload_reads_token_as_text JSON.parse JSON.stringify VUndefined
                  sample_user empty_world Hempty ltac:(discriminate) Hser)).
Defined.

Lemma unserializable_user_breaks_reload_witness :
  result_of (initialize JSON.parse
               (world_of (setAuth JSON.stringify (VStr "abc123") VUndefined empty_world)))
  = Throw SyntaxError.
Proof.
  assert (Hs : JSON.stringify VUndefined = None) by reflexivity.
  assert (Hp : JSON.parse "undefined" = None) by (vm_compute; reflexivity).
  exact (proj2 (proj2 (unserializable_user_breaks_reload JSON.parse JSON.stringify
                         (VStr "abc123") VUndefined empty_world Hs Hp))).
Defined.

Lemma interceptor_touches_authorization_only_witness :
  exists config' : request,
    request_interceptor (set_header "Authorization" "Basic xyz" profile_request)
      logged_in_world
    = (Ok config', logged_in_world, [])
    /\ headers config' !! "Authorization" = Some "Bearer abc123".
Proof.
  assert (Htok : localStorage logged_in_world !! dd_token = Some "abc123")
    by (vm_compute; reflexivity).
  destruct (interceptor_touches_authorization_only
              (set_header "Authorization" "Basic xyz" profile_request) logged_in_world)
    as (config' & Hrun & _ & _ & _ & _ & _ & _ & _ & _ & Hauth & _).
  exists config'. split; [exact Hrun |].
  exact (Hauth "abc123" Htok ltac:(discriminate)).
Defined.

Lemma client_touches_storage_only_on_401_witness :
  world_of (client_request accepting_server profile_request logged_in_world)
  = logged_in_world.
Proof.
  apply (client_touches_storage_only_on_401 accepting_server profile_request
           logged_in_world).
  intros r [= <-]. discriminate.
Defined.

Lemma forced_logout_leaves_store_stale_witness :
  let w' := world_of (client_request rejecting_server profile_request logged_in_world) in
  RequireAuth (store w') = Children /\ localStorage w' !! dd_token = None
  /\ last (trace_of (client_request rejecting_server profile_request logged_in_world))
     = Some (EvLocation "/login").
Proof.
  intros w'.
  destruct (forced_logout_leaves_store_stale rejecting_server profile_request
              profile_request logged_in_world rejected_response
              eq_refl eq_refl eq_refl)
    as (_ & Hguard & Hnone & _ & _ & _ & _ & Hlast).
  split; [exact Hguard |]. split; [exact Hnone | exact Hlast].
Defined.

Lemma routes_enforce_audience_witness :
  hasToken patient_session = true /\
  strict_eq_str (role_of patient_session) "investigator" = false.
Proof.
  destruct (routes_enforce_audience String.eqb "/goals" patient_session
              AppLayout Goals eq_refl) as (Htok & Hrole & _).
  split; [exact Htok | exact Hrole].
Defined.

Lemma redirects_land_on_a_page_witness :
  exists (l : layout) (p : page),
    App String.eqb "/dashboard" patient_session = Display l p.
Proof.
  exact (redirects_land_on_a_page String.eqb "/investigator" patient_session "/dashboard"
           eqb_matches_own_path_only eq_refl).
Defined.

Lemma login_passes_token_to_me_witness :
  headers (me_request VUndefined (VStr "tok123")) !! "Authorization"
  = Some "Bearer tok123".
Proof.
  exact (proj2 (login_passes_token_to_me JSON.stringify VUndefined accepting_server
                  "a@b.com" "s3cretpass" empty_world accepted_response
                  ltac:(discriminate) ltac:(discriminate) eq_refl eq_refl eq_refl)).
Defined.

Lemma login_success_stores_session_witness :
  let run := Login_handleSubmit JSON.stringify VUndefined accepting_server
               sample_login_form empty_world in
  result_of run = Ok tt
  /\ store (world_of run) = mkSession (VStr "tok123") (resp_data accepted_response)
  /\ localStorage (world_of run) !! dd_token = Some "tok123".
Proof.
  intros run.
  destruct (login_success_stores_session JSON.stringify VUndefined accepting_server
              "a@b.com" "s3cretpass" "Priya Sharma" empty_world
              accepted_response accepted_response
              ltac:(discriminate) ltac:(discriminate)
              eq_refl eq_refl eq_refl eq_refl eq_refl eq_refl eq_refl)
    as (Hres & Hstore & Htok & _).
  split; [exact Hres | split; [exact Hstore | exact Htok]].
Defined.

Lemma login_rejection_keeps_session_witness :
  Login_handleSubmit JSON.stringify VUndefined rejecting_server
    sample_login_form logged_in_world
  = (Ok tt, logged_in_world,
     [EvPreventDefault; EvSetLoading true;
      EvHttp (login_request VUndefined (VStr "a@b.com") (VStr "s3cretpass"));
      EvToastError (VStr "Could not validate credentials");
      EvSetLoading false]).
Proof.
  exact (proj1 (login_rejection_keeps_session JSON.stringify VUndefined rejecting_server
                  "a@b.com" "s3cretpass" logged_in_world
                  ltac:(discriminate) ltac:(discriminate))
           rejected_response eq_refl eq_refl).
Defined.

Lemma login_without_name_stores_then_fails_witness :
  let run := Login_handleSubmit JSON.stringify VUndefined nameless_server
               sample_login_form empty_world in
  result_of run = Ok tt
  /\ store (world_of run) = mkSession (VStr "tok123") (resp_data nameless_response)
  /\ In (EvToastError (VStr "Invalid credentials")) (trace_of run).
Proof.
  intros run.
  destruct (login_without_name_stores_then_fails JSON.stringify VUndefined nameless_server
              "a@b.com" "s3cretpass" empty_world nameless_response nameless_response
              ltac:(discriminate) ltac:(discriminate)
              eq_refl eq_refl eq_refl eq_refl eq_refl eq_refl
              ltac:(intros name; discriminate))
    as (Hres & _ & Hstore & Htrace).
  split; [exact Hres | split; [exact Hstore |]].
  unfold run, sample_login_form. rewrite Htrace. cbn [In]. tauto.
Defined.

Lemma login_empty_fields_send_nothing_witness :
  Login_handleSubmit JSON.stringify VUndefined accepting_server
    (login_form "a@b.com" "") empty_world
  = (Ok tt, empty_world, [EvPreventDefault; EvToastError (VStr "Fill in all fields")]).
Proof.
  exact (login_empty_fields_send_nothing JSON.stringify VUndefined accepting_server
           "a@b.com" "" empty_world (or_intror eq_refl)).
Defined.

Lemma register_rejection_stops_flow_witness :
  handleSubmit JSON.stringify VUndefined rejecting_server typed_form empty_world
  = (Ok tt, empty_world,
     [EvPreventDefault; EvSetLoading true;
      EvHttp (register_form_request VUndefined typed_form);
      EvToastError (VStr "Could not validate credentials");
      EvSetLoading false]).
Proof.
  exact (proj1 (register_rejection_stops_flow JSON.stringify VUndefined rejecting_server
                  "Priya Sharma" "a@b.com" "s3cretpass" "patient" empty_world
                  sample_form_passes)
           rejected_response eq_refl eq_refl).
Defined.

Lemma register_reports_failure_when_me_is_rejected_witness :
  handleSubmit JSON.stringify VUndefined strict_server typed_form empty_world
  = (Ok tt, empty_world,
     [EvPreventDefault; EvSetLoading true;
      EvHttp (register_form_request VUndefined typed_form);
      EvHttp (login_request VUndefined (VStr "a@b.com") (VStr "s3cretpass"));
      EvHttp (me_noarg_request VUndefined);
      EvToastError (VStr "Could not validate credentials");
      EvSetLoading false]).
Proof.
  exact (register_reports_failure_when_me_is_rejected JSON.stringify VUndefined
           strict_server "Priya Sharma" "a@b.com" "s3cretpass" "patient" empty_world
           accepted_response accepted_response rejected_response
           sample_form_passes eq_refl eq_refl eq_refl eq_refl eq_refl eq_refl).
Defined.

Lemma login_navigation_lands_witness :
  App String.eqb "/dashboard"
    (store (world_of (Login_handleSubmit JSON.stringify VUndefined accepting_server
                        sample_login_form empty_world)))
  = Display AppLayout Dashboard.
Proof.
  destruct (login_navigation_lands JSON.stringify VUndefined accepting_server String.eqb
              "a@b.com" "s3cretpass" "Priya Sharma" empty_world
              accepted_response accepted_response
              eqb_matches_own_path_only ltac:(discriminate) ltac:(discriminate)
              eq_refl eq_refl eq_refl eq_refl eq_refl eq_refl eq_refl)
    as (_ & Hlands & _).
  exact (Hlands eq_refl).
Defined.

Lemma sign_out_lands_on_login_witness :
  logged_out (world_of (signOut logged_in_world))
  /\ App String.eqb "/login" (store (world_of (signOut logged_in_world)))
     = Display NoLayout Login.
Proof.
  destruct (sign_out_lands_on_login String.eqb logged_in_world eqb_matches_own_path_only)
    as (_ & _ & Hout & Hpage).
  split; [exact Hout | exact Hpage].
Defined.

Lemma searchFoods_params_witness :
  prop (params (api_config VUndefined
                  (SearchFoods (VStr "rice") (VObj [("limit", VNum 5)])))) "limit"
  = VNum 5
  /\ prop (params (api_config VUndefined
                     (SearchFoods (VStr "rice") (VObj [("limit", VNum 5)])))) "q"
     = VStr "rice".
Proof.
  assert (Hnodup : List.NoDup (map fst [("limit", VNum 5)])).
  { repeat constructor. cbn. tauto. }
  destruct (proj2 (searchFoods_params VUndefined (VStr "rice"))
              [("limit", VNum 5)] Hnodup) as (Hwins & Hkeeps).
  split.
  - exact (Hwins "limit" (VNum 5) (or_introl eq_refl)).
  - apply (Hkeeps "q"). intros v [H | []]. discriminate H.
Defined.

Lemma api_calls_go_through_client_witness :
  exists rest : list event,
    trace_of (run_api VUndefined accepting_server GetProfile logged_in_world)
    = EvHttp (set_header "Authorization" "Bearer abc123"
                (api_config VUndefined GetProfile)) :: rest.
Proof.
  destruct (api_calls_go_through_client VUndefined accepting_server GetProfile
              logged_in_world) as (_ & _ & _ & _ & Hwith & _).
  apply (Hwith "abc123"); [vm_compute; reflexivity | discriminate].
Defined.
